(** * ePayco checkout SDK: server-side core

    A shallow embedding of the server entry points of the SDK
    ([getEpaycoAuthToken], [mapPaymentDetailsToEpaycoRequest],
    [createEpaycoSession], [validateEpaycoSignature]) and the properties
    the specification states about them.

    JavaScript strings are modelled by their UTF-8 bytes (Rocq [string]),
    which is what [createHash("sha256").update(s)] hashes. *)

From Stdlib Require Import String Ascii List ZArith Bool Lia.
From Stdlib Require Import DecimalString DecimalNat.

Set Warnings "-register-all".
Import ListNotations.
Local Open Scope list_scope.
Local Open Scope string_scope.

(* ================================================================== *)
(** * Part I: definitions *)
(* ================================================================== *)

(** ** Unicode upper-casing, as [String.prototype.toUpperCase] *)

Module Unicode.
Local Open Scope Z_scope.

(** The simple upper-case mappings of the Unicode Character Database
    (version 14.0), as runs [(first, last, step, offset)]: every code point
    [first + k * step] up to [last] maps to itself plus [offset]. *)
Definition upper_runs : list (Z * Z * Z * Z) :=
  [ (97, 122, 1, -32); (181, 181, 1, 743); (224, 246, 1, -32); (248, 254, 1, -32);
    (255, 255, 1, 121); (257, 303, 2, -1); (305, 305, 1, -232); (307, 311, 2, -1);
    (314, 328, 2, -1); (331, 375, 2, -1); (378, 382, 2, -1); (383, 383, 1, -300);
    (384, 384, 1, 195); (387, 389, 2, -1); (392, 392, 1, -1); (396, 396, 1, -1);
    (402, 402, 1, -1); (405, 405, 1, 97); (409, 409, 1, -1); (410, 410, 1, 163);
    (414, 414, 1, 130); (417, 421, 2, -1); (424, 424, 1, -1); (429, 429, 1, -1);
    (432, 432, 1, -1); (436, 438, 2, -1); (441, 441, 1, -1); (445, 445, 1, -1);
    (447, 447, 1, 56); (453, 453, 1, -1); (454, 454, 1, -2); (456, 456, 1, -1);
    (457, 457, 1, -2); (459, 459, 1, -1); (460, 460, 1, -2); (462, 476, 2, -1);
    (477, 477, 1, -79); (479, 495, 2, -1); (498, 498, 1, -1); (499, 499, 1, -2);
    (501, 501, 1, -1); (505, 543, 2, -1); (547, 563, 2, -1); (572, 572, 1, -1);
    (575, 576, 1, 10815); (578, 578, 1, -1); (583, 591, 2, -1); (592, 592, 1, 10783);
    (593, 593, 1, 10780); (594, 594, 1, 10782); (595, 595, 1, -210); (596, 596, 1, -206);
    (598, 599, 1, -205); (601, 601, 1, -202); (603, 603, 1, -203); (604, 604, 1, 42319);
    (608, 608, 1, -205); (609, 609, 1, 42315); (611, 611, 1, -207); (613, 613, 1, 42280);
    (614, 614, 1, 42308); (616, 616, 1, -209); (617, 617, 1, -211); (618, 618, 1, 42308);
    (619, 619, 1, 10743); (620, 620, 1, 42305); (623, 623, 1, -211); (625, 625, 1, 10749);
    (626, 626, 1, -213); (629, 629, 1, -214); (637, 637, 1, 10727); (640, 640, 1, -218);
    (642, 642, 1, 42307); (643, 643, 1, -218); (647, 647, 1, 42282); (648, 648, 1, -218);
    (649, 649, 1, -69); (650, 651, 1, -217); (652, 652, 1, -71); (658, 658, 1, -219);
    (669, 669, 1, 42261); (670, 670, 1, 42258); (837, 837, 1, 84); (881, 883, 2, -1);
    (887, 887, 1, -1); (891, 893, 1, 130); (940, 940, 1, -38); (941, 943, 1, -37);
    (945, 961, 1, -32); (962, 962, 1, -31); (963, 971, 1, -32); (972, 972, 1, -64);
    (973, 974, 1, -63); (976, 976, 1, -62); (977, 977, 1, -57); (981, 981, 1, -47);
    (982, 982, 1, -54); (983, 983, 1, -8); (985, 1007, 2, -1); (1008, 1008, 1, -86);
    (1009, 1009, 1, -80); (1010, 1010, 1, 7); (1011, 1011, 1, -116); (1013, 1013, 1, -96);
    (1016, 1016, 1, -1); (1019, 1019, 1, -1); (1072, 1103, 1, -32); (1104, 1119, 1, -80);
    (1121, 1153, 2, -1); (1163, 1215, 2, -1); (1218, 1230, 2, -1); (1231, 1231, 1, -15);
    (1233, 1327, 2, -1); (1377, 1414, 1, -48); (4304, 4346, 1, 3008); (4349, 4351, 1, 3008);
    (5112, 5117, 1, -8); (7296, 7296, 1, -6254); (7297, 7297, 1, -6253);
    (7298, 7298, 1, -6244); (7299, 7300, 1, -6242); (7301, 7301, 1, -6243);
    (7302, 7302, 1, -6236); (7303, 7303, 1, -6181); (7304, 7304, 1, 35266);
    (7545, 7545, 1, 35332); (7549, 7549, 1, 3814); (7566, 7566, 1, 35384);
    (7681, 7829, 2, -1); (7835, 7835, 1, -59); (7841, 7935, 2, -1); (7936, 7943, 1, 8);
    (7952, 7957, 1, 8); (7968, 7975, 1, 8); (7984, 7991, 1, 8); (8000, 8005, 1, 8);
    (8017, 8023, 2, 8); (8032, 8039, 1, 8); (8048, 8049, 1, 74); (8050, 8053, 1, 86);
    (8054, 8055, 1, 100); (8056, 8057, 1, 128); (8058, 8059, 1, 112); (8060, 8061, 1, 126);
    (8112, 8113, 1, 8); (8126, 8126, 1, -7205); (8144, 8145, 1, 8); (8160, 8161, 1, 8);
    (8165, 8165, 1, 7); (8526, 8526, 1, -28); (8560, 8575, 1, -16); (8580, 8580, 1, -1);
    (9424, 9449, 1, -26); (11312, 11359, 1, -48); (11361, 11361, 1, -1);
    (11365, 11365, 1, -10795); (11366, 11366, 1, -10792); (11368, 11372, 2, -1);
    (11379, 11379, 1, -1); (11382, 11382, 1, -1); (11393, 11491, 2, -1);
    (11500, 11502, 2, -1); (11507, 11507, 1, -1); (11520, 11557, 1, -7264);
    (11559, 11559, 1, -7264); (11565, 11565, 1, -7264); (42561, 42605, 2, -1);
    (42625, 42651, 2, -1); (42787, 42799, 2, -1); (42803, 42863, 2, -1);
    (42874, 42876, 2, -1); (42879, 42887, 2, -1); (42892, 42892, 1, -1);
    (42897, 42899, 2, -1); (42900, 42900, 1, 48); (42903, 42921, 2, -1);
    (42933, 42947, 2, -1); (42952, 42954, 2, -1); (42961, 42961, 1, -1);
    (42967, 42969, 2, -1); (42998, 42998, 1, -1); (43859, 43859, 1, -928);
    (43888, 43967, 1, -38864); (65345, 65370, 1, -32); (66600, 66639, 1, -40);
    (66776, 66811, 1, -40); (66967, 67003, 2, -39); (66968, 66977, 1, -39);
    (66980, 66993, 1, -39); (66996, 67001, 1, -39); (67004, 67004, 1, -39);
    (68800, 68850, 1, -64); (71872, 71903, 1, -32); (93792, 93823, 1, -32);
    (125218, 125251, 1, -34) ].

(** The code points whose upper case is more than one code point (the
    unconditional entries of SpecialCasing). *)
Definition upper_special : list (Z * list Z) :=
  [ (223, [83; 83]); (329, [700; 78]); (496, [74; 780]); (912, [921; 776; 769]);
    (944, [933; 776; 769]); (1415, [1333; 1362]); (7830, [72; 817]); (7831, [84; 776]);
    (7832, [87; 778]); (7833, [89; 778]); (7834, [65; 702]); (8016, [933; 787]);
    (8018, [933; 787; 768]); (8020, [933; 787; 769]); (8022, [933; 787; 834]);
    (8064, [7944; 921]); (8065, [7945; 921]); (8066, [7946; 921]); (8067, [7947; 921]);
    (8068, [7948; 921]); (8069, [7949; 921]); (8070, [7950; 921]); (8071, [7951; 921]);
    (8072, [7944; 921]); (8073, [7945; 921]); (8074, [7946; 921]); (8075, [7947; 921]);
    (8076, [7948; 921]); (8077, [7949; 921]); (8078, [7950; 921]); (8079, [7951; 921]);
    (8080, [7976; 921]); (8081, [7977; 921]); (8082, [7978; 921]); (8083, [7979; 921]);
    (8084, [7980; 921]); (8085, [7981; 921]); (8086, [7982; 921]); (8087, [7983; 921]);
    (8088, [7976; 921]); (8089, [7977; 921]); (8090, [7978; 921]); (8091, [7979; 921]);
    (8092, [7980; 921]); (8093, [7981; 921]); (8094, [7982; 921]); (8095, [7983; 921]);
    (8096, [8040; 921]); (8097, [8041; 921]); (8098, [8042; 921]); (8099, [8043; 921]);
    (8100, [8044; 921]); (8101, [8045; 921]); (8102, [8046; 921]); (8103, [8047; 921]);
    (8104, [8040; 921]); (8105, [8041; 921]); (8106, [8042; 921]); (8107, [8043; 921]);
    (8108, [8044; 921]); (8109, [8045; 921]); (8110, [8046; 921]); (8111, [8047; 921]);
    (8114, [8122; 921]); (8115, [913; 921]); (8116, [902; 921]); (8118, [913; 834]);
    (8119, [913; 834; 921]); (8124, [913; 921]); (8130, [8138; 921]); (8131, [919; 921]);
    (8132, [905; 921]); (8134, [919; 834]); (8135, [919; 834; 921]); (8140, [919; 921]);
    (8146, [921; 776; 768]); (8147, [921; 776; 769]); (8150, [921; 834]);
    (8151, [921; 776; 834]); (8162, [933; 776; 768]); (8163, [933; 776; 769]);
    (8164, [929; 787]); (8166, [933; 834]); (8167, [933; 776; 834]); (8178, [8186; 921]);
    (8179, [937; 921]); (8180, [911; 921]); (8182, [937; 834]); (8183, [937; 834; 921]);
    (8188, [937; 921]); (64256, [70; 70]); (64257, [70; 73]); (64258, [70; 76]);
    (64259, [70; 70; 73]); (64260, [70; 70; 76]); (64261, [83; 84]); (64262, [83; 84]);
    (64275, [1348; 1350]); (64276, [1348; 1333]); (64277, [1348; 1339]);
    (64278, [1358; 1350]); (64279, [1348; 1341]) ].

Fixpoint in_runs (n : Z) (rs : list (Z * Z * Z * Z)) : option Z :=
  match rs with
  | [] => None
  | (first, last, step, offset) :: r =>
      if (first <=? n) && (n <=? last) && ((n - first) mod step =? 0)
      then Some (n + offset)
      else in_runs n r
  end.

Fixpoint in_special (n : Z) (l : list (Z * list Z)) : option (list Z) :=
  match l with
  | [] => None
  | (k, v) :: r => if n =? k then Some v else in_special n r
  end.

(** The upper case of one code point. *)
Definition upper_code_point (n : Z) : list Z :=
  match in_runs n upper_runs with
  | Some m => [m]
  | None =>
      match in_special n upper_special with
      | Some l => l
      | None => [n]
      end
  end.

(** A string is read as UTF-8: code points, and bytes that are not part
    of a well-formed sequence. Such bytes occur in the encoding of no
    JavaScript string; they are kept as they are. *)
Inductive item : Type :=
| code_point (n : Z)
| stray (c : ascii).

Definition byte_value (c : ascii) : Z := Z.of_N (N_of_ascii c).

Definition continuation (c : ascii) : bool :=
  (128 <=? byte_value c) && (byte_value c <? 192).

Definition low6 (c : ascii) : Z := Z.land (byte_value c) 63.

(** [n] is a Unicode scalar value that needs a sequence of this length:
    at least [least], at most [U+10FFFF], and no surrogate. *)
Definition scalar (least n : Z) : bool :=
  (least <=? n) && (n <=? 1114111) && negb ((55296 <=? n) && (n <=? 57343)).

Fixpoint decode (s : string) : list item :=
  match s with
  | EmptyString => []
  | String c r =>
      let b := byte_value c in
      if b <? 128 then code_point b :: decode r
      else if (194 <=? b) && (b <? 224) then
        match r with
        | String c1 r1 =>
            if continuation c1
            then code_point (Z.lor (Z.shiftl (Z.land b 31) 6) (low6 c1)) :: decode r1
            else stray c :: decode r
        | _ => stray c :: decode r
        end
      else if (224 <=? b) && (b <? 240) then
        match r with
        | String c1 (String c2 r2) =>
            let n := Z.lor (Z.shiftl (Z.land b 15) 12)
                       (Z.lor (Z.shiftl (low6 c1) 6) (low6 c2)) in
            if continuation c1 && continuation c2 && scalar 2048 n
            then code_point n :: decode r2
            else stray c :: decode r
        | _ => stray c :: decode r
        end
      else if (240 <=? b) && (b <? 245) then
        match r with
        | String c1 (String c2 (String c3 r3)) =>
            let n := Z.lor (Z.shiftl (Z.land b 7) 18)
                       (Z.lor (Z.shiftl (low6 c1) 12)
                          (Z.lor (Z.shiftl (low6 c2) 6) (low6 c3))) in
            if continuation c1 && continuation c2 && continuation c3 && scalar 65536 n
            then code_point n :: decode r3
            else stray c :: decode r
        | _ => stray c :: decode r
        end
      else stray c :: decode r
  end.

Definition byte_of (n : Z) : ascii := ascii_of_N (Z.to_N n).

Definition six (n shift : Z) : ascii := byte_of (128 + Z.land (Z.shiftr n shift) 63).

(** The UTF-8 bytes of a code point. *)
Definition encode (n : Z) : string :=
  if n <? 128 then String (byte_of n) EmptyString
  else if n <? 2048 then
    String (byte_of (192 + Z.shiftr n 6)) (String (six n 0) EmptyString)
  else if n <? 65536 then
    String (byte_of (224 + Z.shiftr n 12))
      (String (six n 6) (String (six n 0) EmptyString))
  else
    String (byte_of (240 + Z.shiftr n 18))
      (String (six n 12) (String (six n 6) (String (six n 0) EmptyString))).

Definition upper_item (i : item) : string :=
  match i with
  | code_point n => String.concat EmptyString (map encode (upper_code_point n))
  | stray c => String c EmptyString
  end.

(** Every code point is replaced by its upper case; there is no
    context-dependent rule for upper-casing. *)
Definition toUpperCase (s : string) : string :=
  String.concat EmptyString (map upper_item (decode s)).

End Unicode.

(** ** JavaScript values *)

Module Js.

(** A JS number only ever flows into [String(...)] in this code base; it is
    represented by the decimal text [Number.prototype.toString] gives it. *)
Record number : Type := Num { Number_toString : string }.

Inductive value : Type :=
| undefined
| null
| boolean (b : bool)
| num (n : number)
| str (s : string)
| array (l : list value)
| object (o : list (string * value)).

(** An object is its list of own properties in insertion order. *)
Definition obj : Type := list (string * value).

(** [o[k] = v]: overwrite in place, or append a new property. *)
Fixpoint obj_set (k : string) (v : value) (o : obj) : obj :=
  match o with
  | [] => [(k, v)]
  | (k', v') :: r =>
      if String.eqb k k' then (k, v) :: r else (k', v') :: obj_set k v r
  end.

(** [o[k]]: [undefined] when the property is missing. *)
Fixpoint obj_get (k : string) (o : obj) : value :=
  match o with
  | [] => undefined
  | (k', v) :: r => if String.eqb k k' then v else obj_get k r
  end.

(** [k in o] for own properties. *)
Fixpoint has_key (k : string) (o : obj) : bool :=
  match o with
  | [] => false
  | (k', _) :: r => String.eqb k k' || has_key k r
  end.

Definition keys (o : obj) : list string := map fst o.

(** Members of an object literal: [k: v] or a spread [...src]. Spreading
    [false] or [undefined] (the result of a failed [c && {...}]) adds nothing. *)
Inductive member : Type :=
| prop (k : string) (v : value)
| spread (src : option obj).

Definition obj_assign (target src : obj) : obj :=
  fold_left (fun acc kv => obj_set (fst kv) (snd kv) acc) src target.

Definition add_member (acc : obj) (m : member) : obj :=
  match m with
  | prop k v => obj_set k v acc
  | spread (Some src) => obj_assign acc src
  | spread None => acc
  end.

Definition object_literal (ms : list member) : obj :=
  fold_left add_member ms [].

(** Every entry a member contributes satisfies [P]. *)
Definition member_sat (P : string * value -> bool) (m : member) : Prop :=
  match m with
  | prop k v => P (k, v) = true
  | spread (Some src) => forallb P src = true
  | spread None => True
  end.

(** [c && {...}] under a spread. *)
Definition guard (c : bool) (o : obj) : option obj :=
  if c then Some o else None.

Definition String_of_bool (b : bool) : string :=
  if b then "true" else "false".

(** [String(v)] (the abstract operation ToString). *)
Fixpoint JsString (v : value) : string :=
  match v with
  | undefined => "undefined"
  | null => "null"
  | boolean b => String_of_bool b
  | num n => Number_toString n
  | str s => s
  | array l =>
      String.concat ","
        (map (fun e => match e with
                       | undefined | null => ""
                       | _ => JsString e
                       end) l)
  | object _ => "[object Object]"
  end.

(** [`${v}`] for an optional string field. *)
Definition template (v : option string) : string :=
  match v with
  | Some s => s
  | None => "undefined"
  end.

(** Truthiness of an optional string: [undefined], [null] and [""] are falsy. *)
Definition truthy (v : option string) : bool :=
  match v with
  | Some s => negb (String.eqb s "")
  | None => false
  end.

(** [a || b] on optional strings. *)
Definition or_else (a b : option string) : option string :=
  if truthy a then a else b.

Definition map_ascii (f : ascii -> ascii) : string -> string :=
  fix go (s : string) : string :=
    match s with
    | EmptyString => EmptyString
    | String c r => String (f c) (go r)
    end.

Definition upper_ascii (c : ascii) : ascii :=
  let n := nat_of_ascii c in
  if (97 <=? n)%nat && (n <=? 122)%nat then ascii_of_nat (n - 32) else c.

Definition lower_ascii (c : ascii) : ascii :=
  let n := nat_of_ascii c in
  if (65 <=? n)%nat && (n <=? 90)%nat then ascii_of_nat (n + 32) else c.

(** [s.toUpperCase()]: the Unicode upper-casing, code point by code point. *)
Definition toUpperCase : string -> string := Unicode.toUpperCase.

(** [s.toLowerCase()] on the ASCII texts it is applied to, the two
    renderings of a boolean. *)
Definition toLowerCase : string -> string := map_ascii lower_ascii.

(** [s.startsWith(p)]. *)
Definition startsWith (s p : string) : bool := String.prefix p s.

(** Decimal text of a loop counter, as in [`extra${i}`]. *)
Definition String_of_nat (n : nat) : string :=
  NilEmpty.string_of_uint (Nat.to_uint n).

(** Every leaf of a value is a string. *)
Fixpoint all_strings (v : value) : bool :=
  match v with
  | str _ => true
  | array l => forallb all_strings l
  | object o => forallb (fun kv => all_strings (snd kv)) o
  | _ => false
  end.

End Js.

(** ** SHA-256 (FIPS 180-4), as computed by Node's [crypto] module *)

Module Sha256.
Local Open Scope Z_scope.

Definition mask32 : Z := 0xFFFFFFFF.
Definition add32 (x y : Z) : Z := Z.land (x + y) mask32.
Definition rotr (n x : Z) : Z :=
  Z.lor (Z.shiftr x n) (Z.land (Z.shiftl x (32 - n)) mask32).
Definition xor3 (x y z : Z) : Z := Z.lxor (Z.lxor x y) z.

Definition Ch (e f g : Z) : Z :=
  Z.lxor (Z.land e f) (Z.land (Z.lxor e mask32) g).
Definition Maj (a b c : Z) : Z :=
  xor3 (Z.land a b) (Z.land a c) (Z.land b c).
Definition Sum0 (a : Z) : Z := xor3 (rotr 2 a) (rotr 13 a) (rotr 22 a).
Definition Sum1 (e : Z) : Z := xor3 (rotr 6 e) (rotr 11 e) (rotr 25 e).
Definition sig0 (x : Z) : Z := xor3 (rotr 7 x) (rotr 18 x) (Z.shiftr x 3).
Definition sig1 (x : Z) : Z := xor3 (rotr 17 x) (rotr 19 x) (Z.shiftr x 10).

Definition round_constants : list Z :=
  [ 0x428A2F98; 0x71374491; 0xB5C0FBCF; 0xE9B5DBA5;
    0x3956C25B; 0x59F111F1; 0x923F82A4; 0xAB1C5ED5;
    0xD807AA98; 0x12835B01; 0x243185BE; 0x550C7DC3;
    0x72BE5D74; 0x80DEB1FE; 0x9BDC06A7; 0xC19BF174;
    0xE49B69C1; 0xEFBE4786; 0x0FC19DC6; 0x240CA1CC;
    0x2DE92C6F; 0x4A7484AA; 0x5CB0A9DC; 0x76F988DA;
    0x983E5152; 0xA831C66D; 0xB00327C8; 0xBF597FC7;
    0xC6E00BF3; 0xD5A79147; 0x06CA6351; 0x14292967;
    0x27B70A85; 0x2E1B2138; 0x4D2C6DFC; 0x53380D13;
    0x650A7354; 0x766A0ABB; 0x81C2C92E; 0x92722C85;
    0xA2BFE8A1; 0xA81A664B; 0xC24B8B70; 0xC76C51A3;
    0xD192E819; 0xD6990624; 0xF40E3585; 0x106AA070;
    0x19A4C116; 0x1E376C08; 0x2748774C; 0x34B0BCB5;
    0x391C0CB3; 0x4ED8AA4A; 0x5B9CCA4F; 0x682E6FF3;
    0x748F82EE; 0x78A5636F; 0x84C87814; 0x8CC70208;
    0x90BEFFFA; 0xA4506CEB; 0xBEF9A3F7; 0xC67178F2 ].

(** The eight working variables / chaining values. *)
Record state : Type := St { sa : Z; sb : Z; sc : Z; sd : Z;
                            se : Z; sf : Z; sg : Z; sh : Z }.

Definition initial : state :=
  St 0x6A09E667 0xBB67AE85 0x3C6EF372 0xA54FF53A
     0x510E527F 0x9B05688C 0x1F83D9AB 0x5BE0CD19.

(** Big-endian bytes of [v], [n] of them. *)
Fixpoint be_bytes (n : nat) (v : Z) : list Z :=
  match n with
  | O => []
  | S m => Z.land (Z.shiftr v (8 * Z.of_nat m)) 255 :: be_bytes m v
  end.

(** Message padding: a one bit, zeros up to 56 mod 64, the bit length. *)
Definition pad (msg : list Z) : list Z :=
  let len := Z.of_nat (length msg) in
  (msg ++ [128] ++ repeat 0 (Z.to_nat ((55 - len) mod 64)) ++ be_bytes 8 (8 * len))%list.

Fixpoint words (bs : list Z) : list Z :=
  match bs with
  | b0 :: b1 :: b2 :: b3 :: r =>
      Z.lor (Z.lor (Z.shiftl b0 24) (Z.shiftl b1 16)) (Z.lor (Z.shiftl b2 8) b3)
      :: words r
  | _ => []
  end.

(** Message schedule, newest word first. *)
Fixpoint schedule (n : nat) (rw : list Z) : list Z :=
  match n with
  | O => rw
  | S m =>
      let w := add32 (add32 (sig1 (nth 1 rw 0)) (nth 6 rw 0))
                     (add32 (sig0 (nth 14 rw 0)) (nth 15 rw 0)) in
      schedule m (w :: rw)
  end.

Definition round (s : state) (kw : Z * Z) : state :=
  let t1 := add32 (add32 (add32 (sh s) (Sum1 (se s))) (Ch (se s) (sf s) (sg s)))
                  (add32 (fst kw) (snd kw)) in
  let t2 := add32 (Sum0 (sa s)) (Maj (sa s) (sb s) (sc s)) in
  St (add32 t1 t2) (sa s) (sb s) (sc s) (add32 (sd s) t1) (se s) (sf s) (sg s).

Definition compress (h : state) (block : list Z) : state :=
  let w := rev (schedule 48 (rev (words block))) in
  let s := fold_left round (combine round_constants w) h in
  St (add32 (sa h) (sa s)) (add32 (sb h) (sb s))
     (add32 (sc h) (sc s)) (add32 (sd h) (sd s))
     (add32 (se h) (se s)) (add32 (sf h) (sf s))
     (add32 (sg h) (sg s)) (add32 (sh h) (sh s)).

Fixpoint blocks (n : nat) (h : state) (bs : list Z) : state :=
  match n with
  | O => h
  | S m => blocks m (compress h (firstn 64 bs)) (skipn 64 bs)
  end.

Definition digest (msg : list Z) : list Z :=
  let p := pad msg in
  let h := blocks (length p / 64) initial p in
  flat_map (be_bytes 4)
    [sa h; sb h; sc h; sd h; se h; sf h; sg h; sh h].

Definition hex_digit (n : Z) : ascii :=
  if n <? 10 then ascii_of_N (Z.to_N (48 + n)) else ascii_of_N (Z.to_N (87 + n)).

(** [digest("hex")]: two lowercase hexadecimal digits per byte. *)
Fixpoint hex (bs : list Z) : string :=
  match bs with
  | [] => EmptyString
  | b :: r => String (hex_digit (Z.shiftr b 4)) (String (hex_digit (Z.land b 15)) (hex r))
  end.

Definition bytes_of_string (s : string) : list Z :=
  map (fun c => Z.of_N (N_of_ascii c)) (list_ascii_of_string s).

(** [createHash("sha256").update(s).digest("hex")]. *)
Definition sha256_hex (s : string) : string := hex (digest (bytes_of_string s)).

(** A character of [0-9a-f]. *)
Definition is_lower_hex (c : ascii) : bool :=
  let n := Z.of_N (N_of_ascii c) in
  ((48 <=? n) && (n <=? 57)) || ((97 <=? n) && (n <=? 102)).

End Sha256.

(** ** Base64, as [Buffer.from(s).toString("base64")] *)

Module Base64.
Local Open Scope Z_scope.

Definition alphabet : string :=
  "ABCDEFGHIJKLMNOPQRSTUVWXYZabcdefghijklmnopqrstuvwxyz0123456789+/".

Definition digit (n : Z) : ascii :=
  match String.get (Z.to_nat n) alphabet with
  | Some c => c
  | None => "="%char
  end.

Fixpoint encode (bs : list Z) : string :=
  match bs with
  | [] => EmptyString
  | [a] =>
      String (digit (Z.shiftr a 2))
        (String (digit (Z.shiftl (Z.land a 3) 4)) "==")
  | [a; b] =>
      String (digit (Z.shiftr a 2))
        (String (digit (Z.lor (Z.shiftl (Z.land a 3) 4) (Z.shiftr b 4)))
           (String (digit (Z.shiftl (Z.land b 15) 2)) "="))
  | a :: b :: c :: r =>
      String (digit (Z.shiftr a 2))
        (String (digit (Z.lor (Z.shiftl (Z.land a 3) 4) (Z.shiftr b 4)))
           (String (digit (Z.lor (Z.shiftl (Z.land b 15) 2) (Z.shiftr c 6)))
              (String (digit (Z.land c 63)) (encode r))))
  end.

Definition base64 (s : string) : string := encode (Sha256.bytes_of_string s).

End Base64.

(** ** The SDK's interfaces ([types.ts]) *)

Module EpaycoLoginResponse.
Record t : Type := mk {
  token : option string;
  error : option string;
  titleResponse : option string;
  textResponse : option string;
  message : option string
}.
(** The body [{}]. *)
Definition empty : t := mk None None None None None.
End EpaycoLoginResponse.

Module EpaycoBillingDetails.
Record t : Type := mk {
  email : string;
  name : string;
  address : string;
  typeDoc : string;
  numberDoc : string;
  callingCode : option string;
  mobilePhone : string
}.
End EpaycoBillingDetails.

Module EpaycoSplitReceiver.
Record t : Type := mk {
  merchantId : Js.number;
  amount : Js.number;
  taxBase : option Js.number;
  tax : option Js.number;
  fee : option Js.number
}.
End EpaycoSplitReceiver.

Module EpaycoSplitPayment.
Inductive kind : Type := percentage | fixed.
Definition kind_text (k : kind) : string :=
  match k with percentage => "percentage" | fixed => "fixed" end.
Record t : Type := mk {
  type : kind;
  receivers : list EpaycoSplitReceiver.t
}.
End EpaycoSplitPayment.

(** [EpaycoExtras] is read with computed keys; a slot is missing
    ([undefined]), [null] ([None]) or a string. *)
Definition EpaycoExtras : Type := list (string * option string).

Fixpoint extras_get (k : string) (ex : EpaycoExtras) : option (option string) :=
  match ex with
  | [] => None
  | (k', v) :: r => if String.eqb k k' then Some v else extras_get k r
  end.

Module EpaycoPaymentDetails.
Record t : Type := mk {
  name : string;
  description : string;
  currency : string;
  amount : Js.number;
  country : string;
  lang : string;
  ip : string;
  confirmationUrl : string;
  responseUrl : string;
  billing : EpaycoBillingDetails.t;
  invoice : option string;
  taxBase : option Js.number;
  tax : option Js.number;
  taxIco : option Js.number;
  methodsDisable : option (list string);
  splitPayment : option EpaycoSplitPayment.t;
  extras : option EpaycoExtras
}.
End EpaycoPaymentDetails.

Module EpaycoFieldError.
Record t : Type := mk { codError : Js.number; errorMessage : string }.
End EpaycoFieldError.

(** The [data] member of a session response: [EpaycoSessionSuccessData]
    or [EpaycoSessionErrorData], whichever members are there. *)
Module EpaycoSessionData.
Record t : Type := mk {
  sessionId : option string;
  errors : option (list EpaycoFieldError.t)
}.
End EpaycoSessionData.

(** A member that is [None] is absent from the body (it reads as
    [undefined]). *)
Module EpaycoSessionApiResponse.
Record t : Type := mk {
  success : option bool;
  titleResponse : option string;
  textResponse : option string;
  data : option EpaycoSessionData.t
}.
End EpaycoSessionApiResponse.

Module CreateEpaycoSessionConfig.
Record t : Type := mk {
  publicKey : string;
  privateKey : string;
  paymentDetails : option EpaycoPaymentDetails.t;
  isTestMode : bool;
  epaycoApiBaseUrl : option string
}.
End CreateEpaycoSessionConfig.

Module EpaycoSignatureConstructionData.
Record t : Type := mk {
  p_cust_id_cliente : option string;
  p_key : option string;
  x_ref_payco : option string;
  x_transaction_id : option string;
  x_amount : option string;
  x_currency_code : option string
}.
End EpaycoSignatureConstructionData.

(** ** The network: [axios.post] and the promises built on it *)

Module Axios.

Record request : Type := Request {
  url : string;
  body : Js.value;
  headers : list (string * string)
}.

(** What a [catch] clause can be handed: an axios error with
    [error.response?.data] and [error.message], another [Error] with its
    [message], or any other value [v] (neither [axios.isAxiosError(v)] nor
    [v instanceof Error] holds). *)
Inductive thrown (T : Type) : Type :=
| AxiosError (data : option T) (message : string)
| Error (message : string)
| NotAnError (v : Js.value).
Arguments AxiosError {T} data message.
Arguments Error {T} message.
Arguments NotAnError {T} v.

(** The outcome of one [axios.post<T>]: a response with its [data]
    ([None] when the body is [null]), or a throw. *)
Inductive reply (T : Type) : Type :=
| fulfilled (data : option T)
| failed (e : thrown T).
Arguments fulfilled {T} data.
Arguments failed {T} e.

(** The remote side: each endpoint answers a request, knowing the
    requests issued before it. *)
Record net : Type := Net {
  login_endpoint : list request -> request -> reply EpaycoLoginResponse.t;
  session_endpoint : list request -> request -> reply EpaycoSessionApiResponse.t
}.

(** The body of a [try] block: it appends the requests it issues to the
    log and ends by returning or by throwing. *)
Definition async (T A : Type) : Type :=
  list request -> (A + thrown T) * list request.

Definition ret {T A : Type} (a : A) : async T A :=
  fun log => (inl a, log).

Definition throw {T A : Type} (e : thrown T) : async T A :=
  fun log => (inr e, log).

Definition bind {T A B : Type} (m : async T A) (k : A -> async T B) : async T B :=
  fun log =>
    match m log with
    | (inl a, log') => k a log'
    | (inr e, log') => (inr e, log')
    end.

(** [await axios.post<T>(...)]. *)
Definition post {T : Type} (endpoint : list request -> request -> reply T)
           (r : request) : async T (option T) :=
  fun log =>
    match endpoint log r with
    | fulfilled d => (inl d, (log ++ [r])%list)
    | failed e => (inr e, (log ++ [r])%list)
    end.

(** A promise of the SDK settles: it resolves with a value or rejects
    with an [Error] ([new Error(message)] or a [TypeError]) of the given
    message. *)
Inductive settled (A : Type) : Type :=
| resolved (a : A)
| rejected (message : string).
Arguments resolved {A} a.
Arguments rejected {A} message.

Definition promise (A : Type) : Type := list request -> settled A * list request.

(** [try { body } catch (error) { ... }] where the catch clause always
    ends in a throw: [handler error] is the message of the [Error] that
    leaves it. *)
Definition try_catch {T A : Type} (body : async T A) (handler : thrown T -> string)
  : promise A :=
  fun log =>
    match body log with
    | (inl a, log') => (resolved a, log')
    | (inr e, log') => (rejected (handler e), log')
    end.

(** [await p] inside a [try] block. *)
Definition await {T A : Type} (p : promise A) : async T A :=
  fun log =>
    match p log with
    | (resolved a, log') => (inl a, log')
    | (rejected m, log') => (inr (Error m), log')
    end.

(** [throw new Error(m)] outside any [try]. *)
Definition reject {A : Type} (m : string) : promise A :=
  fun log => (rejected m, log).

End Axios.

Declare Scope js_scope.
Delimit Scope js_scope with js.
Notation "x <- m ;; k" := (Axios.bind m (fun x => k))
  (at level 61, m at next level, right associativity) : js_scope.
Notation "a ||| b" := (Js.or_else a b)
  (at level 50, left associativity) : js_scope.
Local Open Scope js_scope.

(** [if (v) { yes(v) } else { no }] on an optional string. *)
Definition if_truthy {A : Type} (v : option string) (yes : string -> A) (no : A) : A :=
  match v with
  | Some s => if String.eqb s "" then no else yes s
  | None => no
  end.

(** [d?.f]. *)
Definition opt_chain {T A : Type} (d : option T) (f : T -> option A) : option A :=
  match d with
  | Some x => f x
  | None => None
  end.

(** Text of the [TypeError] raised by reading property [p] of [v], for
    [v] one of [undefined] and [null]. *)
Definition TypeError_reading (v : Js.value) (p : string) : string :=
  "Cannot read properties of " ++ Js.JsString v ++ " (reading '" ++ p ++ "')".

(** [(error as Error).message] on a value that is no [Error]: reading a
    property of [undefined] or [null] throws a [TypeError] ([inr], with its
    message); an object gives its [message] member, [undefined] when it has
    none; a primitive or an array has no such property. *)
Definition message_of (v : Js.value) : Js.value + string :=
  match v with
  | Js.undefined | Js.null => inr (TypeError_reading v "message")
  | Js.object o => inl (Js.obj_get "message" o)
  | _ => inl Js.undefined
  end.

Definition DEFAULT_EPAYCO_API_BASE_URL : string := "https://apify.epayco.co".
Definition LOGIN_PATH : string := "/login".
Definition CREATE_SESSION_PATH : string := "/payment/session/create".

Definition AUTH_FAILED : string := "ePayco Authentication Failed: ".
Definition SESSION_FAILED : string := "ePayco Session Creation Failed: ".

(** The login request both versions of the server module issue. *)
Definition login_request (publicKey privateKey apiBaseUrl : string) : Axios.request :=
  let authUrl := apiBaseUrl ++ LOGIN_PATH in
  let credentials := Base64.base64 (publicKey ++ ":" ++ privateKey) in
  Axios.Request authUrl (Js.object [])
    [("Content-Type", "application/json");
     ("Authorization", "Basic " ++ credentials)].

Definition session_request (apiBaseUrl authToken : string) (requestBody : Js.obj)
  : Axios.request :=
  let sessionCreateFullUrl := apiBaseUrl ++ CREATE_SESSION_PATH in
  Axios.Request sessionCreateFullUrl (Js.object requestBody)
    [("Content-Type", "application/json");
     ("Authorization", "Bearer " ++ authToken)].

(** ** The server module with signature validation *)

Module Sdk.
Import Js Axios.

(** *** [getEpaycoAuthToken] *)

Definition auth_error_message (response_data : option EpaycoLoginResponse.t) : string :=
  let errorFields :=
    match response_data with
    | Some d => d
    | None => EpaycoLoginResponse.empty
    end in
  let errorMessage :=
    EpaycoLoginResponse.error errorFields
    ||| EpaycoLoginResponse.textResponse errorFields
    ||| EpaycoLoginResponse.titleResponse errorFields
    ||| EpaycoLoginResponse.message errorFields
    ||| Some "Invalid token or unknown error response during authentication." in
  AUTH_FAILED ++ template errorMessage.

Definition auth_catch (error : thrown EpaycoLoginResponse.t) : string :=
  match error with
  | AxiosError errorData axios_message =>
      let serverMessage :=
        opt_chain errorData EpaycoLoginResponse.message
        ||| opt_chain errorData EpaycoLoginResponse.error
        ||| opt_chain errorData EpaycoLoginResponse.textResponse
        ||| Some axios_message
        ||| Some "Network error or ePayco server issue during authentication." in
      AUTH_FAILED ++ template serverMessage
  | Error message => AUTH_FAILED ++ message
  | NotAnError _ => "An unknown error occurred during ePayco authentication."
  end.

Definition getEpaycoAuthToken (remote : net)
           (publicKey privateKey apiBaseUrl : string) : promise string :=
  try_catch
    (response_data <-
       post (login_endpoint remote) (login_request publicKey privateKey apiBaseUrl) ;;
     if_truthy (opt_chain response_data EpaycoLoginResponse.token)
       (fun token => ret token)
       (throw (Error (auth_error_message response_data))))
    auth_catch.

(** *** [mapPaymentDetailsToEpaycoRequest] *)

Definition billing_object (b : EpaycoBillingDetails.t) : obj :=
  object_literal
    [ prop "email" (str (JsString (str (EpaycoBillingDetails.email b))));
      prop "name" (str (JsString (str (EpaycoBillingDetails.name b))));
      prop "address" (str (JsString (str (EpaycoBillingDetails.address b))));
      prop "typeDoc" (str (JsString (str (EpaycoBillingDetails.typeDoc b))));
      prop "numberDoc" (str (JsString (str (EpaycoBillingDetails.numberDoc b))));
      prop "mobilePhone" (str (JsString (str (EpaycoBillingDetails.mobilePhone b))));
      spread (match EpaycoBillingDetails.callingCode b with
              | Some c => Some [("callingCode", str (JsString (str c)))]
              | None => None
              end) ].

Definition receiver_object (receiver : EpaycoSplitReceiver.t) : obj :=
  object_literal
    [ prop "merchantId" (str (JsString (num (EpaycoSplitReceiver.merchantId receiver))));
      prop "amount" (str (JsString (num (EpaycoSplitReceiver.amount receiver))));
      spread (match EpaycoSplitReceiver.taxBase receiver with
              | Some n => Some [("taxBase", str (JsString (num n)))]
              | None => None
              end);
      spread (match EpaycoSplitReceiver.tax receiver with
              | Some n => Some [("tax", str (JsString (num n)))]
              | None => None
              end);
      spread (match EpaycoSplitReceiver.fee receiver with
              | Some n => Some [("fee", str (JsString (num n)))]
              | None => None
              end) ].

Definition splitPayment_object (sp : EpaycoSplitPayment.t) : obj :=
  object_literal
    [ prop "type" (str (EpaycoSplitPayment.kind_text (EpaycoSplitPayment.type sp)));
      prop "receivers"
        (array (map (fun receiver => object (receiver_object receiver))
                  (EpaycoSplitPayment.receivers sp))) ].

(** The object literal bound to [stringifiedPayload]. *)
Definition stringifiedPayload_literal (details : EpaycoPaymentDetails.t)
           (isTestMode : bool) : obj :=
  let billing := EpaycoPaymentDetails.billing details in
  object_literal
    [ prop "test" (str (toLowerCase (JsString (boolean isTestMode))));
      prop "ip" (str (JsString (str (EpaycoPaymentDetails.ip details))));
      prop "name" (str (JsString (str (EpaycoPaymentDetails.name details))));
      prop "description" (str (JsString (str (EpaycoPaymentDetails.description details))));
      prop "currency"
        (str (toUpperCase (JsString (str (EpaycoPaymentDetails.currency details)))));
      prop "amount" (str (JsString (num (EpaycoPaymentDetails.amount details))));
      prop "country"
        (str (toUpperCase (JsString (str (EpaycoPaymentDetails.country details)))));
      prop "lang"
        (str (toUpperCase (JsString (str (EpaycoPaymentDetails.lang details)))));
      prop "response" (str (JsString (str (EpaycoPaymentDetails.responseUrl details))));
      prop "confirmation"
        (str (JsString (str (EpaycoPaymentDetails.confirmationUrl details))));
      prop "checkout_version" (str "2");
      prop "billing" (object (billing_object billing));
      prop "nameBilling" (str (JsString (str (EpaycoBillingDetails.name billing))));
      prop "emailBilling" (str (JsString (str (EpaycoBillingDetails.email billing))));
      prop "addressBilling" (str (JsString (str (EpaycoBillingDetails.address billing))));
      prop "typeDocBilling" (str (JsString (str (EpaycoBillingDetails.typeDoc billing))));
      prop "numberDocBilling"
        (str (JsString (str (EpaycoBillingDetails.numberDoc billing))));
      prop "mobilephoneBilling"
        (str (JsString (str (EpaycoBillingDetails.mobilePhone billing))));
      spread (match EpaycoPaymentDetails.invoice details with
              | Some s => Some [("invoice", str (JsString (str s)))]
              | None => None
              end);
      spread (match EpaycoPaymentDetails.taxBase details with
              | Some n => Some [("taxBase", str (JsString (num n)))]
              | None => None
              end);
      spread (match EpaycoPaymentDetails.tax details with
              | Some n => Some [("tax", str (JsString (num n)))]
              | None => None
              end);
      spread (match EpaycoPaymentDetails.taxIco details with
              | Some n => Some [("taxIco", str (JsString (num n)))]
              | None => None
              end);
      spread (match EpaycoPaymentDetails.methodsDisable details with
              | Some l =>
                  guard (0 <? length l)%nat
                    [("methodsDisable", array (map (fun s => str (JsString (str s))) l))]
              | None => None
              end);
      spread (match EpaycoPaymentDetails.splitPayment details with
              | Some sp => Some [("splitPayment", object (splitPayment_object sp))]
              | None => None
              end) ].

(** One turn of [for (let i = 1; i <= 10; i++)]. *)
Definition extras_step (ex : EpaycoExtras) (stringifiedPayload : obj) (i : nat) : obj :=
  let key := "extra" ++ String_of_nat i in
  match extras_get key ex with
  | Some (Some v) => obj_set key (str (JsString (str v))) stringifiedPayload
  | Some None => stringifiedPayload
  | None => stringifiedPayload
  end.

Definition mapPaymentDetailsToEpaycoRequest (details : EpaycoPaymentDetails.t)
           (isTestMode : bool) : obj :=
  let stringifiedPayload := stringifiedPayload_literal details isTestMode in
  match EpaycoPaymentDetails.extras details with
  | Some ex => fold_left (extras_step ex) (seq 1 10) stringifiedPayload
  | None => stringifiedPayload
  end.

(** *** [createEpaycoSession] *)

Definition CONFIG_KEYS_REQUIRED : string :=
  "ePayco SDK: Public Key and Private Key are required in CreateEpaycoSessionConfig.".
Definition CONFIG_DETAILS_REQUIRED : string :=
  "ePayco SDK: Payment details (paymentDetails) are required in CreateEpaycoSessionConfig.".

Definition field_errors (label : string) (errors : list EpaycoFieldError.t) : string :=
  String.concat ", "
    (map (fun err =>
            EpaycoFieldError.errorMessage err ++ " (" ++ label
            ++ JsString (num (EpaycoFieldError.codError err)) ++ ")")
       errors).

(** [errorMessage += ` Details: ...`] when [data?.errors] is a non-empty array. *)
Definition with_details (label : string) (data : option EpaycoSessionData.t)
           (errorMessage : string) : string :=
  match opt_chain data EpaycoSessionData.errors with
  | Some errors =>
      if (0 <? length errors)%nat
      then errorMessage ++ " Details: " ++ field_errors label errors
      else errorMessage
  | None => errorMessage
  end.

Definition session_error_message (errorResponse : EpaycoSessionApiResponse.t) : string :=
  let errorMessage := "ePayco session creation failed." in
  let errorMessage :=
    if truthy (EpaycoSessionApiResponse.textResponse errorResponse)
       || truthy (EpaycoSessionApiResponse.titleResponse errorResponse)
    then template (EpaycoSessionApiResponse.textResponse errorResponse
                   ||| EpaycoSessionApiResponse.titleResponse errorResponse
                   ||| Some errorMessage)
    else errorMessage in
  let errorMessage :=
    with_details "field code: " (EpaycoSessionApiResponse.data errorResponse)
      errorMessage in
  SESSION_FAILED ++ errorMessage.

Definition session_catch (error : thrown EpaycoSessionApiResponse.t) : string :=
  match error with
  | AxiosError errorData axios_message =>
      let serverMessage :=
        "Network error or ePayco server issue during session creation." in
      let serverMessage :=
        match errorData with
        | Some d =>
            with_details "code: " (EpaycoSessionApiResponse.data d)
              (template (EpaycoSessionApiResponse.textResponse d
                         ||| EpaycoSessionApiResponse.titleResponse d
                         ||| Some serverMessage))
        | None => template (Some axios_message ||| Some serverMessage)
        end in
      SESSION_FAILED ++ serverMessage
  | Error message =>
      if startsWith message "ePayco SDK:"
         || startsWith message "ePayco Authentication Failed:"
         || startsWith message "ePayco Session Creation Failed:"
      then message
      else SESSION_FAILED ++ message
  | NotAnError _ => "An unknown error occurred during ePayco session creation."
  end.

Definition createEpaycoSession (remote : net) (config : CreateEpaycoSessionConfig.t)
  : promise string :=
  let publicKey := CreateEpaycoSessionConfig.publicKey config in
  let privateKey := CreateEpaycoSessionConfig.privateKey config in
  let isTestMode := CreateEpaycoSessionConfig.isTestMode config in
  let epaycoApiBaseUrl :=
    match CreateEpaycoSessionConfig.epaycoApiBaseUrl config with
    | Some u => u
    | None => DEFAULT_EPAYCO_API_BASE_URL
    end in
  if negb (truthy (Some publicKey)) || negb (truthy (Some privateKey))
  then reject CONFIG_KEYS_REQUIRED
  else
    match CreateEpaycoSessionConfig.paymentDetails config with
    | None => reject CONFIG_DETAILS_REQUIRED
    | Some paymentDetails =>
        try_catch
          (authToken <-
             await (getEpaycoAuthToken remote publicKey privateKey epaycoApiBaseUrl) ;;
           let requestBody := mapPaymentDetailsToEpaycoRequest paymentDetails isTestMode in
           response_data <-
             post (session_endpoint remote)
               (session_request epaycoApiBaseUrl authToken requestBody) ;;
           match response_data with
           | None => throw (Error (TypeError_reading null "success"))
           | Some d =>
               if_truthy
                 (match EpaycoSessionApiResponse.success d with
                  | Some true =>
                      opt_chain (EpaycoSessionApiResponse.data d)
                        EpaycoSessionData.sessionId
                  | _ => None
                  end)
                 (fun sessionId => ret sessionId)
                 (throw (Error (session_error_message d)))
           end)
          session_catch
    end.

(** *** [validateEpaycoSignature] *)

Definition signatureString (constructionData : EpaycoSignatureConstructionData.t)
  : string :=
  template (EpaycoSignatureConstructionData.p_cust_id_cliente constructionData) ++ "^"
  ++ template (EpaycoSignatureConstructionData.p_key constructionData) ++ "^"
  ++ template (EpaycoSignatureConstructionData.x_ref_payco constructionData) ++ "^"
  ++ template (EpaycoSignatureConstructionData.x_transaction_id constructionData) ++ "^"
  ++ template (EpaycoSignatureConstructionData.x_amount constructionData) ++ "^"
  ++ template (EpaycoSignatureConstructionData.x_currency_code constructionData).

(** The guard of [validateEpaycoSignature]: some required parameter is missing. *)
Definition missing_parameters (receivedSignature : option string)
           (constructionData : EpaycoSignatureConstructionData.t) : bool :=
  negb (truthy receivedSignature)
  || negb (truthy (EpaycoSignatureConstructionData.p_cust_id_cliente constructionData))
  || negb (truthy (EpaycoSignatureConstructionData.p_key constructionData))
  || negb (truthy (EpaycoSignatureConstructionData.x_ref_payco constructionData))
  || negb (truthy (EpaycoSignatureConstructionData.x_transaction_id constructionData))
  || match EpaycoSignatureConstructionData.x_amount constructionData with
     | None => true
     | Some _ => false
     end
  || negb (truthy (EpaycoSignatureConstructionData.x_currency_code constructionData)).

Definition validateEpaycoSignature (receivedSignature : option string)
           (constructionData : EpaycoSignatureConstructionData.t) : bool :=
  if missing_parameters receivedSignature constructionData
  then false
  else
    let calculatedSignature := Sha256.sha256_hex (signatureString constructionData) in
    match receivedSignature with
    | Some s => String.eqb calculatedSignature s
    | None => false
    end.

End Sdk.

(** ** The server module without signature validation ([src/server/index.ts]) *)

Module ServerIndex.
Import Js Axios.

Definition auth_error_message (response_data : option EpaycoLoginResponse.t) : string :=
  let errorMessage :=
    opt_chain response_data EpaycoLoginResponse.error
    ||| opt_chain response_data EpaycoLoginResponse.textResponse
    ||| opt_chain response_data EpaycoLoginResponse.titleResponse
    ||| opt_chain response_data EpaycoLoginResponse.message
    ||| Some "Failed to authenticate with ePayco: Invalid token or error response." in
  AUTH_FAILED ++ template errorMessage.

Definition auth_catch (error : thrown EpaycoLoginResponse.t) : string :=
  match error with
  | AxiosError errorData _ =>
      let serverMessage :=
        opt_chain errorData EpaycoLoginResponse.message
        ||| Some "Network error or ePayco server issue during authentication." in
      AUTH_FAILED ++ template serverMessage
  | Error message => AUTH_FAILED ++ message
  | NotAnError v =>
      match message_of v with
      | inl message => AUTH_FAILED ++ JsString message
      | inr type_error => type_error
      end
  end.

Definition getEpaycoAuthToken (remote : net)
           (publicKey privateKey apiBaseUrl : string) : promise string :=
  try_catch
    (response_data <-
       post (login_endpoint remote) (login_request publicKey privateKey apiBaseUrl) ;;
     if_truthy (opt_chain response_data EpaycoLoginResponse.token)
       (fun token => ret token)
       (throw (Error (auth_error_message response_data))))
    auth_catch.

(** The mapper of this module is the same text as [Sdk]'s. *)
Definition mapPaymentDetailsToEpaycoRequest := Sdk.mapPaymentDetailsToEpaycoRequest.

Definition session_error_message (d : EpaycoSessionApiResponse.t) : string :=
  let errorMessage :=
    template (EpaycoSessionApiResponse.textResponse d
              ||| EpaycoSessionApiResponse.titleResponse d
              ||| Some "ePayco session creation failed.") in
  SESSION_FAILED
  ++ Sdk.with_details "code: " (EpaycoSessionApiResponse.data d) errorMessage.

Definition session_catch (error : thrown EpaycoSessionApiResponse.t) : string :=
  match error with
  | AxiosError errorData _ =>
      let serverMessage :=
        template (opt_chain errorData EpaycoSessionApiResponse.textResponse
                  ||| opt_chain errorData EpaycoSessionApiResponse.titleResponse
                  ||| Some "Network error or ePayco server issue during session creation.") in
      SESSION_FAILED
      ++ Sdk.with_details "code: "
           (opt_chain errorData EpaycoSessionApiResponse.data) serverMessage
  | Error message => SESSION_FAILED ++ message
  | NotAnError v =>
      match message_of v with
      | inl message => SESSION_FAILED ++ JsString message
      | inr type_error => type_error
      end
  end.

(** The promise resolves with whatever [response.data.data.sessionId]
    evaluates to: [None] stands for [undefined]. *)
Definition createEpaycoSession (remote : net) (config : CreateEpaycoSessionConfig.t)
  : promise (option string) :=
  let publicKey := CreateEpaycoSessionConfig.publicKey config in
  let privateKey := CreateEpaycoSessionConfig.privateKey config in
  let isTestMode := CreateEpaycoSessionConfig.isTestMode config in
  let epaycoApiBaseUrl :=
    match CreateEpaycoSessionConfig.epaycoApiBaseUrl config with
    | Some u => u
    | None => DEFAULT_EPAYCO_API_BASE_URL
    end in
  if negb (truthy (Some publicKey)) || negb (truthy (Some privateKey))
  then reject "ePayco Public Key and Private Key are required."
  else
    match CreateEpaycoSessionConfig.paymentDetails config with
    | None => reject "Payment details are required."
    | Some paymentDetails =>
        try_catch
          (authToken <-
             await (getEpaycoAuthToken remote publicKey privateKey epaycoApiBaseUrl) ;;
           let requestBody := mapPaymentDetailsToEpaycoRequest paymentDetails isTestMode in
           response_data <-
             post (session_endpoint remote)
               (session_request epaycoApiBaseUrl authToken requestBody) ;;
           match response_data with
           | None => throw (Error (TypeError_reading null "success"))
           | Some d =>
               match EpaycoSessionApiResponse.success d with
               | Some true =>
                   match EpaycoSessionApiResponse.data d with
                   | Some data => ret (EpaycoSessionData.sessionId data)
                   | None => throw (Error (TypeError_reading undefined "sessionId"))
                   end
               | _ => throw (Error (session_error_message d))
               end
           end)
          session_catch
    end.

End ServerIndex.

(** ** The specification's wording, for comparison with the code *)

Module Spec.

(** The key of extension slot [i]. *)
Definition extra_key (i : nat) : string := "extra" ++ Js.String_of_nat i.

(** What slot [i] contributes: its value under its own key when the slot
    is present and non-null, nothing otherwise. *)
Definition extras_entry (ex : EpaycoExtras) (i : nat) : Js.obj :=
  match extras_get (extra_key i) ex with
  | Some (Some v) => [(extra_key i, Js.str v)]
  | _ => []
  end.

(** Slots 1 to 10 in ascending order. *)
Definition extras_entries (ex : EpaycoExtras) : Js.obj :=
  flat_map (extras_entry ex) (seq 1 10).

(** The first present (non-empty) field of a list, or the fallback. *)
Fixpoint first_present (fields : list (option string)) (fallback : string) : string :=
  match fields with
  | [] => fallback
  | Some s :: rest => if String.eqb s "" then first_present rest fallback else s
  | None :: rest => first_present rest fallback
  end.

Definition is_extra_key (kv : string * Js.value) : bool := String.prefix "extra" (fst kv).
Definition not_extra (kv : string * Js.value) : bool := negb (is_extra_key kv).

(** The value of a property has only string leaves. *)
Definition string_valued (kv : string * Js.value) : bool := Js.all_strings (snd kv).

(** The diagnostic fields of a login body, in the order they are tried. *)
Definition login_fields (body : option EpaycoLoginResponse.t) : list (option string) :=
  [ opt_chain body EpaycoLoginResponse.error;
    opt_chain body EpaycoLoginResponse.textResponse;
    opt_chain body EpaycoLoginResponse.titleResponse;
    opt_chain body EpaycoLoginResponse.message ].

Definition GENERIC_AUTH_MESSAGE : string :=
  "Invalid token or unknown error response during authentication.".

(** The body is there and has a non-empty [token]. *)
Definition has_token (body : option EpaycoLoginResponse.t) (token : string) : Prop :=
  exists b, body = Some b /\ EpaycoLoginResponse.token b = Some token /\ token <> "".

(** The API base URL a configuration selects, and the two requests a
    session creation issues with it. *)
Definition base_url (config : CreateEpaycoSessionConfig.t) : string :=
  match CreateEpaycoSessionConfig.epaycoApiBaseUrl config with
  | Some u => u
  | None => DEFAULT_EPAYCO_API_BASE_URL
  end.

Definition first_request (config : CreateEpaycoSessionConfig.t) : Axios.request :=
  login_request (CreateEpaycoSessionConfig.publicKey config)
    (CreateEpaycoSessionConfig.privateKey config) (base_url config).

Definition second_request (config : CreateEpaycoSessionConfig.t)
           (pd : EpaycoPaymentDetails.t) (token : string) : Axios.request :=
  session_request (base_url config) token
    (Sdk.mapPaymentDetailsToEpaycoRequest pd (CreateEpaycoSessionConfig.isTestMode config)).

(** The response has [success === true] and a (non-empty) session id in
    [data.sessionId]. *)
Definition has_sessionId (d : EpaycoSessionApiResponse.t) (sessionId : string) : Prop :=
  EpaycoSessionApiResponse.success d = Some true
  /\ opt_chain (EpaycoSessionApiResponse.data d) EpaycoSessionData.sessionId
     = Some sessionId
  /\ sessionId <> "".

End Spec.

(** ** Sample inputs *)

Module Samples.

Definition material (key ref amount : string) : EpaycoSignatureConstructionData.t :=
  EpaycoSignatureConstructionData.mk
    (Some "123") (Some key) (Some ref) (Some "999") (Some amount) (Some "COP").

(** Scenario A of the specification. *)
Definition scenarioA : EpaycoSignatureConstructionData.t := material "abc" "999" "5000".
Definition scenarioA_digest : string :=
  "f1eca83be14c5ef7a2a9d17c6cda8ba7ec5d3f243cfd16fca9dddef5b3a271b2".

(** Two materials that differ only in where a caret sits. *)
Definition caret_in_key : EpaycoSignatureConstructionData.t := material "k^r" "x" "10".
Definition caret_in_ref : EpaycoSignatureConstructionData.t := material "k" "r^x" "10".

Definition billing : EpaycoBillingDetails.t :=
  EpaycoBillingDetails.mk "john.doe@example.com" "John Doe" "123 Main St"
    "CC" "123456789" None "3001234567".

(** The payment of the module's usage example, with chosen optional members. *)
Definition payment (methodsDisable : option (list string)) (extras : option EpaycoExtras)
  : EpaycoPaymentDetails.t :=
  EpaycoPaymentDetails.mk "Test Product" "A product for testing" "cop"
    (Js.Num "50000") "co" "es" "190.0.0.1"
    "https://myapp.com/api/epayco-confirmation" "https://myapp.com/checkout/response"
    billing None None None None methodsDisable None extras.

Definition config (pk sk : string) (pd : option EpaycoPaymentDetails.t)
  : CreateEpaycoSessionConfig.t :=
  CreateEpaycoSessionConfig.mk pk sk pd true None.

(** A gateway that accepts the login and answers session creation with
    [{success: true, data: {}}]. *)
Definition gateway_without_sessionId : Axios.net :=
  Axios.Net
    (fun _ _ => Axios.fulfilled
                  (Some (EpaycoLoginResponse.mk (Some "jwt") None None None None)))
    (fun _ _ => Axios.fulfilled
                  (Some (EpaycoSessionApiResponse.mk (Some true) None None
                           (Some (EpaycoSessionData.mk None None))))).

(** A gateway whose login answers with the given body. *)
Definition gateway_login (body : option EpaycoLoginResponse.t) : Axios.net :=
  Axios.Net
    (fun _ _ => Axios.fulfilled body)
    (fun _ _ => Axios.failed (Axios.NotAnError Js.undefined)).

(** The body [{error: "Invalid client", message: "Unauthorized"}], and a
    gateway that answers the login with status 401 and this body: axios
    throws, the body is [error.response.data]. *)
Definition unauthorized_body : EpaycoLoginResponse.t :=
  EpaycoLoginResponse.mk None (Some "Invalid client") None None (Some "Unauthorized").

Definition gateway_unauthorized (body : EpaycoLoginResponse.t) : Axios.net :=
  Axios.Net
    (fun _ _ => Axios.failed
                  (Axios.AxiosError (Some body) "Request failed with status code 401"))
    (fun _ _ => Axios.failed (Axios.NotAnError Js.undefined)).

End Samples.

(** ** Further wording and fixtures *)

Module Wording.

(** One entry of a field-error list, with the label the branch prints. *)
Definition field_error_text (label : string) (err : EpaycoFieldError.t) : string :=
  EpaycoFieldError.errorMessage err ++ " (" ++ label
  ++ Js.Number_toString (EpaycoFieldError.codError err) ++ ")".

(** The suffix a non-empty [data.errors] adds: every entry, in the order
    received, separated by commas. *)
Definition details_text (label : string) (data : option EpaycoSessionData.t) : string :=
  match opt_chain data EpaycoSessionData.errors with
  | Some (e :: es) => " Details: " ++ String.concat ", " (map (field_error_text label) (e :: es))
  | _ => ""
  end.

(** A rejection message carries one of the SDK's three tags. *)
Definition tagged (m : string) : Prop :=
  Js.startsWith m "ePayco SDK:" = true
  \/ Js.startsWith m "ePayco Authentication Failed:" = true
  \/ Js.startsWith m "ePayco Session Creation Failed:" = true.

(** The members every request body starts with, in order. *)
Definition required_keys : list string :=
  [ "test"; "ip"; "name"; "description"; "currency"; "amount"; "country"; "lang";
    "response"; "confirmation"; "checkout_version"; "billing";
    "nameBilling"; "emailBilling"; "addressBilling"; "typeDocBilling";
    "numberDocBilling"; "mobilephoneBilling" ].

Definition key_if {A : Type} (k : string) (v : option A) : list string :=
  match v with
  | Some _ => [k]
  | None => []
  end.

(** The optional members a payment contributes, in order. *)
Definition optional_keys (d : EpaycoPaymentDetails.t) : list string :=
  (key_if "invoice" (EpaycoPaymentDetails.invoice d)
   ++ key_if "taxBase" (EpaycoPaymentDetails.taxBase d)
   ++ key_if "tax" (EpaycoPaymentDetails.tax d)
   ++ key_if "taxIco" (EpaycoPaymentDetails.taxIco d)
   ++ match EpaycoPaymentDetails.methodsDisable d with
      | Some (_ :: _) => ["methodsDisable"]
      | _ => []
      end
   ++ key_if "splitPayment" (EpaycoPaymentDetails.splitPayment d))%list.

Definition extras_keys (d : EpaycoPaymentDetails.t) : list string :=
  match EpaycoPaymentDetails.extras d with
  | Some ex => Js.keys (Spec.extras_entries ex)
  | None => []
  end.

(** How [createEpaycoSession] settles once the session request is back. *)
Definition Sdk_interpret (r : Axios.reply EpaycoSessionApiResponse.t)
  : Axios.settled string :=
  match r with
  | Axios.failed e => Axios.rejected (Sdk.session_catch e)
  | Axios.fulfilled None => Axios.rejected (Sdk.session_catch (Axios.Error (TypeError_reading Js.null "success")))
  | Axios.fulfilled (Some d) =>
      if_truthy
        (match EpaycoSessionApiResponse.success d with
         | Some true =>
             opt_chain (EpaycoSessionApiResponse.data d) EpaycoSessionData.sessionId
         | _ => None
         end)
        (fun sessionId => Axios.resolved sessionId)
        (Axios.rejected (Sdk.session_catch (Axios.Error (Sdk.session_error_message d))))
  end.

(** No string occurs twice. *)
Fixpoint distinct (l : list string) : bool :=
  match l with
  | [] => true
  | k :: r => negb (existsb (String.eqb k) r) && distinct r
  end.

(** The same payment with another [extras] member. *)
Definition with_extras (d : EpaycoPaymentDetails.t) (ex : option EpaycoExtras)
  : EpaycoPaymentDetails.t :=
  EpaycoPaymentDetails.mk
    (EpaycoPaymentDetails.name d) (EpaycoPaymentDetails.description d)
    (EpaycoPaymentDetails.currency d) (EpaycoPaymentDetails.amount d)
    (EpaycoPaymentDetails.country d) (EpaycoPaymentDetails.lang d)
    (EpaycoPaymentDetails.ip d) (EpaycoPaymentDetails.confirmationUrl d)
    (EpaycoPaymentDetails.responseUrl d) (EpaycoPaymentDetails.billing d)
    (EpaycoPaymentDetails.invoice d) (EpaycoPaymentDetails.taxBase d)
    (EpaycoPaymentDetails.tax d) (EpaycoPaymentDetails.taxIco d)
    (EpaycoPaymentDetails.methodsDisable d) (EpaycoPaymentDetails.splitPayment d) ex.

(** An optional numeric member, as text, under key [k]. *)
Definition number_entry (k : string) (v : option Js.number) : Js.obj :=
  match v with
  | Some n => [(k, Js.str (Js.Number_toString n))]
  | None => []
  end.

(** A receiver of a split payment, every number as text. *)
Definition receiver_entries (r : EpaycoSplitReceiver.t) : Js.obj :=
  ([ ("merchantId", Js.str (Js.Number_toString (EpaycoSplitReceiver.merchantId r)));
     ("amount", Js.str (Js.Number_toString (EpaycoSplitReceiver.amount r))) ]
   ++ number_entry "taxBase" (EpaycoSplitReceiver.taxBase r)
   ++ number_entry "tax" (EpaycoSplitReceiver.tax r)
   ++ number_entry "fee" (EpaycoSplitReceiver.fee r))%list.

(** The nested billing object. *)
Definition billing_entries (b : EpaycoBillingDetails.t) : Js.obj :=
  ([ ("email", Js.str (EpaycoBillingDetails.email b));
     ("name", Js.str (EpaycoBillingDetails.name b));
     ("address", Js.str (EpaycoBillingDetails.address b));
     ("typeDoc", Js.str (EpaycoBillingDetails.typeDoc b));
     ("numberDoc", Js.str (EpaycoBillingDetails.numberDoc b));
     ("mobilePhone", Js.str (EpaycoBillingDetails.mobilePhone b)) ]
   ++ match EpaycoBillingDetails.callingCode b with
      | Some c => [("callingCode", Js.str c)]
      | None => []
      end)%list.

End Wording.

Module Fixtures.

Definition gateway (login : Axios.reply EpaycoLoginResponse.t)
           (session : Axios.reply EpaycoSessionApiResponse.t) : Axios.net :=
  Axios.Net (fun _ _ => login) (fun _ _ => session).

Definition login_ok : Axios.reply EpaycoLoginResponse.t :=
  Axios.fulfilled (Some (EpaycoLoginResponse.mk (Some "jwt") None None None None)).

Definition login_refused : Axios.reply EpaycoLoginResponse.t :=
  Axios.failed
    (Axios.AxiosError
       (Some (EpaycoLoginResponse.mk None (Some "Invalid client") (Some "Title")
                (Some "Text") None))
       "Request failed with status code 401").

Definition session_ok : Axios.reply EpaycoSessionApiResponse.t :=
  Axios.fulfilled
    (Some (EpaycoSessionApiResponse.mk (Some true) None None
             (Some (EpaycoSessionData.mk (Some "sess-1") None)))).

Definition refusal : EpaycoSessionApiResponse.t :=
  EpaycoSessionApiResponse.mk (Some false) (Some "Error") (Some "Invalid data")
    (Some (EpaycoSessionData.mk None
             (Some [ EpaycoFieldError.mk (Js.Num "101") "ip is required";
                     EpaycoFieldError.mk (Js.Num "102") "amount is invalid" ]))).

Definition config : CreateEpaycoSessionConfig.t :=
  Samples.config "pk" "sk" (Some (Samples.payment None None)).

Definition receivers : list EpaycoSplitReceiver.t :=
  [ EpaycoSplitReceiver.mk (Js.Num "111") (Js.Num "3000") None (Some (Js.Num "19")) None;
    EpaycoSplitReceiver.mk (Js.Num "222") (Js.Num "2000") (Some (Js.Num "1500")) None
      (Some (Js.Num "2.5")) ].

Definition split_payment : EpaycoPaymentDetails.t :=
  EpaycoPaymentDetails.mk "Test Product" "A product for testing" "cop"
    (Js.Num "5000") "co" "es" "190.0.0.1"
    "https://myapp.com/api/epayco-confirmation" "https://myapp.com/checkout/response"
    Samples.billing (Some "INV-1") None None None (Some ["CASH"; "PSE"])
    (Some (EpaycoSplitPayment.mk EpaycoSplitPayment.percentage receivers)) None.

End Fixtures.

(** ** The browser side ([client/index.ts]) *)

Module Browser.

(** What foreign code can throw, and how a call of foreign code ends. *)
Inductive thrown : Type :=
| an_Error (message : string)
| not_an_Error.

Inductive call (A : Type) : Type :=
| returns (a : A)
| throws (e : thrown).
Arguments returns {A} a.
Arguments throws {A} e.

(** What [checkout.configure] hands back: a falsy value, or an object
    whose [openNew], when it is a function, ends as given. *)
Inductive handler : Type :=
| no_handler
| a_handler (openNew : option (call unit)).

Record configureOptions : Type := Configure {
  cfg_sessionId : string;
  cfg_external : bool
}.

(** [window.ePayco]: missing, without [checkout], or with a [checkout]
    whose [configure] is a function or is missing. *)
Inductive global : Type :=
| no_ePayco
| no_checkout
| checkout (configure : option (configureOptions -> call handler)).

(** [window.ePayco?.checkout], as a condition. *)
Definition has_checkout (g : global) : bool :=
  match g with
  | checkout _ => true
  | _ => false
  end.

Inductive status : Type :=
| pending
| fulfilled
| rejected (message : string).

(** The page and the module state: the elements that carry the script id,
    those under [document.head] (in order) and those after it; [window.ePayco];
    the module variable [epaycoLoadPromise]; the promises the loader created,
    each named by a number, and the next unused number. *)
Record page : Type := Page {
  in_browser : bool;
  head : list nat;
  body : list nat;
  ePayco : global;
  epaycoLoadPromise : option nat;
  promises : list (nat * status);
  fresh : nat
}.

(** [document.getElementById(EPAYCO_SCRIPT_ID)]: the first in document order. *)
Definition getElementById (st : page) : option nat := hd_error (head st ++ body st)%list.

Definition found (e : option nat) : bool :=
  match e with
  | Some _ => true
  | None => false
  end.

(** [document.getElementById(EPAYCO_SCRIPT_ID)?.remove()]. *)
Definition remove_found (st : page) : page :=
  match head st with
  | _ :: r =>
      Page (in_browser st) r (body st) (ePayco st) (epaycoLoadPromise st)
        (promises st) (fresh st)
  | [] =>
      Page (in_browser st) [] (tl (body st)) (ePayco st) (epaycoLoadPromise st)
        (promises st) (fresh st)
  end.

(** [epaycoLoadPromise = v]. *)
Definition set_promise (v : option nat) (st : page) : page :=
  Page (in_browser st) (head st) (body st) (ePayco st) v (promises st) (fresh st).

Fixpoint status_of (p : nat) (ps : list (nat * status)) : option status :=
  match ps with
  | [] => None
  | (q, s) :: r => if Nat.eqb p q then Some s else status_of p r
  end.

(** [resolve()] or [reject(...)] of promise [p]: only a pending promise changes. *)
Fixpoint settle_in (p : nat) (s : status) (ps : list (nat * status))
  : list (nat * status) :=
  match ps with
  | [] => []
  | (q, t) :: r =>
      if Nat.eqb p q
      then (q, match t with pending => s | _ => t end) :: r
      else (q, t) :: settle_in p s r
  end.

Definition settle (p : nat) (s : status) (st : page) : page :=
  Page (in_browser st) (head st) (body st) (ePayco st) (epaycoLoadPromise st)
    (settle_in p s (promises st)) (fresh st).

(** What [loadEpaycoScript] returns: a promise made on the spot, rejected
    or resolved, or one of the promises the loader keeps. *)
Inductive loaded : Type :=
| rejected_now (message : string)
| resolved_now
| kept (p : nat).

(** The argument of a script's [onerror]. *)
Inductive error_argument : Type :=
| an_Event
| a_string (s : string).

Definition EPAYCO_SCRIPT_URL : string := "https://checkout.epayco.co/checkout.js".

(** The page after foreign code has set [window.ePayco]. *)
Definition with_ePayco (g : global) (st : page) : page :=
  Page (in_browser st) (head st) (body st) g (epaycoLoadPromise st) (promises st)
    (fresh st).

(** A page of a browser in which nothing carries the script id and the
    loader has not run. *)
Definition untouched (st : page) : Prop :=
  in_browser st = true /\ head st = [] /\ body st = []
  /\ epaycoLoadPromise st = None.

(** A fresh page of a browser, before the SDK did anything. *)
Definition blank : page := Page true [] [] no_ePayco None [] 0.

(** A [configure] that returns a handler whose [openNew] returns. *)
Definition good_handler : handler := a_handler (Some (returns tt)).
Definition good_configure (o : configureOptions) : call handler := returns good_handler.

End Browser.

Module OpenEpaycoCheckoutParams.
Record t : Type := mk {
  sessionId : option string;
  external : Js.value
}.
End OpenEpaycoCheckoutParams.

(** *** [src/client/index.ts] *)

Module ClientIndex.
Import Browser.

Definition loadEpaycoScript (st : page) : loaded * page :=
  if negb (in_browser st)
  then (rejected_now "ePayco SDK can only be loaded in a browser environment.", st)
  else
    match epaycoLoadPromise st with
    | Some p => (kept p, st)
    | None =>
        if found (getElementById st) && has_checkout (ePayco st)
        then (resolved_now, st)
        else
          let p := fresh st in
          if found (getElementById st) && has_checkout (ePayco st)
          then
            (kept p,
             Page (in_browser st) (head st) (body st) (ePayco st) (Some p)
               ((p, fulfilled) :: promises st) (S p))
          else
            (kept p,
             Page (in_browser st) (head st ++ [p])%list (body st) (ePayco st) (Some p)
               ((p, pending) :: promises st) (S p))
    end.

(** [script.onload] of the script made for promise [p]. *)
Definition script_onload (p : nat) (st : page) : page :=
  if has_checkout (ePayco st)
  then settle p fulfilled st
  else
    settle p
      (rejected "ePayco script loaded, but window.ePayco.checkout is not available.")
      (set_promise None st).

(** [script.onerror] of the script made for promise [p]. *)
Definition script_onerror (p : nat) (error : error_argument) (st : page) : page :=
  let st := if found (getElementById st) then remove_found st else st in
  settle p
    (rejected
       ("Failed to load ePayco script from " ++ EPAYCO_SCRIPT_URL ++ ". Error: "
        ++ match error with
           | an_Event => "Network error or script error"
           | a_string s => s
           end))
    (set_promise None st).

Definition OPEN_FAILED : string := "Failed to open ePayco checkout: ".

(** The [catch] clause of [openEpaycoCheckout]. *)
Definition open_catch (error : thrown) : string :=
  match error with
  | an_Error message => OPEN_FAILED ++ message
  | not_an_Error => "An unknown error occurred while trying to open ePayco checkout."
  end.

(** [openEpaycoCheckout]. [await loadEpaycoScript()] suspends the function:
    [settlement p] says how the kept promise [p] ends, and [later] is
    [window.ePayco] when the function goes on. The page returned is the one
    the call of the loader leaves. *)
Definition openEpaycoCheckout (params : option OpenEpaycoCheckoutParams.t)
           (st : page) (settlement : nat -> Axios.settled unit) (later : global)
  : Axios.settled handler * page :=
  if negb (in_browser st)
  then (Axios.rejected "openEpaycoCheckout can only be called in a browser environment.",
        st)
  else
    match params with
    | None => (Axios.rejected "sessionId is required to open ePayco checkout.", st)
    | Some p =>
        if_truthy (OpenEpaycoCheckoutParams.sessionId p)
          (fun sessionId =>
             match OpenEpaycoCheckoutParams.external p with
             | Js.boolean external =>
                 let (promise, st') := loadEpaycoScript st in
                 let awaited :=
                   match promise with
                   | rejected_now m => Axios.rejected m
                   | resolved_now => Axios.resolved tt
                   | kept q => settlement q
                   end in
                 (match awaited with
                  | Axios.rejected m => Axios.rejected (open_catch (an_Error m))
                  | Axios.resolved _ =>
                      match later with
                      | checkout (Some configure) =>
                          match configure (Configure sessionId external) with
                          | throws e => Axios.rejected (open_catch e)
                          | returns (a_handler (Some openNew)) =>
                              match openNew with
                              | returns _ =>
                                  Axios.resolved (a_handler (Some openNew))
                              | throws e => Axios.rejected (open_catch e)
                              end
                          | returns _ =>
                              Axios.rejected
                                (open_catch
                                   (an_Error
                                      "ePayco handler was not configured correctly or openNew method is missing."))
                          end
                      | _ =>
                          Axios.rejected
                            (open_catch
                               (an_Error
                                  "ePayco checkout library is not available on window.ePayco.checkout.configure after script load."))
                      end
                  end, st')
             | _ =>
                 (Axios.rejected
                    "The 'external' parameter (boolean) is required to open ePayco checkout.",
                  st)
             end)
          (Axios.rejected "sessionId is required to open ePayco checkout.", st)
    end.

End ClientIndex.

(** *** The other version of the client module *)

Module ClientDocumented.
Import Browser.

Definition loadEpaycoScript (st : page) : loaded * page :=
  if negb (in_browser st)
  then (rejected_now
          "ePayco SDK's loadEpaycoScript can only be called in a browser environment.",
        st)
  else
    match epaycoLoadPromise st with
    | Some p => (kept p, st)
    | None =>
        if found (getElementById st) && has_checkout (ePayco st)
        then (resolved_now, st)
        else
          let p := fresh st in
          if found (getElementById st) && has_checkout (ePayco st)
          then
            (kept p,
             Page (in_browser st) (head st) (body st) (ePayco st) (Some p)
               ((p, fulfilled) :: promises st) (S p))
          else
            (kept p,
             Page (in_browser st) (head st ++ [p])%list (body st) (ePayco st) (Some p)
               ((p, pending) :: promises st) (S p))
    end.

(** [typeof window.ePayco.checkout.configure === "function"], with the two
    tests before it. *)
Definition has_configure (g : global) : bool :=
  match g with
  | checkout (Some _) => true
  | _ => false
  end.

Definition script_onload (p : nat) (st : page) : page :=
  if has_configure (ePayco st)
  then settle p fulfilled st
  else
    settle p
      (rejected "ePayco script loaded, but ePayco checkout library is malformed or incomplete.")
      (remove_found (set_promise None st)).

Definition script_onerror (p : nat) (eventOrMessage : error_argument) (st : page)
  : page :=
  let errorMessage := "Failed to load ePayco script from " ++ EPAYCO_SCRIPT_URL ++ "." in
  let errorMessage :=
    match eventOrMessage with
    | an_Event => errorMessage ++ " Network error or script execution error."
    | a_string s => errorMessage ++ " Details: " ++ s
    end in
  settle p (rejected errorMessage) (set_promise None (remove_found st)).

End ClientDocumented.

(* ================================================================== *)
(** * Part II: properties *)
(* ================================================================== *)

Arguments Sha256.sha256_hex : simpl never.

(** ** The digest *)

Example sha256_abc :
  Sha256.sha256_hex "abc"
  = "ba7816bf8f01cfea414140de5dae2223b00361a396177a9cb410ff61f20015ad".
Proof. vm_compute. reflexivity. Qed.

Example sha256_empty :
  Sha256.sha256_hex ""
  = "e3b0c44298fc1c149afbf4c8996fb92427ae41e4649b934ca495991b7852b855".
Proof. vm_compute. reflexivity. Qed.

Example sha256_two_blocks :
  Sha256.sha256_hex "abcdbcdecdefdefgefghfghighijhijkijkljklmklmnlmnomnopnopq"
  = "248d6a61d20638b8e5c026930c3e6039a33ce45964ff2167f6ecedd419db06c1".
Proof. vm_compute. reflexivity. Qed.

Example base64_credentials : Base64.base64 "pub:priv" = "cHViOnByaXY=".
Proof. vm_compute. reflexivity. Qed.

Section DigestShape.
Import Sha256.
Local Open Scope Z_scope.

Lemma hex_digit_lower (n : Z) : 0 <= n < 16 -> is_lower_hex (hex_digit n) = true.
Proof.
  intros H. rewrite <- (Z2Nat.id n) by lia.
  assert (Hk : (Z.to_nat n < 16)%nat) by lia.
  revert Hk. generalize (Z.to_nat n) as k. intros k Hk.
  do 16 (destruct k as [|k]; [reflexivity|]). lia.
Qed.

Lemma be_bytes_range (n : nat) (v : Z) :
  Forall (fun b => 0 <= b < 256) (be_bytes n v).
Proof.
  induction n as [|n IH]; simpl; constructor; [|assumption].
  change 255 with (Z.ones 8). rewrite Z.land_ones by lia.
  apply Z.mod_pos_bound. reflexivity.
Qed.

Lemma hex_lower (bs : list Z) :
  Forall (fun b => 0 <= b < 256) bs ->
  forallb is_lower_hex (list_ascii_of_string (hex bs)) = true
  /\ String.length (hex bs) = (2 * List.length bs)%nat.
Proof.
  induction 1 as [|b bs Hb _ [IH1 IH2]]; [now split|].
  cbn [hex list_ascii_of_string forallb String.length List.length].
  rewrite IH1, IH2, !hex_digit_lower.
  - split; [reflexivity | lia].
  - change 15 with (Z.ones 4). rewrite Z.land_ones by lia.
    apply Z.mod_pos_bound. reflexivity.
  - rewrite Z.shiftr_div_pow2 by lia. change (2 ^ 4) with 16.
    split; [apply Z.div_pos; lia | apply Z.div_lt_upper_bound; lia].
Qed.

(** The digest text is 64 characters of [0-9a-f]. *)
Lemma sha256_hex_lowercase (s : string) :
  forallb is_lower_hex (list_ascii_of_string (sha256_hex s)) = true
  /\ String.length (sha256_hex s) = 64%nat.
Proof.
  unfold sha256_hex, digest.
  set (h := blocks _ _ _).
  destruct (hex_lower (flat_map (be_bytes 4)
                         [sa h; sb h; sc h; sd h; se h; sf h; sg h; sh h])) as [L1 L2].
  - cbn [flat_map]. rewrite !Forall_app. repeat split; try apply be_bytes_range.
    constructor.
  - split; [exact L1|]. rewrite L2. reflexivity.
Qed.

End DigestShape.

(** ** Signature verifier *)

Section Verifier.
Import Js.

Lemma truthy_Some (s : string) : s <> "" -> truthy (Some s) = true.
Proof.
  intros H. unfold truthy. destruct (String.eqb_spec s ""); [contradiction | reflexivity].
Qed.

Lemma truthy_inv (v : option string) :
  truthy v = true -> exists s, v = Some s /\ s <> "".
Proof.
  destruct v as [s|]; simpl; [|discriminate].
  destruct (String.eqb_spec s ""); [discriminate|]. intros _. now exists s.
Qed.

(** Once the guard is passed the verdict is the comparison of the
    digest of the caret-joined fields with the received signature. *)
Lemma validate_when_present (sig c k r t a cur : string) :
  sig <> "" -> c <> "" -> k <> "" -> r <> "" -> t <> "" -> cur <> "" ->
  Sdk.validateEpaycoSignature (Some sig)
    (EpaycoSignatureConstructionData.mk
       (Some c) (Some k) (Some r) (Some t) (Some a) (Some cur))
  = String.eqb
      (Sha256.sha256_hex
         (c ++ "^" ++ k ++ "^" ++ r ++ "^" ++ t ++ "^" ++ a ++ "^" ++ cur))
      sig.
Proof.
  intros Hs Hc Hk Hr Ht Hcur.
  unfold Sdk.validateEpaycoSignature, Sdk.missing_parameters, Sdk.signatureString.
  cbn [EpaycoSignatureConstructionData.p_cust_id_cliente
       EpaycoSignatureConstructionData.p_key
       EpaycoSignatureConstructionData.x_ref_payco
       EpaycoSignatureConstructionData.x_transaction_id
       EpaycoSignatureConstructionData.x_amount
       EpaycoSignatureConstructionData.x_currency_code template].
  rewrite !truthy_Some by assumption. reflexivity.
Qed.

(** The guard fires exactly when a checked input is falsy, or the amount
    is [undefined]/[null]. *)
Lemma missing_parameters_false_iff (sig : option string)
      (m : EpaycoSignatureConstructionData.t) :
  Sdk.missing_parameters sig m = false <->
  truthy sig = true
  /\ truthy (EpaycoSignatureConstructionData.p_cust_id_cliente m) = true
  /\ truthy (EpaycoSignatureConstructionData.p_key m) = true
  /\ truthy (EpaycoSignatureConstructionData.x_ref_payco m) = true
  /\ truthy (EpaycoSignatureConstructionData.x_transaction_id m) = true
  /\ EpaycoSignatureConstructionData.x_amount m <> None
  /\ truthy (EpaycoSignatureConstructionData.x_currency_code m) = true.
Proof.
  unfold Sdk.missing_parameters.
  destruct (EpaycoSignatureConstructionData.x_amount m);
    rewrite !orb_false_iff, !negb_false_iff; intuition congruence.
Qed.

End Verifier.

(** C1. When the received signature and the five checked material fields
    are present (non-empty strings) and the amount is present (any string,
    used as given), [validateEpaycoSignature] answers [true] exactly when
    the received signature is, character for character, the lowercase
    hexadecimal SHA-256 digest of
    [customerClientId ^ signingKey ^ transactionReference ^ transactionId ^
    amount ^ currencyCode]. *)
Theorem validateEpaycoSignature_true_iff_digest
        (sig c k r t a cur : string) :
  sig <> "" -> c <> "" -> k <> "" -> r <> "" -> t <> "" -> cur <> "" ->
  Sdk.validateEpaycoSignature (Some sig)
    (EpaycoSignatureConstructionData.mk
       (Some c) (Some k) (Some r) (Some t) (Some a) (Some cur)) = true
  <-> sig = Sha256.sha256_hex
              (c ++ "^" ++ k ++ "^" ++ r ++ "^" ++ t ++ "^" ++ a ++ "^" ++ cur).
Proof.
  intros Hs Hc Hk Hr Ht Hcur.
  rewrite validate_when_present by assumption.
  rewrite String.eqb_eq. split; congruence.
Qed.

Lemma validateEpaycoSignature_true_iff_digest_witness :
  Sdk.validateEpaycoSignature (Some Samples.scenarioA_digest) Samples.scenarioA = true
  <-> Samples.scenarioA_digest = Sha256.sha256_hex "123^abc^999^999^5000^COP".
Proof.
  apply (validateEpaycoSignature_true_iff_digest
           Samples.scenarioA_digest "123" "abc" "999" "999" "5000" "COP");
    discriminate.
Defined.

(** An empty string is a string the guard counts as missing (every input
    but the amount is tested for truthiness). *)
Lemma validateEpaycoSignature_empty_key (sig c r t a cur : string) :
  Sdk.validateEpaycoSignature (Some sig)
    (EpaycoSignatureConstructionData.mk
       (Some c) (Some "") (Some r) (Some t) (Some a) (Some cur)) = false.
Proof.
  unfold Sdk.validateEpaycoSignature.
  replace (Sdk.missing_parameters _ _) with true; [reflexivity|].
  unfold Sdk.missing_parameters. simpl. now rewrite !orb_true_r.
Qed.

(** Scenario A: the fixture digest is accepted; the same digest with its
    last character changed, or in upper case, is not. *)
Example scenarioA_accepts :
  Sdk.validateEpaycoSignature (Some Samples.scenarioA_digest) Samples.scenarioA = true.
Proof. vm_compute. reflexivity. Qed.

Example scenarioA_rejects_altered :
  Sdk.validateEpaycoSignature
    (Some "f1eca83be14c5ef7a2a9d17c6cda8ba7ec5d3f243cfd16fca9dddef5b3a271b3")
    Samples.scenarioA = false.
Proof. vm_compute. reflexivity. Qed.

Example scenarioA_rejects_upper_case :
  Sdk.validateEpaycoSignature
    (Some "F1ECA83BE14C5EF7A2A9D17C6CDA8BA7EC5D3F243CFD16FCA9DDDEF5B3A271B2")
    Samples.scenarioA = false.
Proof. vm_compute. reflexivity. Qed.



(** C3. The caret-joined signing string is not injective: the materials
    [caret_in_key] (signingKey ["k^r"], transactionReference ["x"]) and
    [caret_in_ref] (signingKey ["k"], transactionReference ["r^x"]) are
    different, are joined to the same string, get the same verdict for every
    received signature, and are both accepted with the digest of that string. *)
Theorem signatureString_not_injective :
  Samples.caret_in_key <> Samples.caret_in_ref
  /\ Sdk.signatureString Samples.caret_in_key = Sdk.signatureString Samples.caret_in_ref
  /\ (forall sig : option string,
         Sdk.validateEpaycoSignature sig Samples.caret_in_key
         = Sdk.validateEpaycoSignature sig Samples.caret_in_ref)
  /\ Sdk.validateEpaycoSignature
       (Some (Sha256.sha256_hex (Sdk.signatureString Samples.caret_in_key)))
       Samples.caret_in_key = true
  /\ Sdk.validateEpaycoSignature
       (Some (Sha256.sha256_hex (Sdk.signatureString Samples.caret_in_key)))
       Samples.caret_in_ref = true.
Proof.
  split; [discriminate|].
  split; [reflexivity|].
  split.
  - intros sig. unfold Sdk.validateEpaycoSignature.
    replace (Sdk.missing_parameters sig Samples.caret_in_ref)
      with (Sdk.missing_parameters sig Samples.caret_in_key) by reflexivity.
    replace (Sdk.signatureString Samples.caret_in_ref)
      with (Sdk.signatureString Samples.caret_in_key) by reflexivity.
    reflexivity.
  - split; vm_compute; reflexivity.
Qed.

(** ** Objects *)

Section Objects.
Import Js.

Lemma has_key_obj_set (k k' : string) (v : value) (o : obj) :
  has_key k (obj_set k' v o) = String.eqb k k' || has_key k o.
Proof.
  induction o as [|[k0 v0] r IH]; simpl.
  - now rewrite orb_false_r.
  - destruct (String.eqb_spec k' k0) as [->|Hne]; simpl.
    + now destruct (String.eqb k k0).
    + rewrite IH. destruct (String.eqb k k0), (String.eqb k k'); reflexivity.
Qed.

Lemma obj_get_obj_set (k k' : string) (v : value) (o : obj) :
  obj_get k (obj_set k' v o) = if String.eqb k k' then v else obj_get k o.
Proof.
  induction o as [|[k0 v0] r IH]; simpl.
  - reflexivity.
  - destruct (String.eqb_spec k' k0) as [->|Hne]; simpl.
    + now destruct (String.eqb k k0).
    + rewrite IH. destruct (String.eqb_spec k k0) as [->|]; [|reflexivity].
      destruct (String.eqb_spec k0 k'); [congruence | reflexivity].
Qed.

(** Assigning to a property the object lacks appends it. *)
Lemma obj_set_fresh (k : string) (v : value) (o : obj) :
  has_key k o = false -> obj_set k v o = (o ++ [(k, v)])%list.
Proof.
  induction o as [|[k0 v0] r IH]; simpl; [reflexivity|].
  intros H. apply orb_false_iff in H as [H1 H2].
  rewrite H1, IH by assumption. reflexivity.
Qed.

Lemma has_key_app (k : string) (o1 o2 : obj) :
  has_key k (o1 ++ o2)%list = has_key k o1 || has_key k o2.
Proof.
  induction o1 as [|[k0 v0] r IH]; simpl; [reflexivity|].
  now rewrite IH, orb_assoc.
Qed.

(** A property of all the entries of an object survives an assignment of
    an entry that has it, and carries over to object literals. *)
Lemma forallb_obj_set (P : string * value -> bool) (k : string) (v : value) (o : obj) :
  P (k, v) = true -> forallb P o = true -> forallb P (obj_set k v o) = true.
Proof.
  intros Hkv. induction o as [|[k0 v0] r IH]; simpl.
  - now rewrite Hkv.
  - intros H. apply andb_true_iff in H as [H1 H2].
    destruct (String.eqb k k0); simpl.
    + now rewrite Hkv, H2.
    + now rewrite H1, IH.
Qed.

Lemma forallb_obj_assign (P : string * value -> bool) (src target : obj) :
  forallb P src = true -> forallb P target = true ->
  forallb P (obj_assign target src) = true.
Proof.
  unfold obj_assign. revert target.
  induction src as [|[k v] r IH]; simpl; intros target Hs Ht; [assumption|].
  apply andb_true_iff in Hs as [H1 H2].
  apply IH; [assumption|]. now apply forallb_obj_set.
Qed.

Lemma forallb_fold_members (P : string * value -> bool) (ms : list member) :
  Forall (member_sat P) ms ->
  forall acc, forallb P acc = true -> forallb P (fold_left add_member ms acc) = true.
Proof.
  induction 1 as [|m ms Hm _ IH]; simpl; intros acc Hacc; [assumption|].
  apply IH. destruct m as [k v|[src|]]; simpl in *.
  - now apply forallb_obj_set.
  - now apply forallb_obj_assign.
  - assumption.
Qed.

Lemma forallb_object_literal (P : string * value -> bool) (ms : list member) :
  Forall (member_sat P) ms -> forallb P (object_literal ms) = true.
Proof.
  intros H. unfold object_literal. now apply forallb_fold_members.
Qed.

Lemma has_key_false_of_forallb (P : string * value -> bool) (k : string) (o : obj) :
  (forall v, P (k, v) = false) -> forallb P o = true -> has_key k o = false.
Proof.
  intros HP. induction o as [|[k0 v0] r IH]; simpl; [reflexivity|].
  intros H. apply andb_true_iff in H as [H1 H2].
  rewrite IH by assumption. rewrite orb_false_r.
  destruct (String.eqb_spec k k0) as [->|]; [|reflexivity].
  rewrite HP in H1. discriminate.
Qed.

End Objects.

(** ** Canonicalizer *)

Section Canonicalizer.
Import Js Spec.

Lemma all_strings_object (o : obj) :
  all_strings (object o) = forallb string_valued o.
Proof. reflexivity. Qed.

Lemma all_strings_map_str (f : string -> string) (l : list string) :
  all_strings (array (map (fun s => str (f s)) l)) = true.
Proof.
  simpl. induction l as [|s r IH]; simpl; [reflexivity | assumption].
Qed.

Lemma billing_object_strings (b : EpaycoBillingDetails.t) :
  forallb string_valued (Sdk.billing_object b) = true.
Proof.
  apply forallb_object_literal.
  repeat constructor. simpl. now destruct (EpaycoBillingDetails.callingCode b).
Qed.

Lemma receiver_object_strings (r : EpaycoSplitReceiver.t) :
  forallb string_valued (Sdk.receiver_object r) = true.
Proof.
  apply forallb_object_literal.
  repeat constructor; simpl.
  - now destruct (EpaycoSplitReceiver.taxBase r).
  - now destruct (EpaycoSplitReceiver.tax r).
  - now destruct (EpaycoSplitReceiver.fee r).
Qed.

Lemma receivers_strings (rs : list EpaycoSplitReceiver.t) :
  all_strings (array (map (fun r => object (Sdk.receiver_object r)) rs)) = true.
Proof.
  change (forallb all_strings (map (fun r => object (Sdk.receiver_object r)) rs) = true).
  induction rs as [|r rs IH]; [reflexivity|].
  cbn [map forallb]. rewrite IH, andb_true_r.
  rewrite all_strings_object. apply receiver_object_strings.
Qed.

Lemma splitPayment_object_strings (sp : EpaycoSplitPayment.t) :
  forallb string_valued (Sdk.splitPayment_object sp) = true.
Proof.
  apply forallb_object_literal.
  repeat constructor. unfold string_valued, snd. apply receivers_strings.
Qed.

Lemma literal_strings (d : EpaycoPaymentDetails.t) (t : bool) :
  forallb string_valued (Sdk.stringifiedPayload_literal d t) = true.
Proof.
  apply forallb_object_literal.
  repeat constructor.
  - exact (billing_object_strings _).
  - simpl. now destruct (EpaycoPaymentDetails.invoice d).
  - simpl. now destruct (EpaycoPaymentDetails.taxBase d).
  - simpl. now destruct (EpaycoPaymentDetails.tax d).
  - simpl. now destruct (EpaycoPaymentDetails.taxIco d).
  - destruct (EpaycoPaymentDetails.methodsDisable d) as [l|]; [|exact I].
    unfold guard. destruct (0 <? length l)%nat; [|exact I].
    cbn [member_sat forallb]. rewrite andb_true_r.
    unfold string_valued, snd. apply (all_strings_map_str (fun s => JsString (str s))).
  - destruct (EpaycoPaymentDetails.splitPayment d) as [sp|]; [|exact I].
    cbn [member_sat forallb]. rewrite andb_true_r.
    exact (splitPayment_object_strings sp).
Qed.

(** No property of the literal is an extension slot. *)
Lemma literal_not_extra (d : EpaycoPaymentDetails.t) (t : bool) :
  forallb not_extra (Sdk.stringifiedPayload_literal d t) = true.
Proof.
  apply forallb_object_literal.
  repeat constructor.
  - simpl. now destruct (EpaycoPaymentDetails.invoice d).
  - simpl. now destruct (EpaycoPaymentDetails.taxBase d).
  - simpl. now destruct (EpaycoPaymentDetails.tax d).
  - simpl. now destruct (EpaycoPaymentDetails.taxIco d).
  - destruct (EpaycoPaymentDetails.methodsDisable d) as [l|]; [|exact I].
    unfold guard. now destruct (0 <? length l)%nat.
  - now destruct (EpaycoPaymentDetails.splitPayment d).
Qed.

Lemma extra_key_is_extra (i : nat) (v : value) :
  not_extra (Spec.extra_key i, v) = false.
Proof.
  unfold not_extra, is_extra_key, extra_key, fst. simpl.
  now destruct (String_of_nat i).
Qed.

Lemma literal_lacks_extra_key (d : EpaycoPaymentDetails.t) (t : bool) (i : nat) :
  has_key (Spec.extra_key i) (Sdk.stringifiedPayload_literal d t) = false.
Proof.
  apply (has_key_false_of_forallb not_extra).
  - apply extra_key_is_extra.
  - apply literal_not_extra.
Qed.

Lemma extra_key_inj (i j : nat) : Spec.extra_key i = Spec.extra_key j -> i = j.
Proof.
  unfold Spec.extra_key, String_of_nat. intros H.
  apply DecimalNat.Unsigned.to_uint_inj.
  assert (E : NilEmpty.uint_of_string (NilEmpty.string_of_uint (Nat.to_uint i))
              = NilEmpty.uint_of_string (NilEmpty.string_of_uint (Nat.to_uint j))).
  { f_equal. simpl in H. congruence. }
  rewrite !NilEmpty.usu in E. congruence.
Qed.

(** A turn of the loop appends the slot's entry when the key is new. *)
Lemma extras_step_fresh (ex : EpaycoExtras) (acc : obj) (i : nat) :
  has_key (Spec.extra_key i) acc = false ->
  Sdk.extras_step ex acc i = (acc ++ Spec.extras_entry ex i)%list.
Proof.
  intros H. unfold Sdk.extras_step, Spec.extras_entry.
  fold (Spec.extra_key i).
  destruct (extras_get (Spec.extra_key i) ex) as [[v|]|].
  - now apply obj_set_fresh.
  - now rewrite app_nil_r.
  - now rewrite app_nil_r.
Qed.

Lemma has_key_extras_entry (ex : EpaycoExtras) (i j : nat) :
  i <> j -> has_key (Spec.extra_key j) (Spec.extras_entry ex i) = false.
Proof.
  intros Hij. unfold Spec.extras_entry.
  destruct (extras_get (Spec.extra_key i) ex) as [[v|]|]; try reflexivity.
  cbn [has_key]. rewrite orb_false_r.
  destruct (String.eqb_spec (Spec.extra_key j) (Spec.extra_key i)) as [E|]; [|reflexivity].
  apply extra_key_inj in E. congruence.
Qed.

(** The loop over distinct slots whose keys are all new appends their
    entries in the order of the scan. *)
Lemma extras_loop_appends (ex : EpaycoExtras) (slots : list nat) :
  NoDup slots ->
  forall acc : obj,
    (forall i, In i slots -> has_key (Spec.extra_key i) acc = false) ->
    fold_left (Sdk.extras_step ex) slots acc
    = (acc ++ flat_map (Spec.extras_entry ex) slots)%list.
Proof.
  induction 1 as [|i slots Hi Hnd IH]; intros acc Hacc.
  - simpl. now rewrite app_nil_r.
  - cbn [fold_left flat_map].
    rewrite extras_step_fresh by (apply Hacc; now left).
    rewrite IH.
    + now rewrite app_assoc.
    + intros j Hj. rewrite has_key_app, Hacc by (now right).
      apply has_key_extras_entry. intros ->. contradiction.
Qed.

(** The loop leaves the properties that are no extension slot alone. *)
Lemma extras_loop_other_keys (ex : EpaycoExtras) (k : string) (slots : list nat) :
  String.prefix "extra" k = false ->
  forall acc : obj,
    obj_get k (fold_left (Sdk.extras_step ex) slots acc) = obj_get k acc
    /\ has_key k (fold_left (Sdk.extras_step ex) slots acc) = has_key k acc.
Proof.
  intros Hk. induction slots as [|i slots IH]; intros acc; [now split|].
  cbn [fold_left]. destruct (IH (Sdk.extras_step ex acc i)) as [-> ->].
  assert (Hne : String.eqb k ("extra" ++ String_of_nat i) = false).
  { destruct (String.eqb_spec k ("extra" ++ String_of_nat i)) as [->|]; [|reflexivity].
    simpl in Hk. destruct (String_of_nat i); discriminate. }
  unfold Sdk.extras_step.
  destruct (extras_get ("extra" ++ String_of_nat i) ex) as [[v|]|]; try now split.
  now rewrite obj_get_obj_set, has_key_obj_set, Hne.
Qed.

Lemma map_other_keys (d : EpaycoPaymentDetails.t) (t : bool) (k : string) :
  String.prefix "extra" k = false ->
  obj_get k (Sdk.mapPaymentDetailsToEpaycoRequest d t)
  = obj_get k (Sdk.stringifiedPayload_literal d t)
  /\ has_key k (Sdk.mapPaymentDetailsToEpaycoRequest d t)
     = has_key k (Sdk.stringifiedPayload_literal d t).
Proof.
  intros Hk. unfold Sdk.mapPaymentDetailsToEpaycoRequest.
  destruct (EpaycoPaymentDetails.extras d) as [ex|]; [|now split].
  now apply extras_loop_other_keys.
Qed.

End Canonicalizer.

Section CanonicalizerOutput.
Import Js Spec.

Lemma extras_loop_strings (ex : EpaycoExtras) (slots : list nat) :
  forall acc : obj,
    forallb string_valued acc = true ->
    forallb string_valued (fold_left (Sdk.extras_step ex) slots acc) = true.
Proof.
  induction slots as [|i slots IH]; intros acc Hacc; [assumption|].
  cbn [fold_left]. apply IH. unfold Sdk.extras_step.
  destruct (extras_get _ ex) as [[v|]|]; try assumption.
  now apply forallb_obj_set.
Qed.

Lemma test_flag_text (t : bool) :
  toLowerCase (JsString (boolean t)) = if t then "true" else "false".
Proof. now destruct t. Qed.

(** Case analysis on the optional members the literal spreads. *)
Ltac optional_members d :=
  destruct d as [name description currency amount country lang ip
                 confirmationUrl responseUrl billing
                 invoice taxBase tax taxIco methodsDisable splitPayment extras];
  destruct billing as [email bname address typeDoc numberDoc callingCode mobilePhone];
  destruct invoice, taxBase, tax, taxIco, methodsDisable as [[|m0 ms]|], splitPayment,
    callingCode.

Lemma literal_billing (d : EpaycoPaymentDetails.t) (t : bool) :
  let lit := Sdk.stringifiedPayload_literal d t in
  let b := EpaycoPaymentDetails.billing d in
  obj_get "billing" lit = object (Sdk.billing_object b)
  /\ obj_get "nameBilling" lit = str (EpaycoBillingDetails.name b)
  /\ obj_get "emailBilling" lit = str (EpaycoBillingDetails.email b)
  /\ obj_get "addressBilling" lit = str (EpaycoBillingDetails.address b)
  /\ obj_get "typeDocBilling" lit = str (EpaycoBillingDetails.typeDoc b)
  /\ obj_get "numberDocBilling" lit = str (EpaycoBillingDetails.numberDoc b)
  /\ obj_get "mobilephoneBilling" lit = str (EpaycoBillingDetails.mobilePhone b).
Proof.
  optional_members d; repeat split; reflexivity.
Qed.

Lemma billing_object_fields (b : EpaycoBillingDetails.t) :
  let nested := Sdk.billing_object b in
  obj_get "name" nested = str (EpaycoBillingDetails.name b)
  /\ obj_get "email" nested = str (EpaycoBillingDetails.email b)
  /\ obj_get "address" nested = str (EpaycoBillingDetails.address b)
  /\ obj_get "typeDoc" nested = str (EpaycoBillingDetails.typeDoc b)
  /\ obj_get "numberDoc" nested = str (EpaycoBillingDetails.numberDoc b)
  /\ obj_get "mobilePhone" nested = str (EpaycoBillingDetails.mobilePhone b).
Proof.
  destruct b as [email bname address typeDoc numberDoc [c|] mobilePhone];
    repeat split; reflexivity.
Qed.

Lemma literal_optional_keys (d : EpaycoPaymentDetails.t) (t : bool) :
  let lit := Sdk.stringifiedPayload_literal d t in
  has_key "invoice" lit
  = match EpaycoPaymentDetails.invoice d with Some _ => true | None => false end
  /\ has_key "taxBase" lit
     = match EpaycoPaymentDetails.taxBase d with Some _ => true | None => false end
  /\ has_key "tax" lit
     = match EpaycoPaymentDetails.tax d with Some _ => true | None => false end
  /\ has_key "taxIco" lit
     = match EpaycoPaymentDetails.taxIco d with Some _ => true | None => false end
  /\ has_key "methodsDisable" lit
     = match EpaycoPaymentDetails.methodsDisable d with
       | Some (_ :: _) => true
       | _ => false
       end.
Proof.
  optional_members d; repeat split; reflexivity.
Qed.

End CanonicalizerOutput.

(** C5. For every payment details value and test-mode flag, every leaf of
    the request body built by [mapPaymentDetailsToEpaycoRequest] is a string
    (inside the nested objects and arrays too): no number, boolean, [null]
    or [undefined] is left; the [test] member is the string ["true"] or
    ["false"]. *)
Theorem mapPaymentDetailsToEpaycoRequest_all_strings
        (details : EpaycoPaymentDetails.t) (isTestMode : bool) :
  Js.all_strings (Js.object (Sdk.mapPaymentDetailsToEpaycoRequest details isTestMode))
  = true
  /\ Js.obj_get "test" (Sdk.mapPaymentDetailsToEpaycoRequest details isTestMode)
     = Js.str (if isTestMode then "true" else "false").
Proof.
  split.
  - rewrite all_strings_object. unfold Sdk.mapPaymentDetailsToEpaycoRequest.
    destruct (EpaycoPaymentDetails.extras details) as [ex|].
    + apply extras_loop_strings, literal_strings.
    + apply literal_strings.
  - destruct (map_other_keys details isTestMode "test" eq_refl) as [-> _].
    rewrite <- test_flag_text.
    destruct details as [? ? ? ? ? ? ? ? ? ? invoice taxBase tax taxIco
                           methodsDisable splitPayment ?].
    destruct invoice, taxBase, tax, taxIco, methodsDisable as [[|m0 ms]|], splitPayment;
      reflexivity.
Qed.

(** C6. The request body has the six root-level members [nameBilling],
    [emailBilling], [addressBilling], [typeDocBilling], [numberDocBilling]
    and [mobilephoneBilling], and each is the string held by the matching
    member of the nested [billing] object of the same body. *)
Theorem mapPaymentDetailsToEpaycoRequest_billing_twice
        (details : EpaycoPaymentDetails.t) (isTestMode : bool) :
  let out := Sdk.mapPaymentDetailsToEpaycoRequest details isTestMode in
  let b := EpaycoPaymentDetails.billing details in
  exists nested : Js.obj,
    Js.obj_get "billing" out = Js.object nested
    /\ (Js.obj_get "nameBilling" out = Js.obj_get "name" nested
        /\ Js.obj_get "name" nested = Js.str (EpaycoBillingDetails.name b))
    /\ (Js.obj_get "emailBilling" out = Js.obj_get "email" nested
        /\ Js.obj_get "email" nested = Js.str (EpaycoBillingDetails.email b))
    /\ (Js.obj_get "addressBilling" out = Js.obj_get "address" nested
        /\ Js.obj_get "address" nested = Js.str (EpaycoBillingDetails.address b))
    /\ (Js.obj_get "typeDocBilling" out = Js.obj_get "typeDoc" nested
        /\ Js.obj_get "typeDoc" nested = Js.str (EpaycoBillingDetails.typeDoc b))
    /\ (Js.obj_get "numberDocBilling" out = Js.obj_get "numberDoc" nested
        /\ Js.obj_get "numberDoc" nested = Js.str (EpaycoBillingDetails.numberDoc b))
    /\ (Js.obj_get "mobilephoneBilling" out = Js.obj_get "mobilePhone" nested
        /\ Js.obj_get "mobilePhone" nested = Js.str (EpaycoBillingDetails.mobilePhone b)).
Proof.
  intros out b. exists (Sdk.billing_object b). subst out b.
  destruct (literal_billing details isTestMode) as (L0 & L1 & L2 & L3 & L4 & L5 & L6).
  destruct (billing_object_fields (EpaycoPaymentDetails.billing details))
    as (N1 & N2 & N3 & N4 & N5 & N6).
  destruct (map_other_keys details isTestMode "billing" eq_refl) as [-> _].
  destruct (map_other_keys details isTestMode "nameBilling" eq_refl) as [-> _].
  destruct (map_other_keys details isTestMode "emailBilling" eq_refl) as [-> _].
  destruct (map_other_keys details isTestMode "addressBilling" eq_refl) as [-> _].
  destruct (map_other_keys details isTestMode "typeDocBilling" eq_refl) as [-> _].
  destruct (map_other_keys details isTestMode "numberDocBilling" eq_refl) as [-> _].
  destruct (map_other_keys details isTestMode "mobilephoneBilling" eq_refl) as [-> _].
  repeat split; congruence.
Qed.

(** C7. With an [extras] object the loop visits slots 1 to 10 in ascending
    order and the body is the object literal followed by one entry per
    present, non-null slot, under the slot's own key and in slot order; the
    literal itself has no [extraN] member, so absent slots leave nothing.
    With only [extra5] given, exactly the member [extra5] is added. *)
Theorem mapPaymentDetailsToEpaycoRequest_extras
        (details : EpaycoPaymentDetails.t) (isTestMode : bool) (ex : EpaycoExtras) :
  EpaycoPaymentDetails.extras details = Some ex ->
  Sdk.mapPaymentDetailsToEpaycoRequest details isTestMode
  = (Sdk.stringifiedPayload_literal details isTestMode ++ Spec.extras_entries ex)%list
  /\ (forall i : nat,
         Js.has_key (Spec.extra_key i) (Sdk.stringifiedPayload_literal details isTestMode)
         = false)
  /\ (forall v : string,
         ex = [("extra5", Some v)] ->
         Sdk.mapPaymentDetailsToEpaycoRequest details isTestMode
         = (Sdk.stringifiedPayload_literal details isTestMode
              ++ [("extra5", Js.str v)])%list).
Proof.
  intros Hex.
  assert (E : Sdk.mapPaymentDetailsToEpaycoRequest details isTestMode
              = (Sdk.stringifiedPayload_literal details isTestMode
                   ++ Spec.extras_entries ex)%list).
  { unfold Sdk.mapPaymentDetailsToEpaycoRequest. rewrite Hex.
    apply extras_loop_appends.
    - apply seq_NoDup.
    - intros i _. apply literal_lacks_extra_key. }
  split; [exact E|]. split.
  - intros i. apply literal_lacks_extra_key.
  - intros v ->. rewrite E. reflexivity.
Qed.

Lemma mapPaymentDetailsToEpaycoRequest_extras_witness :
  Sdk.mapPaymentDetailsToEpaycoRequest
    (Samples.payment None (Some [("extra5", Some "order-42")])) true
  = (Sdk.stringifiedPayload_literal
       (Samples.payment None (Some [("extra5", Some "order-42")])) true
       ++ [("extra5", Js.str "order-42")])%list.
Proof.
  apply (proj2 (proj2 (mapPaymentDetailsToEpaycoRequest_extras
                         (Samples.payment None (Some [("extra5", Some "order-42")]))
                         true [("extra5", Some "order-42")] eq_refl))).
  reflexivity.
Defined.

(** Slots are emitted in slot order whatever the order of the input
    object, a [null] slot and a key outside [extra1..extra10] leave nothing. *)
Example extras_in_slot_order :
  Spec.extras_entries
    [("extra11", Some "k"); ("extra10", Some "j"); ("extra2", Some "b");
     ("extra3", None); ("extra1", Some "a")]
  = [("extra1", Js.str "a"); ("extra2", Js.str "b"); ("extra10", Js.str "j")].
Proof. reflexivity. Qed.

(** C8 as stated fails for [methodsDisable]: an input holding the empty
    list has the member, yet the body has no [methodsDisable]. *)
Lemma optional_fields_counterexample :
  ~ (Js.has_key "methodsDisable"
       (Sdk.mapPaymentDetailsToEpaycoRequest (Samples.payment (Some []) None) true) = true
     <-> EpaycoPaymentDetails.methodsDisable (Samples.payment (Some []) None) <> None).
Proof.
  intros [_ H].
  assert (F : Js.has_key "methodsDisable"
                (Sdk.mapPaymentDetailsToEpaycoRequest (Samples.payment (Some []) None) true)
              = false) by reflexivity.
  rewrite F in H. discriminate H. discriminate.
Qed.

(** C8, amended. [invoice], [taxBase], [tax] and [taxIco] are members of the
    body exactly when they are present in the input; [methodsDisable] is a
    member exactly when the input has it and the list is not empty. A member
    that is left out is not there at all. *)
Theorem mapPaymentDetailsToEpaycoRequest_optional_fields
        (details : EpaycoPaymentDetails.t) (isTestMode : bool) :
  let out := Sdk.mapPaymentDetailsToEpaycoRequest details isTestMode in
  (Js.has_key "invoice" out = true <-> EpaycoPaymentDetails.invoice details <> None)
  /\ (Js.has_key "taxBase" out = true <-> EpaycoPaymentDetails.taxBase details <> None)
  /\ (Js.has_key "tax" out = true <-> EpaycoPaymentDetails.tax details <> None)
  /\ (Js.has_key "taxIco" out = true <-> EpaycoPaymentDetails.taxIco details <> None)
  /\ (Js.has_key "methodsDisable" out = true
      <-> exists m ms, EpaycoPaymentDetails.methodsDisable details = Some (m :: ms)).
Proof.
  intros out. subst out.
  destruct (literal_optional_keys details isTestMode) as (K1 & K2 & K3 & K4 & K5).
  destruct (map_other_keys details isTestMode "invoice" eq_refl) as [_ ->].
  destruct (map_other_keys details isTestMode "taxBase" eq_refl) as [_ ->].
  destruct (map_other_keys details isTestMode "tax" eq_refl) as [_ ->].
  destruct (map_other_keys details isTestMode "taxIco" eq_refl) as [_ ->].
  destruct (map_other_keys details isTestMode "methodsDisable" eq_refl) as [_ ->].
  rewrite K1, K2, K3, K4, K5.
  repeat split;
    try (destruct (EpaycoPaymentDetails.invoice details); congruence);
    try (destruct (EpaycoPaymentDetails.taxBase details); congruence);
    try (destruct (EpaycoPaymentDetails.tax details); congruence);
    try (destruct (EpaycoPaymentDetails.taxIco details); congruence).
  - destruct (EpaycoPaymentDetails.methodsDisable details) as [[|m ms]|];
      try discriminate. intros _. now exists m, ms.
  - intros (m & ms & ->). reflexivity.
Qed.

(** ** Authenticator *)

Section Authenticator.
Import Js Axios Spec.

(** The [||] chain of the error path picks the first non-empty field. *)
Lemma or_chain_first_present (a b c d : option string) (fallback : string) :
  template (a ||| b ||| c ||| d ||| Some fallback)
  = first_present [a; b; c; d] fallback.
Proof.
  unfold or_else, truthy, first_present.
  destruct a as [sa|]; [destruct (String.eqb sa "") eqn:Ea|];
    destruct b as [sb|]; try destruct (String.eqb sb "") eqn:Eb;
    destruct c as [sc|]; try destruct (String.eqb sc "") eqn:Ec;
    destruct d as [sd|]; try destruct (String.eqb sd "") eqn:Ed;
    cbn [negb template]; rewrite ?Ea, ?Eb, ?Ec, ?Ed; cbn [negb template];
    rewrite ?Ea, ?Eb, ?Ec, ?Ed; cbn [negb template];
    rewrite ?Ea, ?Eb, ?Ec, ?Ed; cbn [negb template];
    rewrite ?Ea, ?Eb, ?Ec, ?Ed; reflexivity.
Qed.

Lemma auth_error_message_spec (body : option EpaycoLoginResponse.t) :
  Sdk.auth_error_message body
  = AUTH_FAILED ++ first_present (login_fields body) GENERIC_AUTH_MESSAGE.
Proof.
  unfold Sdk.auth_error_message. rewrite or_chain_first_present.
  now destruct body.
Qed.

(** What the authenticator does with a delivered login response. *)
Lemma getEpaycoAuthToken_delivered (remote : net) (pk sk base : string)
      (log : list request) (body : option EpaycoLoginResponse.t) :
  login_endpoint remote log (login_request pk sk base) = fulfilled body ->
  Sdk.getEpaycoAuthToken remote pk sk base log
  = (if_truthy (opt_chain body EpaycoLoginResponse.token)
       (fun token => resolved token)
       (rejected (AUTH_FAILED ++ Sdk.auth_error_message body)),
     (log ++ [login_request pk sk base])%list).
Proof.
  intros H. unfold Sdk.getEpaycoAuthToken, try_catch, bind, post. rewrite H.
  unfold if_truthy.
  destruct (opt_chain body EpaycoLoginResponse.token) as [tok|]; [|reflexivity].
  now destruct (String.eqb tok "").
Qed.

End Authenticator.

(** C9 as stated fails for a login answered with an error status: the
    body [{error: "Invalid client", message: "Unauthorized"}] of a 401 has
    no token and its first present field in the order [error],
    [textResponse], [titleResponse], [message] is [error], yet the message of
    the rejection does not end in that text, whatever comes before it: the
    catch clause tries [message] first. *)
Lemma getEpaycoAuthToken_error_status_counterexample :
  ~ (exists tag : string,
        fst (Sdk.getEpaycoAuthToken
               (Samples.gateway_unauthorized Samples.unauthorized_body) "pk" "sk"
               DEFAULT_EPAYCO_API_BASE_URL [])
        = Axios.rejected
            (tag ++ Spec.first_present
                      (Spec.login_fields (Some Samples.unauthorized_body))
                      Spec.GENERIC_AUTH_MESSAGE)).
Proof.
  intros [tag H].
  assert (E : fst (Sdk.getEpaycoAuthToken
                     (Samples.gateway_unauthorized Samples.unauthorized_body) "pk" "sk"
                     DEFAULT_EPAYCO_API_BASE_URL [])
              = Axios.rejected "ePayco Authentication Failed: Unauthorized")
    by reflexivity.
  rewrite E in H. injection H as H.
  change (Spec.first_present _ _) with "Invalid client" in H.
  repeat (destruct tag as [|? tag]; cbn [append] in H;
          [discriminate H | injection H as _ H]).
  destruct tag; discriminate H.
Qed.

(** C9, amended. When the login request is answered with a success status
    (the response is delivered), the authenticator resolves (with the
    token) exactly when the body is there and has a non-empty [token].
    Otherwise it rejects with an error tagged
    [ePayco Authentication Failed:] whose diagnostic text is the first
    present (non-empty) of [error], [textResponse], [titleResponse],
    [message], in that order, or the generic message when there is none, as
    for the body [{}]: the promise rejects, nothing escapes unhandled. When
    the request fails with an axios error (an error status, or no response
    at all), the authenticator always rejects, a token in the error body
    being ignored, and the diagnostic text after the tag is the first
    present of the error body's [message], [error], [textResponse], in that
    order, then axios's own message, then a network fallback;
    [titleResponse] is not consulted. *)
Theorem getEpaycoAuthToken_response
        (remote : Axios.net) (pk sk base : string) (log : list Axios.request) :
  let outcome := fst (Sdk.getEpaycoAuthToken remote pk sk base log) in
  (forall body : option EpaycoLoginResponse.t,
      Axios.login_endpoint remote log (login_request pk sk base) = Axios.fulfilled body ->
      (forall token : string,
          outcome = Axios.resolved token <-> Spec.has_token body token)
      /\ ((forall token : string, ~ Spec.has_token body token) ->
          outcome
          = Axios.rejected
              (AUTH_FAILED ++ AUTH_FAILED
               ++ Spec.first_present (Spec.login_fields body) Spec.GENERIC_AUTH_MESSAGE))
      /\ (body = Some EpaycoLoginResponse.empty ->
          outcome
          = Axios.rejected (AUTH_FAILED ++ AUTH_FAILED ++ Spec.GENERIC_AUTH_MESSAGE)))
  /\ (forall (errorData : option EpaycoLoginResponse.t) (axios_message : string),
      Axios.login_endpoint remote log (login_request pk sk base)
      = Axios.failed (Axios.AxiosError errorData axios_message) ->
      outcome
      = Axios.rejected
          (AUTH_FAILED
           ++ Spec.first_present
                [ opt_chain errorData EpaycoLoginResponse.message;
                  opt_chain errorData EpaycoLoginResponse.error;
                  opt_chain errorData EpaycoLoginResponse.textResponse;
                  Some axios_message ]
                "Network error or ePayco server issue during authentication.")).
Proof.
  intros outcome. subst outcome. split.
  - intros body H.
    rewrite (getEpaycoAuthToken_delivered _ _ _ _ _ _ H). cbn [fst].
    rewrite auth_error_message_spec. unfold if_truthy, Spec.has_token.
    split; [|split].
    + intros token.
      destruct body as [b|]; cbn [opt_chain].
      * destruct (EpaycoLoginResponse.token b) as [tok|] eqn:Et.
        -- destruct (String.eqb_spec tok "") as [->|Hne].
           ++ split; [discriminate|]. intros (b' & Hb & Ht & Hn).
              injection Hb as <-. congruence.
           ++ split.
              ** intros [= ->]. now exists b.
              ** intros (b' & Hb & Ht & Hn). injection Hb as <-. congruence.
        -- split; [discriminate|]. intros (b' & Hb & Ht & Hn).
           injection Hb as <-. congruence.
      * split; [discriminate|]. intros (b' & Hb & _). discriminate.
    + intros Hno.
      destruct body as [b|]; cbn [opt_chain]; [|reflexivity].
      destruct (EpaycoLoginResponse.token b) as [tok|] eqn:Et; [|reflexivity].
      destruct (String.eqb_spec tok "") as [->|Hne]; [reflexivity|].
      exfalso. apply (Hno tok). now exists b.
    + intros ->. reflexivity.
  - intros errorData axios_message H.
    unfold Sdk.getEpaycoAuthToken, Axios.try_catch, Axios.bind, Axios.post.
    rewrite H. cbn [fst]. unfold Sdk.auth_catch.
    now rewrite or_chain_first_present.
Qed.

Lemma getEpaycoAuthToken_response_witness :
  fst (Sdk.getEpaycoAuthToken
         (Samples.gateway_login (Some EpaycoLoginResponse.empty)) "pk" "sk"
         DEFAULT_EPAYCO_API_BASE_URL [])
  = Axios.rejected (AUTH_FAILED ++ AUTH_FAILED ++ Spec.GENERIC_AUTH_MESSAGE)
  /\ fst (Sdk.getEpaycoAuthToken
            (Samples.gateway_unauthorized Samples.unauthorized_body) "pk" "sk"
            DEFAULT_EPAYCO_API_BASE_URL [])
     = Axios.rejected "ePayco Authentication Failed: Unauthorized".
Proof.
  split.
  - apply (proj2 (proj2 (proj1 (getEpaycoAuthToken_response
                                  (Samples.gateway_login (Some EpaycoLoginResponse.empty))
                                  "pk" "sk" DEFAULT_EPAYCO_API_BASE_URL [])
                           (Some EpaycoLoginResponse.empty) eq_refl))).
    reflexivity.
  - apply (proj2 (getEpaycoAuthToken_response
                    (Samples.gateway_unauthorized Samples.unauthorized_body)
                    "pk" "sk" DEFAULT_EPAYCO_API_BASE_URL [])
             (Some Samples.unauthorized_body) "Request failed with status code 401").
    reflexivity.
Defined.

(** On an error status the body's [titleResponse] is never the diagnostic,
    and a token does not make the login succeed. *)
Example getEpaycoAuthToken_titleResponse_on_error_status :
  fst (Sdk.getEpaycoAuthToken
         (Samples.gateway_unauthorized
            (EpaycoLoginResponse.mk (Some "jwt") None (Some "Title") None None))
         "pk" "sk" DEFAULT_EPAYCO_API_BASE_URL [])
  = Axios.rejected
      "ePayco Authentication Failed: Request failed with status code 401".
Proof. vm_compute. reflexivity. Qed.

Example getEpaycoAuthToken_error_before_message :
  fst (Sdk.getEpaycoAuthToken
         (Samples.gateway_login
            (Some (EpaycoLoginResponse.mk None (Some "Invalid client") None
                     (Some "text") (Some "msg"))))
         "pk" "sk" DEFAULT_EPAYCO_API_BASE_URL [])
  = Axios.rejected
      "ePayco Authentication Failed: ePayco Authentication Failed: Invalid client".
Proof. vm_compute. reflexivity. Qed.

(** ** Session orchestrator *)

Section Orchestrator.
Import Js Axios Spec.

Lemma ServerIndex_getEpaycoAuthToken_token (remote : net) (pk sk base : string)
      (log : list request) (b : EpaycoLoginResponse.t) (token : string) :
  login_endpoint remote log (login_request pk sk base) = fulfilled (Some b) ->
  EpaycoLoginResponse.token b = Some token -> token <> "" ->
  ServerIndex.getEpaycoAuthToken remote pk sk base log
  = (resolved token, (log ++ [login_request pk sk base])%list).
Proof.
  intros H Ht Hne.
  unfold ServerIndex.getEpaycoAuthToken, try_catch, bind, post. rewrite H.
  unfold if_truthy, opt_chain. rewrite Ht.
  destruct (String.eqb_spec token ""); [contradiction | reflexivity].
Qed.

Lemma Sdk_getEpaycoAuthToken_token (remote : net) (pk sk base : string)
      (log : list request) (b : EpaycoLoginResponse.t) (token : string) :
  login_endpoint remote log (login_request pk sk base) = fulfilled (Some b) ->
  EpaycoLoginResponse.token b = Some token -> token <> "" ->
  Sdk.getEpaycoAuthToken remote pk sk base log
  = (resolved token, (log ++ [login_request pk sk base])%list).
Proof.
  intros H Ht Hne. rewrite (getEpaycoAuthToken_delivered _ _ _ _ _ _ H).
  unfold if_truthy, opt_chain. rewrite Ht.
  destruct (String.eqb_spec token ""); [contradiction | reflexivity].
Qed.

End Orchestrator.

Section OrchestratorRuns.
Import Js Axios Spec.

Lemma truthy_string (s : string) : truthy (Some s) = negb (String.eqb s "").
Proof. reflexivity. Qed.

(** With the preconditions met, the login accepted and the session
    request answered with body [d], the orchestrator of the module with
    signature validation settles as the interpretation of [d] says. *)
Lemma Sdk_createEpaycoSession_delivered
      (remote : net) (config : CreateEpaycoSessionConfig.t) (log : list request)
      (pd : EpaycoPaymentDetails.t) (b : EpaycoLoginResponse.t) (token : string)
      (d : EpaycoSessionApiResponse.t) :
  CreateEpaycoSessionConfig.publicKey config <> "" ->
  CreateEpaycoSessionConfig.privateKey config <> "" ->
  CreateEpaycoSessionConfig.paymentDetails config = Some pd ->
  login_endpoint remote log (first_request config) = fulfilled (Some b) ->
  EpaycoLoginResponse.token b = Some token -> token <> "" ->
  session_endpoint remote (log ++ [first_request config])%list
    (second_request config pd token) = fulfilled (Some d) ->
  fst (Sdk.createEpaycoSession remote config log)
  = if_truthy
      (match EpaycoSessionApiResponse.success d with
       | Some true =>
           opt_chain (EpaycoSessionApiResponse.data d) EpaycoSessionData.sessionId
       | _ => None
       end)
      (fun sessionId => resolved sessionId)
      (rejected (Sdk.session_catch (Error (Sdk.session_error_message d)))).
Proof.
  intros Hpk Hsk Hpd Hlogin Htok Hne Hsession.
  unfold Sdk.createEpaycoSession. rewrite !truthy_string, Hpd.
  destruct (String.eqb_spec (CreateEpaycoSessionConfig.publicKey config) "");
    [contradiction|].
  destruct (String.eqb_spec (CreateEpaycoSessionConfig.privateKey config) "");
    [contradiction|].
  cbn [negb orb]. unfold try_catch, bind, await.
  fold (base_url config).
  unfold first_request in Hlogin.
  rewrite (Sdk_getEpaycoAuthToken_token _ _ _ _ _ _ _ Hlogin Htok Hne).
  unfold post. unfold second_request, first_request in Hsession. rewrite Hsession.
  unfold if_truthy.
  destruct (EpaycoSessionApiResponse.success d) as [[|]|]; try reflexivity.
  destruct (opt_chain (EpaycoSessionApiResponse.data d) EpaycoSessionData.sessionId)
    as [sid|]; [|reflexivity].
  now destruct (String.eqb sid "").
Qed.

(** So that orchestrator resolves exactly when [success === true] and a
    session id is there, and rejects otherwise. *)
Lemma Sdk_createEpaycoSession_resolves_iff
      (remote : net) (config : CreateEpaycoSessionConfig.t) (log : list request)
      (pd : EpaycoPaymentDetails.t) (b : EpaycoLoginResponse.t) (token : string)
      (d : EpaycoSessionApiResponse.t) :
  CreateEpaycoSessionConfig.publicKey config <> "" ->
  CreateEpaycoSessionConfig.privateKey config <> "" ->
  CreateEpaycoSessionConfig.paymentDetails config = Some pd ->
  login_endpoint remote log (first_request config) = fulfilled (Some b) ->
  EpaycoLoginResponse.token b = Some token -> token <> "" ->
  session_endpoint remote (log ++ [first_request config])%list
    (second_request config pd token) = fulfilled (Some d) ->
  (forall sessionId : string,
      fst (Sdk.createEpaycoSession remote config log) = resolved sessionId
      <-> has_sessionId d sessionId)
  /\ ((forall sessionId, ~ has_sessionId d sessionId) ->
      exists m, fst (Sdk.createEpaycoSession remote config log) = rejected m).
Proof.
  intros Hpk Hsk Hpd Hlogin Htok Hne Hsession.
  rewrite (Sdk_createEpaycoSession_delivered _ _ _ _ _ _ _ Hpk Hsk Hpd Hlogin Htok Hne
             Hsession).
  unfold has_sessionId, if_truthy.
  destruct (EpaycoSessionApiResponse.success d) as [[|]|];
    try (split; [intros sid; split; [discriminate | intros (? & _); discriminate]
                | intros _; eexists; reflexivity]).
  destruct (opt_chain (EpaycoSessionApiResponse.data d) EpaycoSessionData.sessionId)
    as [sid0|].
  - destruct (String.eqb_spec sid0 "") as [->|Hn].
    + split; [|intros _; eexists; reflexivity].
      intros sid; split; [discriminate|]. intros (_ & E & Hs). congruence.
    + split.
      * intros sid; split.
        -- intros [= ->]. repeat split; assumption.
        -- intros (_ & E & _). congruence.
      * intros Hno. exfalso. apply (Hno sid0). repeat split; assumption.
  - split; [|intros _; eexists; reflexivity].
    intros sid; split; [discriminate|]. intros (_ & E & _). discriminate.
Qed.

End OrchestratorRuns.

(** C4 on [src/server/index.ts]. With the preconditions met, the login
    accepted and the session request answered with [success: true] and a
    [data] object that has no [sessionId], this [createEpaycoSession]
    resolves, and the value it resolves with is [undefined]. *)
Theorem ServerIndex_createEpaycoSession_resolves_undefined
        (remote : Axios.net) (config : CreateEpaycoSessionConfig.t)
        (log : list Axios.request)
        (pd : EpaycoPaymentDetails.t) (b : EpaycoLoginResponse.t) (token : string)
        (title text : option string) (errors : option (list EpaycoFieldError.t)) :
  CreateEpaycoSessionConfig.publicKey config <> "" ->
  CreateEpaycoSessionConfig.privateKey config <> "" ->
  CreateEpaycoSessionConfig.paymentDetails config = Some pd ->
  Axios.login_endpoint remote log (Spec.first_request config)
  = Axios.fulfilled (Some b) ->
  EpaycoLoginResponse.token b = Some token -> token <> "" ->
  Axios.session_endpoint remote (log ++ [Spec.first_request config])%list
    (Spec.second_request config pd token)
  = Axios.fulfilled
      (Some (EpaycoSessionApiResponse.mk (Some true) title text
               (Some (EpaycoSessionData.mk None errors)))) ->
  fst (ServerIndex.createEpaycoSession remote config log) = Axios.resolved None.
Proof.
  intros Hpk Hsk Hpd Hlogin Htok Hne Hsession.
  unfold ServerIndex.createEpaycoSession. rewrite !truthy_string, Hpd.
  destruct (String.eqb_spec (CreateEpaycoSessionConfig.publicKey config) "");
    [contradiction|].
  destruct (String.eqb_spec (CreateEpaycoSessionConfig.privateKey config) "");
    [contradiction|].
  cbn [negb orb]. unfold Axios.try_catch, Axios.bind, Axios.await.
  fold (Spec.base_url config).
  unfold Spec.first_request in Hlogin.
  rewrite (ServerIndex_getEpaycoAuthToken_token _ _ _ _ _ _ _ Hlogin Htok Hne).
  unfold Axios.post, ServerIndex.mapPaymentDetailsToEpaycoRequest.
  unfold Spec.second_request, Spec.first_request in Hsession. rewrite Hsession.
  reflexivity.
Qed.

Lemma ServerIndex_createEpaycoSession_resolves_undefined_witness :
  fst (ServerIndex.createEpaycoSession Samples.gateway_without_sessionId
         (Samples.config "pk" "sk" (Some (Samples.payment None None))) [])
  = Axios.resolved None.
Proof.
  apply (ServerIndex_createEpaycoSession_resolves_undefined
           Samples.gateway_without_sessionId
           (Samples.config "pk" "sk" (Some (Samples.payment None None))) []
           (Samples.payment None None)
           (EpaycoLoginResponse.mk (Some "jwt") None None None None) "jwt"
           None None None);
    try discriminate; reflexivity.
Defined.

(** The same gateway answer makes the module with signature validation
    reject. *)
Example Sdk_createEpaycoSession_missing_sessionId_rejects :
  fst (Sdk.createEpaycoSession Samples.gateway_without_sessionId
         (Samples.config "pk" "sk" (Some (Samples.payment None None))) [])
  = Axios.rejected "ePayco Session Creation Failed: ePayco session creation failed.".
Proof. vm_compute. reflexivity. Qed.

(** C10. If [publicKey] is empty, [privateKey] is empty or [paymentDetails]
    is absent, [createEpaycoSession] rejects with one of its two
    configuration errors (both tagged [ePayco SDK:]) and the request log is
    what it was: neither the login nor the session request is issued,
    whatever the remote side would answer. *)
Theorem createEpaycoSession_configuration_error
        (remote : Axios.net) (config : CreateEpaycoSessionConfig.t)
        (log : list Axios.request) :
  CreateEpaycoSessionConfig.publicKey config = ""
  \/ CreateEpaycoSessionConfig.privateKey config = ""
  \/ CreateEpaycoSessionConfig.paymentDetails config = None ->
  exists m : string,
    Sdk.createEpaycoSession remote config log = (Axios.rejected m, log)
    /\ (m = Sdk.CONFIG_KEYS_REQUIRED \/ m = Sdk.CONFIG_DETAILS_REQUIRED)
    /\ Js.startsWith m "ePayco SDK:" = true.
Proof.
  intros H. unfold Sdk.createEpaycoSession. rewrite !truthy_string.
  destruct (String.eqb_spec (CreateEpaycoSessionConfig.publicKey config) "") as [E1|N1].
  - exists Sdk.CONFIG_KEYS_REQUIRED. repeat split. now left.
  - destruct (String.eqb_spec (CreateEpaycoSessionConfig.privateKey config) "")
      as [E2|N2].
    + exists Sdk.CONFIG_KEYS_REQUIRED. repeat split. now left.
    + destruct H as [H|[H|H]]; try contradiction.
      rewrite H. exists Sdk.CONFIG_DETAILS_REQUIRED. repeat split. now right.
Qed.

Lemma createEpaycoSession_configuration_error_witness :
  exists m : string,
    Sdk.createEpaycoSession Samples.gateway_without_sessionId
      (Samples.config "pk" "" (Some (Samples.payment None None))) []
    = (Axios.rejected m, [])
    /\ (m = Sdk.CONFIG_KEYS_REQUIRED \/ m = Sdk.CONFIG_DETAILS_REQUIRED)
    /\ Js.startsWith m "ePayco SDK:" = true.
Proof.
  apply (createEpaycoSession_configuration_error Samples.gateway_without_sessionId
           (Samples.config "pk" "" (Some (Samples.payment None None))) []).
  right. left. reflexivity.
Defined.

(* ================================================================== *)
(** * Part III: further properties of the server module *)
(* ================================================================== *)

(** ** Signature verifier, all inputs *)

Section VerifierComplete.
Import Js.

Lemma signatureString_present (c k r t a cur : string) :
  Sdk.signatureString
    (EpaycoSignatureConstructionData.mk
       (Some c) (Some k) (Some r) (Some t) (Some a) (Some cur))
  = c ++ "^" ++ k ++ "^" ++ r ++ "^" ++ t ++ "^" ++ a ++ "^" ++ cur.
Proof. reflexivity. Qed.

(** What an accepted input looks like. *)
Lemma validate_true_inv (sig : option string) (m : EpaycoSignatureConstructionData.t) :
  Sdk.validateEpaycoSignature sig m = true ->
  exists s c k r t a cur : string,
    sig = Some s
    /\ m = EpaycoSignatureConstructionData.mk
             (Some c) (Some k) (Some r) (Some t) (Some a) (Some cur)
    /\ (s <> "" /\ c <> "" /\ k <> "" /\ r <> "" /\ t <> "" /\ cur <> "")
    /\ s = Sha256.sha256_hex
             (c ++ "^" ++ k ++ "^" ++ r ++ "^" ++ t ++ "^" ++ a ++ "^" ++ cur).
Proof.
  unfold Sdk.validateEpaycoSignature.
  destruct (Sdk.missing_parameters sig m) eqn:G; [discriminate|].
  apply missing_parameters_false_iff in G.
  destruct G as (G0 & G1 & G2 & G3 & G4 & G5 & G6).
  apply truthy_inv in G0 as (s & -> & Hs).
  destruct m as [oc ok or ot oa ocur]; cbn [EpaycoSignatureConstructionData.p_cust_id_cliente
    EpaycoSignatureConstructionData.p_key EpaycoSignatureConstructionData.x_ref_payco
    EpaycoSignatureConstructionData.x_transaction_id
    EpaycoSignatureConstructionData.x_amount
    EpaycoSignatureConstructionData.x_currency_code] in *.
  apply truthy_inv in G1 as (c & -> & Hc).
  apply truthy_inv in G2 as (k & -> & Hk).
  apply truthy_inv in G3 as (r & -> & Hr).
  apply truthy_inv in G4 as (t & -> & Ht).
  apply truthy_inv in G6 as (cur & -> & Hcur).
  destruct oa as [a|]; [|congruence].
  rewrite signatureString_present. intros E. apply String.eqb_eq in E.
  exists s, c, k, r, t, a, cur. repeat split; try assumption. now symmetry.
Qed.

End VerifierComplete.

(** X1. [validateEpaycoSignature] answers [true] exactly for inputs in
    which the received signature and the six fields are all strings, all but
    the amount are non-empty, and the signature is the digest of the joined
    fields; every other input, an empty string among them, gets [false]. *)
Theorem validateEpaycoSignature_true_iff
        (sig : option string) (m : EpaycoSignatureConstructionData.t) :
  Sdk.validateEpaycoSignature sig m = true
  <-> exists s c k r t a cur : string,
      sig = Some s
      /\ m = EpaycoSignatureConstructionData.mk
               (Some c) (Some k) (Some r) (Some t) (Some a) (Some cur)
      /\ (s <> "" /\ c <> "" /\ k <> "" /\ r <> "" /\ t <> "" /\ cur <> "")
      /\ s = Sha256.sha256_hex
               (c ++ "^" ++ k ++ "^" ++ r ++ "^" ++ t ++ "^" ++ a ++ "^" ++ cur).
Proof.
  split; [apply validate_true_inv|].
  intros (s & c & k & r & t & a & cur & -> & -> & (Hs & Hc & Hk & Hr & Ht & Hcur) & E).
  rewrite validate_when_present by assumption.
  rewrite <- E. apply String.eqb_refl.
Qed.

(** X2. A signature that [validateEpaycoSignature] accepts is 64 characters
    long and made of the characters [0-9a-f] only: a digest sent in upper
    case, truncated or padded is never accepted. *)
Theorem validateEpaycoSignature_accepts_lowercase_hex
        (sig : option string) (m : EpaycoSignatureConstructionData.t) :
  Sdk.validateEpaycoSignature sig m = true ->
  exists s : string,
    sig = Some s
    /\ String.length s = 64%nat
    /\ forallb Sha256.is_lower_hex (list_ascii_of_string s) = true.
Proof.
  intros H. apply validate_true_inv in H.
  destruct H as (s & c & k & r & t & a & cur & -> & _ & _ & ->).
  eexists. split; [reflexivity|].
  destruct (sha256_hex_lowercase
              (c ++ "^" ++ k ++ "^" ++ r ++ "^" ++ t ++ "^" ++ a ++ "^" ++ cur))
    as [L1 L2].
  now split.
Qed.

Lemma validateEpaycoSignature_accepts_lowercase_hex_witness :
  exists s : string,
    Some Samples.scenarioA_digest = Some s
    /\ String.length s = 64%nat
    /\ forallb Sha256.is_lower_hex (list_ascii_of_string s) = true.
Proof.
  apply (validateEpaycoSignature_accepts_lowercase_hex
           (Some Samples.scenarioA_digest) Samples.scenarioA).
  vm_compute. reflexivity.
Defined.

(** ** Authenticator, every outcome *)

Section AuthenticatorRuns.
Import Js Axios Spec.

Lemma prefix_empty (s : string) : String.prefix "" s = true.
Proof. now destruct s. Qed.

Lemma prefix_app (p x : string) : String.prefix p (p ++ x) = true.
Proof.
  induction p as [|a p IH]; simpl; [apply prefix_empty|].
  destruct (ascii_dec a a); [assumption | contradiction].
Qed.

Lemma startsWith_auth_tag (x : string) :
  startsWith (AUTH_FAILED ++ x) "ePayco Authentication Failed:" = true.
Proof.
  change (AUTH_FAILED ++ x) with ("ePayco Authentication Failed:" ++ String " " x).
  apply prefix_app.
Qed.

Lemma startsWith_session_tag (x : string) :
  startsWith (SESSION_FAILED ++ x) "ePayco Session Creation Failed:" = true.
Proof.
  change (SESSION_FAILED ++ x) with ("ePayco Session Creation Failed:" ++ String " " x).
  apply prefix_app.
Qed.

(** The authenticator, step by step: one request, then the response or
    the thrown value decides. *)
Lemma Sdk_getEpaycoAuthToken_run (remote : net) (pk sk base : string)
      (log : list request) :
  Sdk.getEpaycoAuthToken remote pk sk base log
  = (match login_endpoint remote log (login_request pk sk base) with
     | fulfilled body =>
         if_truthy (opt_chain body EpaycoLoginResponse.token)
           (fun token => resolved token)
           (rejected (AUTH_FAILED ++ Sdk.auth_error_message body))
     | failed e => rejected (Sdk.auth_catch e)
     end,
     (log ++ [login_request pk sk base])%list).
Proof.
  destruct (login_endpoint remote log (login_request pk sk base)) as [body|e] eqn:E.
  - now apply getEpaycoAuthToken_delivered.
  - unfold Sdk.getEpaycoAuthToken, try_catch, bind, post. now rewrite E.
Qed.

Lemma ServerIndex_getEpaycoAuthToken_run (remote : net) (pk sk base : string)
      (log : list request) :
  ServerIndex.getEpaycoAuthToken remote pk sk base log
  = (match login_endpoint remote log (login_request pk sk base) with
     | fulfilled body =>
         if_truthy (opt_chain body EpaycoLoginResponse.token)
           (fun token => resolved token)
           (rejected (AUTH_FAILED ++ ServerIndex.auth_error_message body))
     | failed e => rejected (ServerIndex.auth_catch e)
     end,
     (log ++ [login_request pk sk base])%list).
Proof.
  unfold ServerIndex.getEpaycoAuthToken, try_catch, bind, post.
  destruct (login_endpoint remote log (login_request pk sk base)) as [body|e];
    [|reflexivity].
  unfold if_truthy.
  destruct (opt_chain body EpaycoLoginResponse.token) as [tok|]; [|reflexivity].
  now destruct (String.eqb tok "").
Qed.

Lemma if_truthy_resolved_inv (v : option string) (m token : string) :
  if_truthy v (fun t => resolved t) (rejected m) = resolved token ->
  v = Some token /\ token <> "".
Proof.
  unfold if_truthy. destruct v as [t|]; [|discriminate].
  destruct (String.eqb_spec t ""); [discriminate|].
  intros [= ->]. now split.
Qed.

Lemma if_truthy_rejected_inv (v : option string) (m m' : string) :
  if_truthy v (fun t => @resolved string t) (rejected m) = rejected m' -> m' = m.
Proof.
  unfold if_truthy. destruct v as [t|]; [|congruence].
  destruct (String.eqb t ""); [congruence | discriminate].
Qed.

(** A rejection of the authenticator carries the authentication tag,
    unless what was thrown was no [Error]. *)
Lemma Sdk_auth_rejection_form (remote : net) (pk sk base : string)
      (log : list request) (m : string) :
  fst (Sdk.getEpaycoAuthToken remote pk sk base log) = rejected m ->
  (exists x, m = AUTH_FAILED ++ x)
  \/ ((exists v, login_endpoint remote log (login_request pk sk base)
                 = failed (NotAnError v))
      /\ m = "An unknown error occurred during ePayco authentication.").
Proof.
  rewrite Sdk_getEpaycoAuthToken_run. cbn [fst].
  destruct (login_endpoint remote log (login_request pk sk base)) as [body|[d am|em|v]].
  - intros H. apply if_truthy_rejected_inv in H. left. eexists. exact H.
  - intros [= <-]. left. eexists. reflexivity.
  - intros [= <-]. left. eexists. reflexivity.
  - intros [= <-]. right. split; [now exists v | reflexivity].
Qed.

End AuthenticatorRuns.

(** X3. Whatever the login endpoint does, [getEpaycoAuthToken] issues
    exactly one request, the login request; and when it resolves, the token
    is the non-empty [token] of the response body. *)
Theorem getEpaycoAuthToken_one_round_trip
        (remote : Axios.net) (pk sk base : string) (log : list Axios.request) :
  snd (Sdk.getEpaycoAuthToken remote pk sk base log)
  = (log ++ [login_request pk sk base])%list
  /\ (forall token : string,
         fst (Sdk.getEpaycoAuthToken remote pk sk base log) = Axios.resolved token ->
         token <> ""
         /\ exists b,
             Axios.login_endpoint remote log (login_request pk sk base)
             = Axios.fulfilled (Some b)
             /\ EpaycoLoginResponse.token b = Some token).
Proof.
  rewrite Sdk_getEpaycoAuthToken_run. cbn [fst snd]. split; [reflexivity|].
  intros token.
  destruct (Axios.login_endpoint remote log (login_request pk sk base)) as [body|e];
    [|discriminate].
  intros H. apply if_truthy_resolved_inv in H as [H Hne]. split; [assumption|].
  destruct body as [b|]; [|discriminate]. now exists b.
Qed.

Lemma getEpaycoAuthToken_one_round_trip_witness :
  "jwt" <> ""
  /\ exists b,
      Axios.login_endpoint (Fixtures.gateway Fixtures.login_ok Fixtures.session_ok) []
        (login_request "pk" "sk" DEFAULT_EPAYCO_API_BASE_URL)
      = Axios.fulfilled (Some b)
      /\ EpaycoLoginResponse.token b = Some "jwt".
Proof.
  apply (proj2 (getEpaycoAuthToken_one_round_trip
                  (Fixtures.gateway Fixtures.login_ok Fixtures.session_ok)
                  "pk" "sk" DEFAULT_EPAYCO_API_BASE_URL [])).
  reflexivity.
Defined.

(** X4. When the login request fails with an axios error, the
    authenticator rejects with the authentication tag followed by the first
    non-empty of the error body's [message], [error], [textResponse], then
    axios's own message, then a network fallback: another order than for a
    delivered response, and [titleResponse] is not consulted. *)
Theorem getEpaycoAuthToken_axios_error
        (remote : Axios.net) (pk sk base : string) (log : list Axios.request)
        (errorData : option EpaycoLoginResponse.t) (axios_message : string) :
  Axios.login_endpoint remote log (login_request pk sk base)
  = Axios.failed (Axios.AxiosError errorData axios_message) ->
  fst (Sdk.getEpaycoAuthToken remote pk sk base log)
  = Axios.rejected
      (AUTH_FAILED
       ++ Spec.first_present
            [ opt_chain errorData EpaycoLoginResponse.message;
              opt_chain errorData EpaycoLoginResponse.error;
              opt_chain errorData EpaycoLoginResponse.textResponse;
              Some axios_message ]
            "Network error or ePayco server issue during authentication.").
Proof.
  intros H. rewrite Sdk_getEpaycoAuthToken_run, H. cbn [fst].
  unfold Sdk.auth_catch. now rewrite or_chain_first_present.
Qed.

Lemma getEpaycoAuthToken_axios_error_witness :
  fst (Sdk.getEpaycoAuthToken
         (Fixtures.gateway Fixtures.login_refused Fixtures.session_ok)
         "pk" "sk" DEFAULT_EPAYCO_API_BASE_URL [])
  = Axios.rejected "ePayco Authentication Failed: Invalid client".
Proof.
  apply (getEpaycoAuthToken_axios_error
           (Fixtures.gateway Fixtures.login_refused Fixtures.session_ok)
           "pk" "sk" DEFAULT_EPAYCO_API_BASE_URL []
           (Some (EpaycoLoginResponse.mk None (Some "Invalid client") (Some "Title")
                    (Some "Text") None))
           "Request failed with status code 401").
  reflexivity.
Defined.

(** X5. Every rejection of [getEpaycoAuthToken] has a message that starts
    with [ePayco Authentication Failed:], except when the value thrown by
    the request is not an [Error]: then the message is the untagged
    [An unknown error occurred during ePayco authentication.]. *)
Theorem getEpaycoAuthToken_rejection_tagged
        (remote : Axios.net) (pk sk base : string) (log : list Axios.request)
        (m : string) :
  fst (Sdk.getEpaycoAuthToken remote pk sk base log) = Axios.rejected m ->
  Js.startsWith m "ePayco Authentication Failed:" = true
  \/ ((exists v : Js.value,
          Axios.login_endpoint remote log (login_request pk sk base)
          = Axios.failed (Axios.NotAnError v))
      /\ m = "An unknown error occurred during ePayco authentication."
      /\ Js.startsWith m "ePayco Authentication Failed:" = false).
Proof.
  intros H. apply Sdk_auth_rejection_form in H as [[x ->]|[E ->]].
  - left. apply startsWith_auth_tag.
  - right. repeat split. assumption.
Qed.

Lemma getEpaycoAuthToken_rejection_tagged_witness :
  Js.startsWith "ePayco Authentication Failed: Invalid client"
    "ePayco Authentication Failed:" = true
  \/ ((exists v : Js.value,
          Axios.login_endpoint (Fixtures.gateway Fixtures.login_refused Fixtures.session_ok)
            [] (login_request "pk" "sk" DEFAULT_EPAYCO_API_BASE_URL)
          = Axios.failed (Axios.NotAnError v))
      /\ "ePayco Authentication Failed: Invalid client"
         = "An unknown error occurred during ePayco authentication."
      /\ Js.startsWith "ePayco Authentication Failed: Invalid client"
           "ePayco Authentication Failed:" = false).
Proof.
  apply (getEpaycoAuthToken_rejection_tagged
           (Fixtures.gateway Fixtures.login_refused Fixtures.session_ok)
           "pk" "sk" DEFAULT_EPAYCO_API_BASE_URL []).
  reflexivity.
Defined.

(** ** Session orchestrator, every outcome *)

Section OrchestratorComplete.
Import Js Axios Spec.

(** With the preconditions met: the login first; if it rejects the
    [catch] clause gets its error and nothing more is sent; if it
    resolves the session request follows and decides. *)
Lemma Sdk_createEpaycoSession_run
      (remote : net) (config : CreateEpaycoSessionConfig.t) (log : list request)
      (pd : EpaycoPaymentDetails.t) :
  CreateEpaycoSessionConfig.publicKey config <> "" ->
  CreateEpaycoSessionConfig.privateKey config <> "" ->
  CreateEpaycoSessionConfig.paymentDetails config = Some pd ->
  Sdk.createEpaycoSession remote config log
  = match Sdk.getEpaycoAuthToken remote
            (CreateEpaycoSessionConfig.publicKey config)
            (CreateEpaycoSessionConfig.privateKey config) (base_url config) log with
    | (rejected m, log1) => (rejected (Sdk.session_catch (Error m)), log1)
    | (resolved token, log1) =>
        (Wording.Sdk_interpret (session_endpoint remote log1 (second_request config pd token)),
         (log1 ++ [second_request config pd token])%list)
    end.
Proof.
  intros Hpk Hsk Hpd.
  unfold Sdk.createEpaycoSession. rewrite !truthy_string, Hpd.
  destruct (String.eqb_spec (CreateEpaycoSessionConfig.publicKey config) "");
    [contradiction|].
  destruct (String.eqb_spec (CreateEpaycoSessionConfig.privateKey config) "");
    [contradiction|].
  cbn [negb orb]. unfold try_catch, bind, await.
  fold (base_url config).
  destruct (Sdk.getEpaycoAuthToken remote (CreateEpaycoSessionConfig.publicKey config)
              (CreateEpaycoSessionConfig.privateKey config) (base_url config) log)
    as [[token|m] log1]; [|reflexivity].
  unfold post, second_request, Wording.Sdk_interpret.
  destruct (session_endpoint remote log1 _) as [[d|]|e]; try reflexivity.
  unfold if_truthy.
  destruct (EpaycoSessionApiResponse.success d) as [[|]|]; try reflexivity.
  destruct (opt_chain (EpaycoSessionApiResponse.data d) EpaycoSessionData.sessionId)
    as [sid|]; [|reflexivity].
  now destruct (String.eqb sid "").
Qed.

Lemma ServerIndex_createEpaycoSession_rejected_login
      (remote : net) (config : CreateEpaycoSessionConfig.t) (log log1 : list request)
      (pd : EpaycoPaymentDetails.t) (m : string) :
  CreateEpaycoSessionConfig.publicKey config <> "" ->
  CreateEpaycoSessionConfig.privateKey config <> "" ->
  CreateEpaycoSessionConfig.paymentDetails config = Some pd ->
  ServerIndex.getEpaycoAuthToken remote
    (CreateEpaycoSessionConfig.publicKey config)
    (CreateEpaycoSessionConfig.privateKey config) (base_url config) log
  = (rejected m, log1) ->
  ServerIndex.createEpaycoSession remote config log
  = (rejected (SESSION_FAILED ++ m), log1).
Proof.
  intros Hpk Hsk Hpd H.
  unfold ServerIndex.createEpaycoSession. rewrite !truthy_string, Hpd.
  destruct (String.eqb_spec (CreateEpaycoSessionConfig.publicKey config) "");
    [contradiction|].
  destruct (String.eqb_spec (CreateEpaycoSessionConfig.privateKey config) "");
    [contradiction|].
  cbn [negb orb]. unfold try_catch, bind, await.
  fold (base_url config). now rewrite H.
Qed.

(** The [catch] clause keeps a message that already has the session tag. *)
Lemma session_catch_tagged (x : string) :
  Sdk.session_catch (Error (SESSION_FAILED ++ x)) = SESSION_FAILED ++ x.
Proof.
  unfold Sdk.session_catch. rewrite startsWith_session_tag.
  now rewrite !orb_true_r.
Qed.

Lemma session_catch_auth (x : string) :
  Sdk.session_catch (Error (AUTH_FAILED ++ x)) = AUTH_FAILED ++ x.
Proof.
  unfold Sdk.session_catch. rewrite startsWith_auth_tag.
  now rewrite orb_true_r.
Qed.

Lemma or_pair_first_present (a b : option string) (fallback : string) :
  template (a ||| b ||| Some fallback) = first_present [a; b] fallback.
Proof.
  unfold or_else, truthy, first_present.
  destruct a as [sa|]; [destruct (String.eqb sa "") eqn:Ea|];
    destruct b as [sb|]; try destruct (String.eqb sb "") eqn:Eb;
    cbn [negb template]; rewrite ?Ea, ?Eb; cbn [negb template];
    rewrite ?Ea, ?Eb; reflexivity.
Qed.

Lemma append_empty_r (s : string) : s ++ "" = s.
Proof. induction s as [|a s IH]; simpl; [reflexivity | now rewrite IH]. Qed.

Lemma with_details_text (label : string) (data : option EpaycoSessionData.t)
      (msg : string) :
  Sdk.with_details label data msg = msg ++ Wording.details_text label data.
Proof.
  unfold Sdk.with_details, Wording.details_text.
  destruct (opt_chain data EpaycoSessionData.errors) as [[|e es]|].
  - cbn [length Nat.ltb Nat.leb]. symmetry. apply append_empty_r.
  - reflexivity.
  - symmetry. apply append_empty_r.
Qed.

Lemma session_error_message_text (d : EpaycoSessionApiResponse.t) :
  Sdk.session_error_message d
  = SESSION_FAILED
    ++ first_present [ EpaycoSessionApiResponse.textResponse d;
                       EpaycoSessionApiResponse.titleResponse d ]
         "ePayco session creation failed."
    ++ Wording.details_text "field code: " (EpaycoSessionApiResponse.data d).
Proof.
  unfold Sdk.session_error_message. rewrite with_details_text, or_pair_first_present.
  f_equal. f_equal.
  unfold first_present, truthy.
  destruct (EpaycoSessionApiResponse.textResponse d) as [s|];
    [destruct (String.eqb s "")|];
    destruct (EpaycoSessionApiResponse.titleResponse d) as [s'|];
    try destruct (String.eqb s' ""); reflexivity.
Qed.

End OrchestratorComplete.

Section OrchestratorOutcomes.
Import Js Axios Spec.

Lemma Sdk_createEpaycoSession_config (remote : net)
      (config : CreateEpaycoSessionConfig.t) (log : list request) :
  CreateEpaycoSessionConfig.publicKey config = ""
  \/ CreateEpaycoSessionConfig.privateKey config = ""
  \/ CreateEpaycoSessionConfig.paymentDetails config = None ->
  exists m, Sdk.createEpaycoSession remote config log = (rejected m, log)
            /\ startsWith m "ePayco SDK:" = true.
Proof.
  intros H. unfold Sdk.createEpaycoSession. rewrite !truthy_string.
  destruct (String.eqb_spec (CreateEpaycoSessionConfig.publicKey config) "") as [E1|N1];
    [eexists; split; reflexivity|].
  destruct (String.eqb_spec (CreateEpaycoSessionConfig.privateKey config) "") as [E2|N2];
    [eexists; split; reflexivity|].
  destruct H as [H|[H|H]]; try contradiction.
  rewrite H. eexists; split; reflexivity.
Qed.

(** Either a precondition fails or all three hold. *)
Lemma config_cases (config : CreateEpaycoSessionConfig.t) :
  (CreateEpaycoSessionConfig.publicKey config = ""
   \/ CreateEpaycoSessionConfig.privateKey config = ""
   \/ CreateEpaycoSessionConfig.paymentDetails config = None)
  \/ (CreateEpaycoSessionConfig.publicKey config <> ""
      /\ CreateEpaycoSessionConfig.privateKey config <> ""
      /\ exists pd, CreateEpaycoSessionConfig.paymentDetails config = Some pd).
Proof.
  destruct (String.eqb_spec (CreateEpaycoSessionConfig.publicKey config) "");
    [now left; left|].
  destruct (String.eqb_spec (CreateEpaycoSessionConfig.privateKey config) "");
    [now left; right; left|].
  destruct (CreateEpaycoSessionConfig.paymentDetails config) as [pd|];
    [|now left; right; right].
  right. repeat split; try assumption. now exists pd.
Qed.

Lemma session_catch_Error_tagged (x : string) :
  Wording.tagged (Sdk.session_catch (Error x)).
Proof.
  unfold Wording.tagged, Sdk.session_catch.
  destruct (startsWith x "ePayco SDK:") eqn:E1; [now left|].
  destruct (startsWith x "ePayco Authentication Failed:") eqn:E2; [now right; left|].
  destruct (startsWith x "ePayco Session Creation Failed:") eqn:E3; [now right; right|].
  cbn [orb]. right. right. apply startsWith_session_tag.
Qed.

End OrchestratorOutcomes.

(** X6. With the preconditions met, a rejected login ends
    [createEpaycoSession]: the session request is never sent, and the
    promise rejects with the authenticator's message as it is (it has the
    authentication tag), not wrapped again. Only the untagged message of a
    thrown non-[Error] gets the session tag put in front. *)
Theorem createEpaycoSession_authentication_failure
        (remote : Axios.net) (config : CreateEpaycoSessionConfig.t)
        (log : list Axios.request) (pd : EpaycoPaymentDetails.t) (m : string) :
  CreateEpaycoSessionConfig.publicKey config <> "" ->
  CreateEpaycoSessionConfig.privateKey config <> "" ->
  CreateEpaycoSessionConfig.paymentDetails config = Some pd ->
  fst (Sdk.getEpaycoAuthToken remote
         (CreateEpaycoSessionConfig.publicKey config)
         (CreateEpaycoSessionConfig.privateKey config) (Spec.base_url config) log)
  = Axios.rejected m ->
  exists m' : string,
    Sdk.createEpaycoSession remote config log
    = (Axios.rejected m', (log ++ [Spec.first_request config])%list)
    /\ ((Js.startsWith m "ePayco Authentication Failed:" = true /\ m' = m)
        \/ ((exists v : Js.value,
                Axios.login_endpoint remote log (Spec.first_request config)
                = Axios.failed (Axios.NotAnError v))
            /\ m' = SESSION_FAILED ++ m)).
Proof.
  intros Hpk Hsk Hpd H.
  rewrite (Sdk_createEpaycoSession_run _ _ _ _ Hpk Hsk Hpd).
  pose proof (Sdk_auth_rejection_form _ _ _ _ _ _ H) as F.
  rewrite Sdk_getEpaycoAuthToken_run in H |- *. cbn [fst] in H. rewrite H.
  eexists. split; [reflexivity|].
  destruct F as [[x ->]|[E ->]].
  - left. split; [apply startsWith_auth_tag | apply session_catch_auth].
  - right. split; [exact E | reflexivity].
Qed.

Lemma createEpaycoSession_authentication_failure_witness :
  exists m' : string,
    Sdk.createEpaycoSession (Fixtures.gateway Fixtures.login_refused Fixtures.session_ok)
      Fixtures.config []
    = (Axios.rejected m', ([] ++ [Spec.first_request Fixtures.config])%list)
    /\ ((Js.startsWith "ePayco Authentication Failed: Invalid client"
           "ePayco Authentication Failed:" = true
         /\ m' = "ePayco Authentication Failed: Invalid client")
        \/ ((exists v : Js.value,
                Axios.login_endpoint
                  (Fixtures.gateway Fixtures.login_refused Fixtures.session_ok) []
                  (Spec.first_request Fixtures.config)
                = Axios.failed (Axios.NotAnError v))
            /\ m' = SESSION_FAILED ++ "ePayco Authentication Failed: Invalid client")).
Proof.
  apply (createEpaycoSession_authentication_failure
           (Fixtures.gateway Fixtures.login_refused Fixtures.session_ok)
           Fixtures.config [] (Samples.payment None None)
           "ePayco Authentication Failed: Invalid client");
    try discriminate; reflexivity.
Defined.

(** X7. In [src/server/index.ts] a rejected login also ends
    [createEpaycoSession] without a session request, but there the message
    is always wrapped: the session tag is put in front of the
    authenticator's message, which (for a delivered response, an axios
    error or another [Error]) already has the authentication tag. *)
Theorem ServerIndex_createEpaycoSession_authentication_failure
        (remote : Axios.net) (config : CreateEpaycoSessionConfig.t)
        (log : list Axios.request) (pd : EpaycoPaymentDetails.t) (m : string) :
  CreateEpaycoSessionConfig.publicKey config <> "" ->
  CreateEpaycoSessionConfig.privateKey config <> "" ->
  CreateEpaycoSessionConfig.paymentDetails config = Some pd ->
  (forall v : Js.value,
      Axios.login_endpoint remote log (Spec.first_request config)
      <> Axios.failed (Axios.NotAnError v)) ->
  fst (ServerIndex.getEpaycoAuthToken remote
         (CreateEpaycoSessionConfig.publicKey config)
         (CreateEpaycoSessionConfig.privateKey config) (Spec.base_url config) log)
  = Axios.rejected m ->
  ServerIndex.createEpaycoSession remote config log
  = (Axios.rejected (SESSION_FAILED ++ m), (log ++ [Spec.first_request config])%list)
  /\ Js.startsWith m "ePayco Authentication Failed:" = true.
Proof.
  intros Hpk Hsk Hpd Hthrown H. unfold Spec.first_request in Hthrown. split.
  - apply ServerIndex_createEpaycoSession_rejected_login with (pd := pd);
      try assumption.
    rewrite ServerIndex_getEpaycoAuthToken_run in H |- *. cbn [fst] in H.
    now rewrite H.
  - rewrite ServerIndex_getEpaycoAuthToken_run in H. cbn [fst] in H.
    destruct (Axios.login_endpoint remote log _) as [body|[d am|em|v]].
    + apply if_truthy_rejected_inv in H. subst m. apply startsWith_auth_tag.
    + injection H as <-. apply startsWith_auth_tag.
    + injection H as <-. apply startsWith_auth_tag.
    + now contradiction (Hthrown v).
Qed.

Lemma ServerIndex_createEpaycoSession_authentication_failure_witness :
  ServerIndex.createEpaycoSession
    (Fixtures.gateway Fixtures.login_refused Fixtures.session_ok) Fixtures.config []
  = (Axios.rejected
       (SESSION_FAILED
        ++ "ePayco Authentication Failed: Network error or ePayco server issue during authentication."),
     ([] ++ [Spec.first_request Fixtures.config])%list)
  /\ Js.startsWith
       "ePayco Authentication Failed: Network error or ePayco server issue during authentication."
       "ePayco Authentication Failed:" = true.
Proof.
  apply (ServerIndex_createEpaycoSession_authentication_failure
           (Fixtures.gateway Fixtures.login_refused Fixtures.session_ok)
           Fixtures.config [] (Samples.payment None None));
    try discriminate; reflexivity.
Defined.

(** X8. [createEpaycoSession] sends at most two requests and never the
    session request without a token: the log is untouched when a
    precondition fails, gets the login request alone when the login is
    rejected, and gets the login request followed by the session request
    (bearer token, canonical body) when the login resolves. *)
Theorem createEpaycoSession_requests
        (remote : Axios.net) (config : CreateEpaycoSessionConfig.t)
        (log : list Axios.request) :
  let auth := Sdk.getEpaycoAuthToken remote
                (CreateEpaycoSessionConfig.publicKey config)
                (CreateEpaycoSessionConfig.privateKey config) (Spec.base_url config) log in
  let log' := snd (Sdk.createEpaycoSession remote config log) in
  ((CreateEpaycoSessionConfig.publicKey config = ""
    \/ CreateEpaycoSessionConfig.privateKey config = ""
    \/ CreateEpaycoSessionConfig.paymentDetails config = None)
   /\ log' = log)
  \/ ((exists m, fst auth = Axios.rejected m)
      /\ log' = (log ++ [Spec.first_request config])%list)
  \/ (exists pd token,
         CreateEpaycoSessionConfig.paymentDetails config = Some pd
         /\ fst auth = Axios.resolved token
         /\ log' = (log ++ [Spec.first_request config;
                            Spec.second_request config pd token])%list).
Proof.
  intros auth log'. subst auth log'.
  destruct (config_cases config) as [Hbad|(Hpk & Hsk & pd & Hpd)].
  - left. split; [assumption|].
    destruct (Sdk_createEpaycoSession_config remote config log Hbad) as (m & -> & _).
    reflexivity.
  - right. rewrite (Sdk_createEpaycoSession_run _ _ _ _ Hpk Hsk Hpd).
    rewrite Sdk_getEpaycoAuthToken_run. cbn [fst].
    fold (Spec.first_request config).
    destruct (match Axios.login_endpoint remote log (Spec.first_request config) with
              | Axios.fulfilled body => _
              | Axios.failed e => _
              end) as [token|m].
    + right. exists pd, token. repeat split; try assumption.
      cbn [snd]. now rewrite <- app_assoc.
    + left. split; [now exists m | reflexivity].
Qed.

(** X9. [createEpaycoSession] resolves only after both requests, and only
    with a non-empty session id that the session response carried in
    [data.sessionId] next to [success: true]; it never resolves with an
    empty string or with a value the response did not hold. *)
Theorem createEpaycoSession_resolved_only_with_sessionId
        (remote : Axios.net) (config : CreateEpaycoSessionConfig.t)
        (log : list Axios.request) (sessionId : string) :
  fst (Sdk.createEpaycoSession remote config log) = Axios.resolved sessionId ->
  sessionId <> ""
  /\ exists pd token d,
      CreateEpaycoSessionConfig.paymentDetails config = Some pd
      /\ snd (Sdk.createEpaycoSession remote config log)
         = (log ++ [Spec.first_request config;
                    Spec.second_request config pd token])%list
      /\ Axios.session_endpoint remote (log ++ [Spec.first_request config])%list
           (Spec.second_request config pd token) = Axios.fulfilled (Some d)
      /\ Spec.has_sessionId d sessionId.
Proof.
  destruct (config_cases config) as [Hbad|(Hpk & Hsk & pd & Hpd)].
  - destruct (Sdk_createEpaycoSession_config remote config log Hbad) as (m & -> & _).
    discriminate.
  - rewrite (Sdk_createEpaycoSession_run _ _ _ _ Hpk Hsk Hpd).
    rewrite Sdk_getEpaycoAuthToken_run. fold (Spec.first_request config).
    destruct (match Axios.login_endpoint remote log (Spec.first_request config) with
              | Axios.fulfilled body => _
              | Axios.failed e => _
              end) as [token|m]; [|discriminate].
    cbn [fst snd]. unfold Wording.Sdk_interpret.
    destruct (Axios.session_endpoint remote _ _) as [[d|]|e] eqn:E; try discriminate.
    intros H. apply if_truthy_resolved_inv in H as [H Hne].
    split; [assumption|].
    exists pd, token, d. repeat split; try assumption.
    + now rewrite <- app_assoc.
    + now destruct (EpaycoSessionApiResponse.success d) as [[|]|].
    + now destruct (EpaycoSessionApiResponse.success d) as [[|]|].
Qed.

Lemma createEpaycoSession_resolved_only_with_sessionId_witness :
  "sess-1" <> ""
  /\ exists pd token d,
      CreateEpaycoSessionConfig.paymentDetails Fixtures.config = Some pd
      /\ snd (Sdk.createEpaycoSession
                (Fixtures.gateway Fixtures.login_ok Fixtures.session_ok)
                Fixtures.config [])
         = ([] ++ [Spec.first_request Fixtures.config;
                   Spec.second_request Fixtures.config pd token])%list
      /\ Axios.session_endpoint (Fixtures.gateway Fixtures.login_ok Fixtures.session_ok)
           ([] ++ [Spec.first_request Fixtures.config])%list
           (Spec.second_request Fixtures.config pd token) = Axios.fulfilled (Some d)
      /\ Spec.has_sessionId d "sess-1".
Proof.
  apply (createEpaycoSession_resolved_only_with_sessionId
           (Fixtures.gateway Fixtures.login_ok Fixtures.session_ok) Fixtures.config []).
  vm_compute. reflexivity.
Defined.

(** X10. With the preconditions met and the login accepted, a session
    response without [success: true] and a session id makes
    [createEpaycoSession] reject with the session tag (once), then
    [textResponse] if non-empty, else [titleResponse], else a fixed text,
    then, when [data.errors] is a non-empty list, [ Details: ] and every
    entry as [message (field code: n)] in the order received, joined by
    commas. *)
Theorem createEpaycoSession_refusal_message
        (remote : Axios.net) (config : CreateEpaycoSessionConfig.t)
        (log : list Axios.request)
        (pd : EpaycoPaymentDetails.t) (b : EpaycoLoginResponse.t) (token : string)
        (d : EpaycoSessionApiResponse.t) :
  CreateEpaycoSessionConfig.publicKey config <> "" ->
  CreateEpaycoSessionConfig.privateKey config <> "" ->
  CreateEpaycoSessionConfig.paymentDetails config = Some pd ->
  Axios.login_endpoint remote log (Spec.first_request config)
  = Axios.fulfilled (Some b) ->
  EpaycoLoginResponse.token b = Some token -> token <> "" ->
  Axios.session_endpoint remote (log ++ [Spec.first_request config])%list
    (Spec.second_request config pd token) = Axios.fulfilled (Some d) ->
  (forall sessionId, ~ Spec.has_sessionId d sessionId) ->
  fst (Sdk.createEpaycoSession remote config log)
  = Axios.rejected
      (SESSION_FAILED
       ++ Spec.first_present [ EpaycoSessionApiResponse.textResponse d;
                               EpaycoSessionApiResponse.titleResponse d ]
            "ePayco session creation failed."
       ++ Wording.details_text "field code: " (EpaycoSessionApiResponse.data d)).
Proof.
  intros Hpk Hsk Hpd Hlogin Htok Hne Hsession Hno.
  rewrite (Sdk_createEpaycoSession_delivered _ _ _ _ _ _ _ Hpk Hsk Hpd Hlogin Htok Hne
             Hsession).
  rewrite session_error_message_text, session_catch_tagged.
  unfold if_truthy.
  destruct (EpaycoSessionApiResponse.success d) as [[|]|] eqn:Es; try reflexivity.
  destruct (opt_chain (EpaycoSessionApiResponse.data d) EpaycoSessionData.sessionId)
    as [sid|] eqn:Ed; [|reflexivity].
  destruct (String.eqb_spec sid "") as [->|Hn]; [reflexivity|].
  exfalso. apply (Hno sid). unfold Spec.has_sessionId. now rewrite Es, Ed.
Qed.

Lemma createEpaycoSession_refusal_message_witness :
  fst (Sdk.createEpaycoSession
         (Fixtures.gateway Fixtures.login_ok (Axios.fulfilled (Some Fixtures.refusal)))
         Fixtures.config [])
  = Axios.rejected
      ("ePayco Session Creation Failed: Invalid data Details: "
       ++ "ip is required (field code: 101), amount is invalid (field code: 102)").
Proof.
  apply (createEpaycoSession_refusal_message
           (Fixtures.gateway Fixtures.login_ok (Axios.fulfilled (Some Fixtures.refusal)))
           Fixtures.config [] (Samples.payment None None)
           (EpaycoLoginResponse.mk (Some "jwt") None None None None) "jwt"
           Fixtures.refusal);
    try discriminate; try reflexivity.
  intros sid (E & _). discriminate E.
Defined.

(** X11. With the preconditions met and the login accepted, a session
    request that fails with an axios error makes [createEpaycoSession]
    reject with the session tag and: for an error with a body, its
    [textResponse], else [titleResponse], else a network text, followed by
    the field errors as [message (code: n)]; for an error without a body,
    axios's own message, or the network text when that is empty. *)
Theorem createEpaycoSession_axios_error
        (remote : Axios.net) (config : CreateEpaycoSessionConfig.t)
        (log : list Axios.request)
        (pd : EpaycoPaymentDetails.t) (b : EpaycoLoginResponse.t) (token : string)
        (errorData : option EpaycoSessionApiResponse.t) (axios_message : string) :
  CreateEpaycoSessionConfig.publicKey config <> "" ->
  CreateEpaycoSessionConfig.privateKey config <> "" ->
  CreateEpaycoSessionConfig.paymentDetails config = Some pd ->
  Axios.login_endpoint remote log (Spec.first_request config)
  = Axios.fulfilled (Some b) ->
  EpaycoLoginResponse.token b = Some token -> token <> "" ->
  Axios.session_endpoint remote (log ++ [Spec.first_request config])%list
    (Spec.second_request config pd token)
  = Axios.failed (Axios.AxiosError errorData axios_message) ->
  fst (Sdk.createEpaycoSession remote config log)
  = Axios.rejected
      (SESSION_FAILED
       ++ match errorData with
          | Some d =>
              Spec.first_present [ EpaycoSessionApiResponse.textResponse d;
                                   EpaycoSessionApiResponse.titleResponse d ]
                "Network error or ePayco server issue during session creation."
              ++ Wording.details_text "code: " (EpaycoSessionApiResponse.data d)
          | None =>
              Spec.first_present [Some axios_message]
                "Network error or ePayco server issue during session creation."
          end).
Proof.
  intros Hpk Hsk Hpd Hlogin Htok Hne Hsession.
  rewrite (Sdk_createEpaycoSession_run _ _ _ _ Hpk Hsk Hpd).
  unfold Spec.first_request in Hlogin.
  rewrite (Sdk_getEpaycoAuthToken_token _ _ _ _ _ _ _ Hlogin Htok Hne).
  fold (Spec.first_request config). rewrite Hsession. cbn [fst].
  unfold Wording.Sdk_interpret, Sdk.session_catch. f_equal. f_equal.
  destruct errorData as [d|].
  - now rewrite with_details_text, or_pair_first_present.
  - unfold Js.or_else, Js.truthy, Spec.first_present.
    now destruct (String.eqb axios_message "").
Qed.

Lemma createEpaycoSession_axios_error_witness :
  fst (Sdk.createEpaycoSession
         (Fixtures.gateway Fixtures.login_ok
            (Axios.failed (Axios.AxiosError (Some Fixtures.refusal) "status 422")))
         Fixtures.config [])
  = Axios.rejected
      ("ePayco Session Creation Failed: Invalid data Details: "
       ++ "ip is required (code: 101), amount is invalid (code: 102)").
Proof.
  apply (createEpaycoSession_axios_error
           (Fixtures.gateway Fixtures.login_ok
              (Axios.failed (Axios.AxiosError (Some Fixtures.refusal) "status 422")))
           Fixtures.config [] (Samples.payment None None)
           (EpaycoLoginResponse.mk (Some "jwt") None None None None) "jwt"
           (Some Fixtures.refusal) "status 422");
    try discriminate; reflexivity.
Defined.

(** X12. Every rejection of [createEpaycoSession] has a message that
    starts with one of the tags [ePayco SDK:], [ePayco Authentication
    Failed:], [ePayco Session Creation Failed:], except when the session
    request threw a value that is not an [Error]: then it is the untagged
    [An unknown error occurred during ePayco session creation.]. *)
Theorem createEpaycoSession_rejection_tagged
        (remote : Axios.net) (config : CreateEpaycoSessionConfig.t)
        (log : list Axios.request) (m : string) :
  fst (Sdk.createEpaycoSession remote config log) = Axios.rejected m ->
  Wording.tagged m
  \/ m = "An unknown error occurred during ePayco session creation.".
Proof.
  destruct (config_cases config) as [Hbad|(Hpk & Hsk & pd & Hpd)].
  - destruct (Sdk_createEpaycoSession_config remote config log Hbad) as (m0 & -> & T).
    intros [= <-]. left. now left.
  - rewrite (Sdk_createEpaycoSession_run _ _ _ _ Hpk Hsk Hpd).
    destruct (Sdk.getEpaycoAuthToken remote _ _ _ log) as [[token|m0] log1]; cbn [fst].
    + unfold Wording.Sdk_interpret.
      destruct (Axios.session_endpoint remote log1 _) as [[d|]|[ed am|em|v]].
      * intros H. apply if_truthy_rejected_inv in H. subst m.
        left. apply session_catch_Error_tagged.
      * intros [= <-]. left.
        exact (session_catch_Error_tagged (TypeError_reading Js.null "success")).
      * intros [= <-]. left. right. right. apply startsWith_session_tag.
      * intros [= <-]. left. exact (session_catch_Error_tagged em).
      * intros [= <-]. now right.
    + intros [= <-]. left. exact (session_catch_Error_tagged m0).
Qed.

Lemma createEpaycoSession_rejection_tagged_witness :
  Wording.tagged "ePayco Authentication Failed: Invalid client"
  \/ "ePayco Authentication Failed: Invalid client"
     = "An unknown error occurred during ePayco session creation.".
Proof.
  apply (createEpaycoSession_rejection_tagged
           (Fixtures.gateway Fixtures.login_refused Fixtures.session_ok)
           Fixtures.config []).
  reflexivity.
Defined.

(** ** Upper case *)

Section UpperCase.
Import Js.

Lemma concat_empty_cons (x : string) (xs : list string) :
  String.concat "" (x :: xs) = x ++ String.concat "" xs.
Proof.
  destruct xs as [|y ys]; [|reflexivity]. symmetry. apply append_empty_r.
Qed.

(** An ASCII letter is mapped as a byte. *)
Lemma upper_item_ascii (c : ascii) :
  (Unicode.byte_value c <? 128)%Z = true ->
  Unicode.upper_item (Unicode.code_point (Unicode.byte_value c))
  = String (upper_ascii c) "".
Proof.
  destruct c as [[|] [|] [|] [|] [|] [|] [|] [|]]; intros H;
    vm_compute in H; try discriminate H; vm_compute; reflexivity.
Qed.

(** On ASCII text [toUpperCase] maps [a] .. [z] to [A] .. [Z], byte by
    byte, and nothing else. *)
Lemma toUpperCase_ascii (s : string) :
  Forall (fun c => (Unicode.byte_value c <? 128)%Z = true) (list_ascii_of_string s) ->
  toUpperCase s = map_ascii upper_ascii s.
Proof.
  unfold toUpperCase, Unicode.toUpperCase.
  induction s as [|c r IH]; intros H; [reflexivity|].
  cbn [list_ascii_of_string] in H. inversion H as [|c' l' Hc Hr]; subst.
  cbn [Unicode.decode]. cbv zeta. rewrite Hc. cbn [map].
  rewrite concat_empty_cons, (upper_item_ascii _ Hc), (IH Hr). reflexivity.
Qed.

Example toUpperCase_ASCII : toUpperCase "cop" = "COP".
Proof. vm_compute. reflexivity. Qed.

(** Beyond ASCII: a letter of two bytes, a letter whose upper case is two
    letters, a ligature, and a letter without upper case. *)
Example toUpperCase_umlaut : toUpperCase "cöp" = "CÖP".
Proof. vm_compute. reflexivity. Qed.

Example toUpperCase_sharp_s : toUpperCase "straße" = "STRASSE".
Proof. vm_compute. reflexivity. Qed.

Example toUpperCase_tilde : toUpperCase "español" = "ESPAÑOL".
Proof. vm_compute. reflexivity. Qed.

Example toUpperCase_ligature : toUpperCase "ﬁn" = "FIN".
Proof. vm_compute. reflexivity. Qed.

Example toUpperCase_no_case : toUpperCase "円 100" = "円 100".
Proof. vm_compute. reflexivity. Qed.

(** The mapper on a payment whose [currency] and [lang] are not ASCII. *)
Example mapPaymentDetailsToEpaycoRequest_upper_case :
  let out :=
    Sdk.mapPaymentDetailsToEpaycoRequest
      (EpaycoPaymentDetails.mk "Test Product" "A product for testing" "cöp"
         (Num "50000") "co" "español" "190.0.0.1"
         "https://myapp.com/api/epayco-confirmation"
         "https://myapp.com/checkout/response"
         Samples.billing None None None None None None None) true in
  obj_get "currency" out = str "CÖP"
  /\ obj_get "country" out = str "CO"
  /\ obj_get "lang" out = str "ESPAÑOL".
Proof. vm_compute. repeat split. Qed.

End UpperCase.

(** ** Canonicalizer, the whole body *)

Section CanonicalizerBody.
Import Js Spec.

Ltac optional_cases d :=
  destruct d as [name description currency amount country lang ip
                 confirmationUrl responseUrl billing
                 invoice taxBase tax taxIco methodsDisable splitPayment extras];
  destruct invoice, taxBase, tax, taxIco, methodsDisable as [[|m0 ms]|], splitPayment.

Lemma distinct_NoDup (l : list string) : Wording.distinct l = true -> NoDup l.
Proof.
  induction l as [|k r IH]; simpl; [constructor|].
  intros H. apply andb_true_iff in H as [H1 H2]. constructor; [|now apply IH].
  intros Hin. apply negb_true_iff in H1.
  assert (E : existsb (String.eqb k) r = true).
  { apply existsb_exists. exists k. split; [assumption | apply String.eqb_refl]. }
  congruence.
Qed.

Lemma literal_keys (d : EpaycoPaymentDetails.t) (t : bool) :
  keys (Sdk.stringifiedPayload_literal d t)
  = (Wording.required_keys ++ Wording.optional_keys d)%list.
Proof. optional_cases d; reflexivity. Qed.

Lemma literal_keys_distinct (d : EpaycoPaymentDetails.t) :
  NoDup (Wording.required_keys ++ Wording.optional_keys d)%list.
Proof. apply distinct_NoDup. optional_cases d; reflexivity. Qed.

Lemma in_keys_forallb (P : string * value -> bool) (o : obj) (k : string) :
  forallb P o = true -> In k (keys o) -> exists v, P (k, v) = true.
Proof.
  induction o as [|[k0 v0] r IH]; simpl; [contradiction|].
  intros H [<-|Hin]; apply andb_true_iff in H as [H1 H2].
  - now exists v0.
  - now apply IH.
Qed.

Lemma in_extras_keys (ex : EpaycoExtras) (slots : list nat) (k : string) :
  In k (keys (flat_map (extras_entry ex) slots)) ->
  exists i v, In i slots /\ k = extra_key i /\ extras_get (extra_key i) ex = Some (Some v).
Proof.
  induction slots as [|i slots IH]; simpl; [contradiction|].
  unfold keys. rewrite map_app. intros H. apply in_app_or in H as [H|H].
  - unfold extras_entry in H.
    destruct (extras_get (extra_key i) ex) as [[v|]|] eqn:E; simpl in H;
      try contradiction.
    destruct H as [<-|[]]. exists i, v. repeat split; [now left | assumption].
  - destruct (IH H) as (j & v & Hj & -> & E). exists j, v. repeat split;
      [now right | assumption].
Qed.

Lemma extras_keys_distinct (ex : EpaycoExtras) (slots : list nat) :
  NoDup slots -> NoDup (keys (flat_map (extras_entry ex) slots)).
Proof.
  induction 1 as [|i slots Hi Hnd IH]; simpl; [constructor|].
  unfold keys. rewrite map_app. apply NoDup_app; [| exact IH |].
  - unfold extras_entry. destruct (extras_get (extra_key i) ex) as [[v|]|]; simpl;
      repeat constructor; simpl; tauto.
  - intros k Hk Hk'.
    destruct (in_extras_keys ex slots k Hk') as (j & v & Hj & -> & _).
    unfold extras_entry in Hk.
    destruct (extras_get (extra_key i) ex) as [[w|]|]; simpl in Hk;
      try contradiction.
    destruct Hk as [E|[]]. apply extra_key_inj in E. congruence.
Qed.

Lemma map_keys (d : EpaycoPaymentDetails.t) (t : bool) :
  keys (Sdk.mapPaymentDetailsToEpaycoRequest d t)
  = (Wording.required_keys ++ Wording.optional_keys d ++ Wording.extras_keys d)%list.
Proof.
  unfold Sdk.mapPaymentDetailsToEpaycoRequest, Wording.extras_keys.
  destruct (EpaycoPaymentDetails.extras d) as [ex|].
  - rewrite extras_loop_appends.
    + unfold keys at 1. rewrite map_app. fold (keys (Sdk.stringifiedPayload_literal d t)).
      rewrite literal_keys. now rewrite <- app_assoc.
    + apply seq_NoDup.
    + intros i _. apply literal_lacks_extra_key.
  - rewrite literal_keys. now rewrite app_nil_r.
Qed.

Lemma receiver_object_entries (r : EpaycoSplitReceiver.t) :
  Sdk.receiver_object r = Wording.receiver_entries r.
Proof.
  destruct r as [merchantId amount [tb|] [tx|] [fee|]]; reflexivity.
Qed.

Lemma billing_object_entries (b : EpaycoBillingDetails.t) :
  Sdk.billing_object b = Wording.billing_entries b.
Proof.
  destruct b as [email name address typeDoc numberDoc [c|] mobilePhone]; reflexivity.
Qed.

Lemma literal_scalars (d : EpaycoPaymentDetails.t) (t : bool) :
  let lit := Sdk.stringifiedPayload_literal d t in
  obj_get "ip" lit = str (EpaycoPaymentDetails.ip d)
  /\ obj_get "name" lit = str (EpaycoPaymentDetails.name d)
  /\ obj_get "description" lit = str (EpaycoPaymentDetails.description d)
  /\ obj_get "currency" lit = str (toUpperCase (EpaycoPaymentDetails.currency d))
  /\ obj_get "amount" lit = str (Number_toString (EpaycoPaymentDetails.amount d))
  /\ obj_get "country" lit = str (toUpperCase (EpaycoPaymentDetails.country d))
  /\ obj_get "lang" lit = str (toUpperCase (EpaycoPaymentDetails.lang d))
  /\ obj_get "response" lit = str (EpaycoPaymentDetails.responseUrl d)
  /\ obj_get "confirmation" lit = str (EpaycoPaymentDetails.confirmationUrl d)
  /\ obj_get "checkout_version" lit = str "2".
Proof. optional_cases d; repeat split; reflexivity. Qed.

Lemma literal_optional_values (d : EpaycoPaymentDetails.t) (t : bool) :
  let lit := Sdk.stringifiedPayload_literal d t in
  obj_get "invoice" lit
  = match EpaycoPaymentDetails.invoice d with Some s => str s | None => undefined end
  /\ obj_get "taxBase" lit
     = match EpaycoPaymentDetails.taxBase d with
       | Some n => str (Number_toString n) | None => undefined end
  /\ obj_get "tax" lit
     = match EpaycoPaymentDetails.tax d with
       | Some n => str (Number_toString n) | None => undefined end
  /\ obj_get "taxIco" lit
     = match EpaycoPaymentDetails.taxIco d with
       | Some n => str (Number_toString n) | None => undefined end
  /\ obj_get "methodsDisable" lit
     = match EpaycoPaymentDetails.methodsDisable d with
       | Some (m :: ms) => array (map str (m :: ms))
       | _ => undefined
       end
  /\ obj_get "splitPayment" lit
     = match EpaycoPaymentDetails.splitPayment d with
       | Some sp => object (Sdk.splitPayment_object sp)
       | None => undefined
       end.
Proof. optional_cases d; repeat split; reflexivity. Qed.

End CanonicalizerBody.

Section CanonicalizerExtras.
Import Js Spec.

(** The object literal does not read [extras]. *)
Lemma literal_with_extras (d : EpaycoPaymentDetails.t) (ex : option EpaycoExtras)
      (t : bool) :
  Sdk.stringifiedPayload_literal (Wording.with_extras d ex) t
  = Sdk.stringifiedPayload_literal d t.
Proof. now destruct d. Qed.

Lemma flat_map_nil {A B : Type} (f : A -> list B) (l : list A) :
  (forall a, In a l -> f a = []) -> flat_map f l = [].
Proof.
  induction l as [|a l IH]; simpl; [reflexivity|]. intros H.
  rewrite (H a) by now left. apply IH. intros b Hb. apply H. now right.
Qed.

Lemma splitPayment_object_entries (sp : EpaycoSplitPayment.t) :
  Sdk.splitPayment_object sp
  = [ ("type", str (EpaycoSplitPayment.kind_text (EpaycoSplitPayment.type sp)));
      ("receivers",
       array (map (fun r => object (Wording.receiver_entries r))
                (EpaycoSplitPayment.receivers sp))) ].
Proof.
  unfold Sdk.splitPayment_object, object_literal. cbn [fold_left add_member obj_set].
  cbn [String.eqb Ascii.eqb Bool.eqb].
  do 2 f_equal. f_equal. f_equal. apply map_ext. intros r.
  now rewrite receiver_object_entries.
Qed.

End CanonicalizerExtras.

(** X13. The body always has the members [ip], [name], [description],
    [amount], [response], [confirmation] with the text of the matching
    input ([responseUrl] and [confirmationUrl] for the last two),
    [currency], [country] and [lang] in upper case, and
    [checkout_version] equal to ["2"]; neither the optional members nor the
    extras can change them. *)
Theorem mapPaymentDetailsToEpaycoRequest_required_members
        (details : EpaycoPaymentDetails.t) (isTestMode : bool) :
  let out := Sdk.mapPaymentDetailsToEpaycoRequest details isTestMode in
  Js.obj_get "ip" out = Js.str (EpaycoPaymentDetails.ip details)
  /\ Js.obj_get "name" out = Js.str (EpaycoPaymentDetails.name details)
  /\ Js.obj_get "description" out = Js.str (EpaycoPaymentDetails.description details)
  /\ Js.obj_get "currency" out
     = Js.str (Js.toUpperCase (EpaycoPaymentDetails.currency details))
  /\ Js.obj_get "amount" out
     = Js.str (Js.Number_toString (EpaycoPaymentDetails.amount details))
  /\ Js.obj_get "country" out
     = Js.str (Js.toUpperCase (EpaycoPaymentDetails.country details))
  /\ Js.obj_get "lang" out = Js.str (Js.toUpperCase (EpaycoPaymentDetails.lang details))
  /\ Js.obj_get "response" out = Js.str (EpaycoPaymentDetails.responseUrl details)
  /\ Js.obj_get "confirmation" out
     = Js.str (EpaycoPaymentDetails.confirmationUrl details)
  /\ Js.obj_get "checkout_version" out = Js.str "2".
Proof.
  intros out. subst out.
  destruct (literal_scalars details isTestMode)
    as (S1 & S2 & S3 & S4 & S5 & S6 & S7 & S8 & S9 & S10).
  destruct (map_other_keys details isTestMode "ip" eq_refl) as [-> _].
  destruct (map_other_keys details isTestMode "name" eq_refl) as [-> _].
  destruct (map_other_keys details isTestMode "description" eq_refl) as [-> _].
  destruct (map_other_keys details isTestMode "currency" eq_refl) as [-> _].
  destruct (map_other_keys details isTestMode "amount" eq_refl) as [-> _].
  destruct (map_other_keys details isTestMode "country" eq_refl) as [-> _].
  destruct (map_other_keys details isTestMode "lang" eq_refl) as [-> _].
  destruct (map_other_keys details isTestMode "response" eq_refl) as [-> _].
  destruct (map_other_keys details isTestMode "confirmation" eq_refl) as [-> _].
  destruct (map_other_keys details isTestMode "checkout_version" eq_refl) as [-> _].
  repeat split; assumption.
Qed.

(** X14. The members of the body come in a fixed order: the eighteen
    required ones, then the optional ones that were given ([invoice],
    [taxBase], [tax], [taxIco], a non-empty [methodsDisable],
    [splitPayment]), then the extras; no member name occurs twice, and every
    extras member is one of [extra1] .. [extra10]. *)
Theorem mapPaymentDetailsToEpaycoRequest_members
        (details : EpaycoPaymentDetails.t) (isTestMode : bool) :
  let out := Sdk.mapPaymentDetailsToEpaycoRequest details isTestMode in
  Js.keys out
  = (Wording.required_keys ++ Wording.optional_keys details
       ++ Wording.extras_keys details)%list
  /\ NoDup (Js.keys out)
  /\ (forall k, In k (Wording.extras_keys details) ->
                exists i, (1 <= i <= 10)%nat /\ k = Spec.extra_key i).
Proof.
  intros out. subst out. rewrite map_keys.
  assert (R : forall k, In k (Wording.extras_keys details) ->
                        exists i, (1 <= i <= 10)%nat /\ k = Spec.extra_key i).
  { unfold Wording.extras_keys.
    destruct (EpaycoPaymentDetails.extras details) as [ex|]; [|contradiction].
    intros k Hk. apply in_extras_keys in Hk as (i & v & Hi & -> & _).
    exists i. split; [|reflexivity]. apply in_seq in Hi. lia. }
  split; [reflexivity|]. split; [|exact R].
  rewrite app_assoc. apply NoDup_app.
  - apply literal_keys_distinct.
  - unfold Wording.extras_keys.
    destruct (EpaycoPaymentDetails.extras details) as [ex|]; [|constructor].
    apply extras_keys_distinct, seq_NoDup.
  - intros k Hk Hk'. destruct (R k Hk') as (i & _ & ->).
    rewrite <- (literal_keys details isTestMode) in Hk.
    destruct (in_keys_forallb Spec.not_extra _ _
                (literal_not_extra details isTestMode) Hk) as (v & Hv).
    rewrite extra_key_is_extra in Hv. discriminate.
Qed.

(** X15. [splitPayment] is a member of the body exactly when the input
    has one; it then holds the split type as text and a [receivers] array
    with one object per receiver, in the input order, each with
    [merchantId] and [amount] as text followed by [taxBase], [tax] and [fee]
    as text where the receiver has them. *)
Theorem mapPaymentDetailsToEpaycoRequest_splitPayment
        (details : EpaycoPaymentDetails.t) (isTestMode : bool) :
  Js.obj_get "splitPayment" (Sdk.mapPaymentDetailsToEpaycoRequest details isTestMode)
  = match EpaycoPaymentDetails.splitPayment details with
    | Some sp =>
        Js.object
          [ ("type",
             Js.str (EpaycoSplitPayment.kind_text (EpaycoSplitPayment.type sp)));
            ("receivers",
             Js.array (map (fun r => Js.object (Wording.receiver_entries r))
                         (EpaycoSplitPayment.receivers sp))) ]
    | None => Js.undefined
    end.
Proof.
  destruct (map_other_keys details isTestMode "splitPayment" eq_refl) as [-> _].
  destruct (literal_optional_values details isTestMode) as (_ & _ & _ & _ & _ & ->).
  destruct (EpaycoPaymentDetails.splitPayment details) as [sp|]; [|reflexivity].
  now rewrite splitPayment_object_entries.
Qed.

(** Scenario D: two receivers keep their order and all their numbers
    become text. *)
Example splitPayment_two_receivers :
  Js.obj_get "splitPayment"
    (Sdk.mapPaymentDetailsToEpaycoRequest Fixtures.split_payment false)
  = Js.object
      [ ("type", Js.str "percentage");
        ("receivers",
         Js.array
           [ Js.object [ ("merchantId", Js.str "111"); ("amount", Js.str "3000");
                         ("tax", Js.str "19") ];
             Js.object [ ("merchantId", Js.str "222"); ("amount", Js.str "2000");
                         ("taxBase", Js.str "1500"); ("fee", Js.str "2.5") ] ]) ].
Proof. vm_compute. reflexivity. Qed.

(** X16. An optional member that is in the body holds the input as text:
    [invoice] the string itself, [taxBase], [tax] and [taxIco] the number's
    text, [methodsDisable] the array of the given strings in the same order;
    when it is not in the body, reading it gives [undefined]. *)
Theorem mapPaymentDetailsToEpaycoRequest_optional_values
        (details : EpaycoPaymentDetails.t) (isTestMode : bool) :
  let out := Sdk.mapPaymentDetailsToEpaycoRequest details isTestMode in
  Js.obj_get "invoice" out
  = match EpaycoPaymentDetails.invoice details with
    | Some s => Js.str s
    | None => Js.undefined
    end
  /\ Js.obj_get "taxBase" out
     = match EpaycoPaymentDetails.taxBase details with
       | Some n => Js.str (Js.Number_toString n)
       | None => Js.undefined
       end
  /\ Js.obj_get "tax" out
     = match EpaycoPaymentDetails.tax details with
       | Some n => Js.str (Js.Number_toString n)
       | None => Js.undefined
       end
  /\ Js.obj_get "taxIco" out
     = match EpaycoPaymentDetails.taxIco details with
       | Some n => Js.str (Js.Number_toString n)
       | None => Js.undefined
       end
  /\ Js.obj_get "methodsDisable" out
     = match EpaycoPaymentDetails.methodsDisable details with
       | Some (m :: ms) => Js.array (map Js.str (m :: ms))
       | _ => Js.undefined
       end.
Proof.
  intros out. subst out.
  destruct (literal_optional_values details isTestMode) as (V1 & V2 & V3 & V4 & V5 & _).
  destruct (map_other_keys details isTestMode "invoice" eq_refl) as [-> _].
  destruct (map_other_keys details isTestMode "taxBase" eq_refl) as [-> _].
  destruct (map_other_keys details isTestMode "tax" eq_refl) as [-> _].
  destruct (map_other_keys details isTestMode "taxIco" eq_refl) as [-> _].
  destruct (map_other_keys details isTestMode "methodsDisable" eq_refl) as [-> _].
  repeat split; assumption.
Qed.

(** X17. Extras cannot touch the payment: two inputs that differ only in
    their [extras] give bodies that agree on every member whose name does
    not start with [extra], in presence and in value. *)
Theorem mapPaymentDetailsToEpaycoRequest_extras_leave_payment
        (details : EpaycoPaymentDetails.t) (ex1 ex2 : option EpaycoExtras)
        (isTestMode : bool) (k : string) :
  String.prefix "extra" k = false ->
  Js.obj_get k
    (Sdk.mapPaymentDetailsToEpaycoRequest (Wording.with_extras details ex1) isTestMode)
  = Js.obj_get k
      (Sdk.mapPaymentDetailsToEpaycoRequest (Wording.with_extras details ex2) isTestMode)
  /\ Js.has_key k
       (Sdk.mapPaymentDetailsToEpaycoRequest (Wording.with_extras details ex1) isTestMode)
     = Js.has_key k
         (Sdk.mapPaymentDetailsToEpaycoRequest (Wording.with_extras details ex2)
            isTestMode).
Proof.
  intros Hk.
  destruct (map_other_keys (Wording.with_extras details ex1) isTestMode k Hk) as [-> ->].
  destruct (map_other_keys (Wording.with_extras details ex2) isTestMode k Hk) as [-> ->].
  now rewrite !literal_with_extras.
Qed.

Lemma mapPaymentDetailsToEpaycoRequest_extras_leave_payment_witness :
  Js.obj_get "amount"
    (Sdk.mapPaymentDetailsToEpaycoRequest
       (Wording.with_extras (Samples.payment None None)
          (Some [("extra1", Some "1"); ("amount", Some "1")])) true)
  = Js.obj_get "amount"
      (Sdk.mapPaymentDetailsToEpaycoRequest
         (Wording.with_extras (Samples.payment None None) None) true).
Proof.
  apply (proj1 (mapPaymentDetailsToEpaycoRequest_extras_leave_payment
                  (Samples.payment None None)
                  (Some [("extra1", Some "1"); ("amount", Some "1")]) None true
                  "amount" eq_refl)).
Defined.

(** X18. The nested [billing] object of the body has [email], [name],
    [address], [typeDoc], [numberDoc], [mobilePhone], in this order, and
    [callingCode] after them exactly when the input has one. *)
Theorem mapPaymentDetailsToEpaycoRequest_billing_object
        (details : EpaycoPaymentDetails.t) (isTestMode : bool) :
  Js.obj_get "billing" (Sdk.mapPaymentDetailsToEpaycoRequest details isTestMode)
  = Js.object (Wording.billing_entries (EpaycoPaymentDetails.billing details)).
Proof.
  destruct (map_other_keys details isTestMode "billing" eq_refl) as [-> _].
  destruct (literal_billing details isTestMode) as (-> & _).
  now rewrite billing_object_entries.
Qed.

(** X19. An [extras] object in which none of the ten slots holds a string
    (it is empty, has only other keys, or its slots are [null]) gives the
    same body as no [extras] at all. *)
Theorem mapPaymentDetailsToEpaycoRequest_empty_extras
        (details : EpaycoPaymentDetails.t) (isTestMode : bool) (ex : EpaycoExtras) :
  EpaycoPaymentDetails.extras details = Some ex ->
  (forall i v, In i (seq 1 10) -> extras_get (Spec.extra_key i) ex <> Some (Some v)) ->
  Sdk.mapPaymentDetailsToEpaycoRequest details isTestMode
  = Sdk.mapPaymentDetailsToEpaycoRequest (Wording.with_extras details None) isTestMode.
Proof.
  intros Hex Hnone.
  unfold Sdk.mapPaymentDetailsToEpaycoRequest at 2. cbn [EpaycoPaymentDetails.extras
    Wording.with_extras]. rewrite literal_with_extras.
  unfold Sdk.mapPaymentDetailsToEpaycoRequest. rewrite Hex.
  rewrite extras_loop_appends.
  - rewrite flat_map_nil; [apply app_nil_r|].
    intros i Hi. unfold Spec.extras_entry.
    destruct (extras_get (Spec.extra_key i) ex) as [[v|]|] eqn:E; try reflexivity.
    exfalso. exact (Hnone i v Hi E).
  - apply seq_NoDup.
  - intros i _. apply literal_lacks_extra_key.
Qed.

Lemma mapPaymentDetailsToEpaycoRequest_empty_extras_witness :
  Sdk.mapPaymentDetailsToEpaycoRequest
    (Samples.payment None (Some [("extra11", Some "x"); ("extra3", None)])) true
  = Sdk.mapPaymentDetailsToEpaycoRequest
      (Wording.with_extras
         (Samples.payment None (Some [("extra11", Some "x"); ("extra3", None)])) None)
      true.
Proof.
  apply (mapPaymentDetailsToEpaycoRequest_empty_extras
           (Samples.payment None (Some [("extra11", Some "x"); ("extra3", None)])) true
           [("extra11", Some "x"); ("extra3", None)] eq_refl).
  intros i v Hi.
  repeat (destruct Hi as [<-|Hi]; [discriminate|]). destruct Hi.
Defined.

(** ** The server module without signature validation *)

Section ServerIndexRuns.
Import Js Axios Spec.

Lemma ServerIndex_auth_error_message_spec (body : option EpaycoLoginResponse.t) :
  ServerIndex.auth_error_message body
  = AUTH_FAILED
    ++ first_present (login_fields body)
         "Failed to authenticate with ePayco: Invalid token or error response.".
Proof.
  unfold ServerIndex.auth_error_message. now rewrite or_chain_first_present.
Qed.

Lemma or_single_first_present (a : option string) (fallback : string) :
  template (a ||| Some fallback) = first_present [a] fallback.
Proof.
  unfold or_else, truthy, first_present.
  destruct a as [s|]; [|reflexivity]. now destruct (String.eqb s "").
Qed.

Lemma ServerIndex_createEpaycoSession_delivered
      (remote : net) (config : CreateEpaycoSessionConfig.t) (log : list request)
      (pd : EpaycoPaymentDetails.t) (b : EpaycoLoginResponse.t) (token : string)
      (d : EpaycoSessionApiResponse.t) :
  CreateEpaycoSessionConfig.publicKey config <> "" ->
  CreateEpaycoSessionConfig.privateKey config <> "" ->
  CreateEpaycoSessionConfig.paymentDetails config = Some pd ->
  login_endpoint remote log (first_request config) = fulfilled (Some b) ->
  EpaycoLoginResponse.token b = Some token -> token <> "" ->
  session_endpoint remote (log ++ [first_request config])%list
    (second_request config pd token) = fulfilled (Some d) ->
  fst (ServerIndex.createEpaycoSession remote config log)
  = match EpaycoSessionApiResponse.success d with
    | Some true =>
        match EpaycoSessionApiResponse.data d with
        | Some data => resolved (EpaycoSessionData.sessionId data)
        | None => rejected (SESSION_FAILED ++ TypeError_reading undefined "sessionId")
        end
    | _ => rejected (SESSION_FAILED ++ ServerIndex.session_error_message d)
    end.
Proof.
  intros Hpk Hsk Hpd Hlogin Htok Hne Hsession.
  unfold ServerIndex.createEpaycoSession. rewrite !truthy_string, Hpd.
  destruct (String.eqb_spec (CreateEpaycoSessionConfig.publicKey config) "");
    [contradiction|].
  destruct (String.eqb_spec (CreateEpaycoSessionConfig.privateKey config) "");
    [contradiction|].
  cbn [negb orb]. unfold try_catch, bind, await.
  fold (base_url config).
  unfold first_request in Hlogin.
  rewrite (ServerIndex_getEpaycoAuthToken_token _ _ _ _ _ _ _ Hlogin Htok Hne).
  unfold post, ServerIndex.mapPaymentDetailsToEpaycoRequest.
  unfold second_request, first_request in Hsession. rewrite Hsession.
  destruct (EpaycoSessionApiResponse.success d) as [[|]|]; try reflexivity.
  now destruct (EpaycoSessionApiResponse.data d).
Qed.

End ServerIndexRuns.

(** What the two catch clauses of [src/server/index.ts] make of a thrown
    value that is no [Error]: reading [message] of [null] or [undefined]
    throws a [TypeError] out of the catch clause, any other value gives the
    text of its [message] member behind the tag. *)
Example ServerIndex_getEpaycoAuthToken_thrown_null :
  fst (ServerIndex.getEpaycoAuthToken
         (Fixtures.gateway (Axios.failed (Axios.NotAnError Js.null)) Fixtures.session_ok)
         "pk" "sk" DEFAULT_EPAYCO_API_BASE_URL [])
  = Axios.rejected "Cannot read properties of null (reading 'message')".
Proof. vm_compute. reflexivity. Qed.

Example ServerIndex_getEpaycoAuthToken_thrown_string :
  fst (ServerIndex.getEpaycoAuthToken
         (Fixtures.gateway (Axios.failed (Axios.NotAnError (Js.str "boom")))
            Fixtures.session_ok)
         "pk" "sk" DEFAULT_EPAYCO_API_BASE_URL [])
  = Axios.rejected "ePayco Authentication Failed: undefined".
Proof. vm_compute. reflexivity. Qed.

Example ServerIndex_getEpaycoAuthToken_thrown_object :
  fst (ServerIndex.getEpaycoAuthToken
         (Fixtures.gateway
            (Axios.failed (Axios.NotAnError (Js.object [("message", Js.str "boom")])))
            Fixtures.session_ok)
         "pk" "sk" DEFAULT_EPAYCO_API_BASE_URL [])
  = Axios.rejected "ePayco Authentication Failed: boom".
Proof. vm_compute. reflexivity. Qed.

Example ServerIndex_createEpaycoSession_thrown_undefined :
  fst (ServerIndex.createEpaycoSession
         (Fixtures.gateway (Axios.failed (Axios.NotAnError Js.undefined))
            Fixtures.session_ok)
         Fixtures.config [])
  = Axios.rejected
      "ePayco Session Creation Failed: Cannot read properties of undefined (reading 'message')".
Proof. vm_compute. reflexivity. Qed.

Example ServerIndex_createEpaycoSession_session_thrown_null :
  fst (ServerIndex.createEpaycoSession
         (Fixtures.gateway Fixtures.login_ok (Axios.failed (Axios.NotAnError Js.null)))
         Fixtures.config [])
  = Axios.rejected "Cannot read properties of null (reading 'message')".
Proof. vm_compute. reflexivity. Qed.

(** A [null] body of the session response: reading [success] throws. *)
Example createEpaycoSession_null_body :
  fst (Sdk.createEpaycoSession
         (Fixtures.gateway Fixtures.login_ok (Axios.fulfilled None)) Fixtures.config [])
  = Axios.rejected
      "ePayco Session Creation Failed: Cannot read properties of null (reading 'success')".
Proof. vm_compute. reflexivity. Qed.

(** X20. [createEpaycoSession] of [src/server/index.ts] checks the same
    preconditions before any request: with an empty key or without payment
    details it rejects and the request log is unchanged. Its two messages
    carry none of the SDK's tags. *)
Theorem ServerIndex_createEpaycoSession_configuration_error
        (remote : Axios.net) (config : CreateEpaycoSessionConfig.t)
        (log : list Axios.request) :
  CreateEpaycoSessionConfig.publicKey config = ""
  \/ CreateEpaycoSessionConfig.privateKey config = ""
  \/ CreateEpaycoSessionConfig.paymentDetails config = None ->
  exists m : string,
    ServerIndex.createEpaycoSession remote config log = (Axios.rejected m, log)
    /\ (m = "ePayco Public Key and Private Key are required."
        \/ m = "Payment details are required.")
    /\ ~ Wording.tagged m.
Proof.
  intros H. unfold ServerIndex.createEpaycoSession. rewrite !truthy_string.
  assert (U1 : ~ Wording.tagged "ePayco Public Key and Private Key are required.")
    by (intros [T|[T|T]]; discriminate T).
  assert (U2 : ~ Wording.tagged "Payment details are required.")
    by (intros [T|[T|T]]; discriminate T).
  destruct (String.eqb_spec (CreateEpaycoSessionConfig.publicKey config) "") as [E1|N1].
  - eexists. split; [reflexivity|]. split; [now left | exact U1].
  - destruct (String.eqb_spec (CreateEpaycoSessionConfig.privateKey config) "")
      as [E2|N2].
    + eexists. split; [reflexivity|]. split; [now left | exact U1].
    + destruct H as [H|[H|H]]; try contradiction.
      rewrite H. eexists. split; [reflexivity|]. split; [now right | exact U2].
Qed.

Lemma ServerIndex_createEpaycoSession_configuration_error_witness :
  exists m : string,
    ServerIndex.createEpaycoSession
      (Fixtures.gateway Fixtures.login_ok Fixtures.session_ok)
      (Samples.config "pk" "sk" None) []
    = (Axios.rejected m, [])
    /\ (m = "ePayco Public Key and Private Key are required."
        \/ m = "Payment details are required.")
    /\ ~ Wording.tagged m.
Proof.
  apply (ServerIndex_createEpaycoSession_configuration_error
           (Fixtures.gateway Fixtures.login_ok Fixtures.session_ok)
           (Samples.config "pk" "sk" None) []).
  right. right. reflexivity.
Defined.

(** X21. [getEpaycoAuthToken] of [src/server/index.ts] treats a delivered
    login response like its sibling: it resolves exactly with a non-empty
    [token]; otherwise it rejects with the authentication tag (twice) and
    the first non-empty of [error], [textResponse], [titleResponse],
    [message], or its own fallback text. *)
Theorem ServerIndex_getEpaycoAuthToken_response
        (remote : Axios.net) (pk sk base : string) (log : list Axios.request)
        (body : option EpaycoLoginResponse.t) :
  Axios.login_endpoint remote log (login_request pk sk base) = Axios.fulfilled body ->
  let outcome := fst (ServerIndex.getEpaycoAuthToken remote pk sk base log) in
  (forall token : string,
      outcome = Axios.resolved token <-> Spec.has_token body token)
  /\ ((forall token : string, ~ Spec.has_token body token) ->
      outcome
      = Axios.rejected
          (AUTH_FAILED ++ AUTH_FAILED
           ++ Spec.first_present (Spec.login_fields body)
                "Failed to authenticate with ePayco: Invalid token or error response.")).
Proof.
  intros H outcome. subst outcome.
  rewrite ServerIndex_getEpaycoAuthToken_run, H. cbn [fst].
  rewrite ServerIndex_auth_error_message_spec. unfold Spec.has_token.
  split.
  - intros token. split.
    + intros R. apply if_truthy_resolved_inv in R as [R Hne].
      destruct body as [b|]; [|discriminate]. now exists b.
    + intros (b & -> & Ht & Hne). cbn [opt_chain]. rewrite Ht. unfold if_truthy.
      destruct (String.eqb_spec token ""); [contradiction | reflexivity].
  - intros Hno. unfold if_truthy.
    destruct (opt_chain body EpaycoLoginResponse.token) as [tok|] eqn:Et;
      [|reflexivity].
    destruct (String.eqb_spec tok "") as [->|Hne]; [reflexivity|].
    exfalso. apply (Hno tok). destruct body as [b|]; [|discriminate]. now exists b.
Qed.

Lemma ServerIndex_getEpaycoAuthToken_response_witness :
  fst (ServerIndex.getEpaycoAuthToken
         (Samples.gateway_login (Some EpaycoLoginResponse.empty)) "pk" "sk"
         DEFAULT_EPAYCO_API_BASE_URL [])
  = Axios.rejected
      (AUTH_FAILED ++ AUTH_FAILED
       ++ "Failed to authenticate with ePayco: Invalid token or error response.").
Proof.
  apply (proj2 (ServerIndex_getEpaycoAuthToken_response
                  (Samples.gateway_login (Some EpaycoLoginResponse.empty))
                  "pk" "sk" DEFAULT_EPAYCO_API_BASE_URL []
                  (Some EpaycoLoginResponse.empty) eq_refl)).
  intros token (b & [= <-] & T & _). discriminate T.
Defined.

(** X22. In [src/server/index.ts] a failed login request with an axios
    error gives the authentication tag and only the error body's [message],
    or a network fallback: [error], [textResponse] and axios's own message
    are not used. *)
Theorem ServerIndex_getEpaycoAuthToken_axios_error
        (remote : Axios.net) (pk sk base : string) (log : list Axios.request)
        (errorData : option EpaycoLoginResponse.t) (axios_message : string) :
  Axios.login_endpoint remote log (login_request pk sk base)
  = Axios.failed (Axios.AxiosError errorData axios_message) ->
  fst (ServerIndex.getEpaycoAuthToken remote pk sk base log)
  = Axios.rejected
      (AUTH_FAILED
       ++ Spec.first_present [opt_chain errorData EpaycoLoginResponse.message]
            "Network error or ePayco server issue during authentication.").
Proof.
  intros H. rewrite ServerIndex_getEpaycoAuthToken_run, H. cbn [fst].
  unfold ServerIndex.auth_catch. now rewrite or_single_first_present.
Qed.

Lemma ServerIndex_getEpaycoAuthToken_axios_error_witness :
  fst (ServerIndex.getEpaycoAuthToken
         (Fixtures.gateway Fixtures.login_refused Fixtures.session_ok)
         "pk" "sk" DEFAULT_EPAYCO_API_BASE_URL [])
  = Axios.rejected
      "ePayco Authentication Failed: Network error or ePayco server issue during authentication.".
Proof.
  apply (ServerIndex_getEpaycoAuthToken_axios_error
           (Fixtures.gateway Fixtures.login_refused Fixtures.session_ok)
           "pk" "sk" DEFAULT_EPAYCO_API_BASE_URL []
           (Some (EpaycoLoginResponse.mk None (Some "Invalid client") (Some "Title")
                    (Some "Text") None))
           "Request failed with status code 401").
  reflexivity.
Defined.

(** X23. In [src/server/index.ts], with the preconditions met and the
    login accepted, a session response whose [success] is not [true] is
    rejected with the session tag twice (the [catch] clause wraps the error
    the [try] block threw), then [textResponse], else [titleResponse], else
    a fixed text, then the field errors as [message (code: n)]. *)
Theorem ServerIndex_createEpaycoSession_refusal_message
        (remote : Axios.net) (config : CreateEpaycoSessionConfig.t)
        (log : list Axios.request)
        (pd : EpaycoPaymentDetails.t) (b : EpaycoLoginResponse.t) (token : string)
        (d : EpaycoSessionApiResponse.t) :
  CreateEpaycoSessionConfig.publicKey config <> "" ->
  CreateEpaycoSessionConfig.privateKey config <> "" ->
  CreateEpaycoSessionConfig.paymentDetails config = Some pd ->
  Axios.login_endpoint remote log (Spec.first_request config)
  = Axios.fulfilled (Some b) ->
  EpaycoLoginResponse.token b = Some token -> token <> "" ->
  Axios.session_endpoint remote (log ++ [Spec.first_request config])%list
    (Spec.second_request config pd token) = Axios.fulfilled (Some d) ->
  EpaycoSessionApiResponse.success d <> Some true ->
  fst (ServerIndex.createEpaycoSession remote config log)
  = Axios.rejected
      (SESSION_FAILED ++ SESSION_FAILED
       ++ Spec.first_present [ EpaycoSessionApiResponse.textResponse d;
                               EpaycoSessionApiResponse.titleResponse d ]
            "ePayco session creation failed."
       ++ Wording.details_text "code: " (EpaycoSessionApiResponse.data d)).
Proof.
  intros Hpk Hsk Hpd Hlogin Htok Hne Hsession Hs.
  rewrite (ServerIndex_createEpaycoSession_delivered _ _ _ _ _ _ _ Hpk Hsk Hpd Hlogin
             Htok Hne Hsession).
  unfold ServerIndex.session_error_message.
  rewrite with_details_text, or_pair_first_present.
  destruct (EpaycoSessionApiResponse.success d) as [[|]|]; try reflexivity.
  now contradiction Hs.
Qed.

Lemma ServerIndex_createEpaycoSession_refusal_message_witness :
  fst (ServerIndex.createEpaycoSession
         (Fixtures.gateway Fixtures.login_ok (Axios.fulfilled (Some Fixtures.refusal)))
         Fixtures.config [])
  = Axios.rejected
      ("ePayco Session Creation Failed: ePayco Session Creation Failed: Invalid data"
       ++ " Details: ip is required (code: 101), amount is invalid (code: 102)").
Proof.
  apply (ServerIndex_createEpaycoSession_refusal_message
           (Fixtures.gateway Fixtures.login_ok (Axios.fulfilled (Some Fixtures.refusal)))
           Fixtures.config [] (Samples.payment None None)
           (EpaycoLoginResponse.mk (Some "jwt") None None None None) "jwt"
           Fixtures.refusal);
    try discriminate; reflexivity.
Defined.

(* ================================================================== *)
(** * Part IV: properties of the client module *)
(* ================================================================== *)

Section Loader.
Import Browser.

Lemma status_of_settle_in (p : nat) (s : status) (ps : list (nat * status)) :
  status_of p ps = Some pending -> status_of p (settle_in p s ps) = Some s.
Proof.
  induction ps as [|[q t] r IH]; simpl; [discriminate|].
  destruct (Nat.eqb_spec p q) as [->|Hne]; simpl.
  - intros [= ->]. now rewrite Nat.eqb_refl.
  - intros H. destruct (Nat.eqb_spec p q); [contradiction | now apply IH].
Qed.

(** A settled promise keeps its state. *)
Lemma status_of_settle_in_settled (p q : nat) (s t : status) (ps : list (nat * status)) :
  status_of q ps = Some t -> t <> pending ->
  status_of q (settle_in p s ps) = Some t.
Proof.
  intros H Ht. induction ps as [|[q0 t0] r IH]; simpl in *; [discriminate|].
  destruct (Nat.eqb_spec p q0) as [->|Hne]; simpl.
  - destruct (Nat.eqb_spec q q0) as [->|]; [|assumption].
    injection H as ->. now destruct t.
  - destruct (Nat.eqb_spec q q0); [assumption | now apply IH].
Qed.

End Loader.

(** X24. [loadEpaycoScript] is single-flight in both versions of the
    client module: a call changes nothing when a promise is already kept,
    appends at most one script element to [document.head] otherwise, and a
    second call right after the first returns the same kept promise (or,
    when none is kept, a promise settled on the spot like the first) and
    leaves the page as the first left it. *)
Theorem loadEpaycoScript_single_flight (st : Browser.page) :
  (let st1 := snd (ClientIndex.loadEpaycoScript st) in
   ClientIndex.loadEpaycoScript st1 = ClientIndex.loadEpaycoScript st
   /\ (Browser.epaycoLoadPromise st <> None -> st1 = st)
   /\ (Browser.head st1 = Browser.head st
       \/ Browser.head st1 = (Browser.head st ++ [Browser.fresh st])%list)
   /\ Browser.body st1 = Browser.body st)
  /\ (let st1 := snd (ClientDocumented.loadEpaycoScript st) in
      ClientDocumented.loadEpaycoScript st1 = ClientDocumented.loadEpaycoScript st
      /\ (Browser.epaycoLoadPromise st <> None -> st1 = st)
      /\ (Browser.head st1 = Browser.head st
          \/ Browser.head st1 = (Browser.head st ++ [Browser.fresh st])%list)
      /\ Browser.body st1 = Browser.body st).
Proof.
  split.
  - unfold ClientIndex.loadEpaycoScript.
    destruct (Browser.in_browser st) eqn:B; cbn [negb snd].
    + destruct (Browser.epaycoLoadPromise st) as [p|] eqn:M; cbn [snd].
      * rewrite B, M. cbn [negb]. repeat split; auto.
      * destruct (Browser.found (Browser.getElementById st)
                  && Browser.has_checkout (Browser.ePayco st)) eqn:R; cbn [snd].
        -- rewrite B, M, R. cbn [negb]. repeat split; auto; try congruence.
        -- cbn [Browser.in_browser Browser.epaycoLoadPromise negb Browser.head
                 Browser.body]. repeat split; auto; try congruence.
    + rewrite B. cbn [negb]. repeat split; auto.
  - unfold ClientDocumented.loadEpaycoScript.
    destruct (Browser.in_browser st) eqn:B; cbn [negb snd].
    + destruct (Browser.epaycoLoadPromise st) as [p|] eqn:M; cbn [snd].
      * rewrite B, M. cbn [negb]. repeat split; auto.
      * destruct (Browser.found (Browser.getElementById st)
                  && Browser.has_checkout (Browser.ePayco st)) eqn:R; cbn [snd].
        -- rewrite B, M, R. cbn [negb]. repeat split; auto; try congruence.
        -- cbn [Browser.in_browser Browser.epaycoLoadPromise negb Browser.head
                 Browser.body]. repeat split; auto; try congruence.
    + rewrite B. cbn [negb]. repeat split; auto.
Qed.

Section LoaderScenarios.
Import Browser.

Ltac untouched_page st H :=
  destruct st as [b h bd g memo ps f];
  destruct H as (Hb & Hh & Hbd & Hm);
  cbn [in_browser head body epaycoLoadPromise] in Hb, Hh, Hbd, Hm;
  subst b h bd memo.

Lemma ClientIndex_load_untouched (st : page) :
  untouched st ->
  ClientIndex.loadEpaycoScript st
  = (kept (fresh st),
     Page true [fresh st] [] (ePayco st) (Some (fresh st))
       ((fresh st, pending) :: promises st) (S (fresh st))).
Proof. intros H. untouched_page st H. reflexivity. Qed.

Lemma ClientDocumented_load_untouched (st : page) :
  untouched st ->
  ClientDocumented.loadEpaycoScript st
  = (kept (fresh st),
     Page true [fresh st] [] (ePayco st) (Some (fresh st))
       ((fresh st, pending) :: promises st) (S (fresh st))).
Proof. intros H. untouched_page st H. reflexivity. Qed.

End LoaderScenarios.

(** X25. Retry after a failed load, in both versions: on a page where
    nothing carries the script id, the first call appends one script and
    keeps a pending promise; the script's [onerror] rejects that promise,
    removes the script and forgets the promise; the next call appends a new
    script and keeps a new pending promise, while the first promise stays
    rejected. *)
Theorem loadEpaycoScript_retry_after_error
        (st : Browser.page) (error : Browser.error_argument) :
  Browser.untouched st ->
  let p := Browser.fresh st in
  (let st1 := snd (ClientIndex.loadEpaycoScript st) in
   let st2 := ClientIndex.script_onerror p error st1 in
   let st3 := snd (ClientIndex.loadEpaycoScript st2) in
   fst (ClientIndex.loadEpaycoScript st) = Browser.kept p
   /\ Browser.head st1 = [p]
   /\ (exists m, Browser.status_of p (Browser.promises st2) = Some (Browser.rejected m)
                 /\ Browser.status_of p (Browser.promises st3)
                    = Some (Browser.rejected m))
   /\ Browser.head st2 = [] /\ Browser.epaycoLoadPromise st2 = None
   /\ fst (ClientIndex.loadEpaycoScript st2) = Browser.kept (S p)
   /\ Browser.head st3 = [S p]
   /\ Browser.status_of (S p) (Browser.promises st3) = Some Browser.pending)
  /\ (let st1 := snd (ClientDocumented.loadEpaycoScript st) in
      let st2 := ClientDocumented.script_onerror p error st1 in
      let st3 := snd (ClientDocumented.loadEpaycoScript st2) in
      fst (ClientDocumented.loadEpaycoScript st) = Browser.kept p
      /\ Browser.head st1 = [p]
      /\ (exists m, Browser.status_of p (Browser.promises st2)
                    = Some (Browser.rejected m)
                    /\ Browser.status_of p (Browser.promises st3)
                       = Some (Browser.rejected m))
      /\ Browser.head st2 = [] /\ Browser.epaycoLoadPromise st2 = None
      /\ fst (ClientDocumented.loadEpaycoScript st2) = Browser.kept (S p)
      /\ Browser.head st3 = [S p]
      /\ Browser.status_of (S p) (Browser.promises st3) = Some Browser.pending).
Proof.
  intros H p. subst p. split.
  - rewrite (ClientIndex_load_untouched st H). cbn [fst snd].
    unfold ClientIndex.script_onerror, ClientIndex.loadEpaycoScript.
    cbn [Browser.getElementById Browser.found Browser.head Browser.body app hd_error
         Browser.remove_found Browser.set_promise Browser.settle Browser.in_browser
         Browser.ePayco Browser.epaycoLoadPromise Browser.promises Browser.fresh
         Browser.settle_in Browser.status_of negb andb fst snd].
    rewrite !Nat.eqb_refl.
    cbn [Browser.getElementById Browser.found Browser.head Browser.body app hd_error
         Browser.in_browser Browser.ePayco Browser.epaycoLoadPromise Browser.promises
         Browser.fresh Browser.status_of negb andb fst snd].
    rewrite !Nat.eqb_refl.
    assert (E : Nat.eqb (Browser.fresh st) (S (Browser.fresh st)) = false)
      by (apply Nat.eqb_neq; lia).
    rewrite E. repeat split. eexists. split; reflexivity.
  - rewrite (ClientDocumented_load_untouched st H). cbn [fst snd].
    unfold ClientDocumented.script_onerror, ClientDocumented.loadEpaycoScript.
    cbn [Browser.getElementById Browser.found Browser.head Browser.body app hd_error
         Browser.remove_found Browser.set_promise Browser.settle Browser.in_browser
         Browser.ePayco Browser.epaycoLoadPromise Browser.promises Browser.fresh
         Browser.settle_in Browser.status_of negb andb fst snd].
    rewrite !Nat.eqb_refl.
    cbn [Browser.getElementById Browser.found Browser.head Browser.body app hd_error
         Browser.in_browser Browser.ePayco Browser.epaycoLoadPromise Browser.promises
         Browser.fresh Browser.status_of negb andb fst snd].
    rewrite !Nat.eqb_refl.
    assert (E : Nat.eqb (Browser.fresh st) (S (Browser.fresh st)) = false)
      by (apply Nat.eqb_neq; lia).
    rewrite E. repeat split. eexists. split; reflexivity.
Qed.

Lemma loadEpaycoScript_retry_after_error_witness :
  Browser.head
    (snd (ClientIndex.loadEpaycoScript
            (ClientIndex.script_onerror 0 Browser.an_Event
               (snd (ClientIndex.loadEpaycoScript Browser.blank)))))
  = [1].
Proof.
  assert (U : Browser.untouched Browser.blank) by (repeat split).
  destruct (loadEpaycoScript_retry_after_error Browser.blank Browser.an_Event U)
    as [(_ & _ & _ & _ & _ & _ & H & _) _].
  exact H.
Defined.

(** X26. A script that loads without defining the checkout: both versions
    reject the kept promise and forget it, so that the next call starts a
    new load. [src/client/index.ts] leaves the old script element in the
    document, which then holds two elements with the script id; the other
    version removes the old element first. *)
Theorem loadEpaycoScript_retry_after_incomplete_load (st : Browser.page) :
  Browser.untouched st ->
  let p := Browser.fresh st in
  (Browser.has_checkout (Browser.ePayco st) = false ->
   let st2 := ClientIndex.script_onload p (snd (ClientIndex.loadEpaycoScript st)) in
   let st3 := snd (ClientIndex.loadEpaycoScript st2) in
   (exists m, Browser.status_of p (Browser.promises st2) = Some (Browser.rejected m))
   /\ Browser.epaycoLoadPromise st2 = None
   /\ Browser.head st2 = [p]
   /\ fst (ClientIndex.loadEpaycoScript st2) = Browser.kept (S p)
   /\ Browser.head st3 = [p; S p])
  /\ (ClientDocumented.has_configure (Browser.ePayco st) = false ->
      let st2 :=
        ClientDocumented.script_onload p (snd (ClientDocumented.loadEpaycoScript st)) in
      let st3 := snd (ClientDocumented.loadEpaycoScript st2) in
      (exists m, Browser.status_of p (Browser.promises st2) = Some (Browser.rejected m))
      /\ Browser.epaycoLoadPromise st2 = None
      /\ Browser.head st2 = []
      /\ fst (ClientDocumented.loadEpaycoScript st2) = Browser.kept (S p)
      /\ Browser.head st3 = [S p]).
Proof.
  intros H p. subst p. split; intros G.
  - rewrite (ClientIndex_load_untouched st H). cbn [fst snd].
    unfold ClientIndex.script_onload, ClientIndex.loadEpaycoScript.
    cbn [Browser.ePayco]. rewrite G.
    cbn [Browser.getElementById Browser.found Browser.head Browser.body app hd_error
         Browser.set_promise Browser.settle Browser.in_browser
         Browser.ePayco Browser.epaycoLoadPromise Browser.promises Browser.fresh
         Browser.settle_in Browser.status_of negb andb fst snd].
    rewrite !Nat.eqb_refl, ?G.
    cbn [Browser.getElementById Browser.found Browser.head Browser.body app hd_error
         Browser.in_browser Browser.ePayco Browser.epaycoLoadPromise Browser.promises
         Browser.fresh Browser.status_of negb andb fst snd].
    rewrite ?Nat.eqb_refl, ?G. cbn [andb fst snd Browser.head app].
    repeat split. eexists. reflexivity.
  - rewrite (ClientDocumented_load_untouched st H). cbn [fst snd].
    unfold ClientDocumented.script_onload, ClientDocumented.loadEpaycoScript.
    cbn [Browser.ePayco]. rewrite G.
    cbn [Browser.getElementById Browser.found Browser.head Browser.body app hd_error
         Browser.remove_found Browser.set_promise Browser.settle Browser.in_browser
         Browser.ePayco Browser.epaycoLoadPromise Browser.promises Browser.fresh
         Browser.settle_in Browser.status_of negb andb fst snd].
    rewrite !Nat.eqb_refl.
    cbn [Browser.getElementById Browser.found Browser.head Browser.body app hd_error
         Browser.in_browser Browser.ePayco Browser.epaycoLoadPromise Browser.promises
         Browser.fresh Browser.status_of negb andb fst snd].
    rewrite ?Nat.eqb_refl. repeat split. eexists. reflexivity.
Qed.

Lemma loadEpaycoScript_retry_after_incomplete_load_witness :
  Browser.head
    (snd (ClientIndex.loadEpaycoScript
            (ClientIndex.script_onload 0
               (snd (ClientIndex.loadEpaycoScript Browser.blank)))))
  = [0; 1].
Proof.
  assert (U : Browser.untouched Browser.blank) by (repeat split).
  destruct (loadEpaycoScript_retry_after_incomplete_load Browser.blank U) as [A _].
  destruct (A eq_refl) as (_ & _ & _ & _ & H).
  exact H.
Defined.

(** X27. A successful load is kept for good, in both versions: once the
    script's [onload] finds the checkout, the kept promise is fulfilled and
    stays kept, and every later call returns it without touching the page,
    whatever [window.ePayco] has become by then. *)
Theorem loadEpaycoScript_success_is_kept
        (st : Browser.page) (g g' : Browser.global) :
  Browser.untouched st ->
  let p := Browser.fresh st in
  (Browser.has_checkout g = true ->
   let st2 :=
     ClientIndex.script_onload p
       (Browser.with_ePayco g (snd (ClientIndex.loadEpaycoScript st))) in
   Browser.status_of p (Browser.promises st2) = Some Browser.fulfilled
   /\ Browser.epaycoLoadPromise st2 = Some p
   /\ ClientIndex.loadEpaycoScript (Browser.with_ePayco g' st2)
      = (Browser.kept p, Browser.with_ePayco g' st2))
  /\ (ClientDocumented.has_configure g = true ->
      let st2 :=
        ClientDocumented.script_onload p
          (Browser.with_ePayco g (snd (ClientDocumented.loadEpaycoScript st))) in
      Browser.status_of p (Browser.promises st2) = Some Browser.fulfilled
      /\ Browser.epaycoLoadPromise st2 = Some p
      /\ ClientDocumented.loadEpaycoScript (Browser.with_ePayco g' st2)
         = (Browser.kept p, Browser.with_ePayco g' st2)).
Proof.
  intros H p. subst p. split; intros G.
  - rewrite (ClientIndex_load_untouched st H). cbn [fst snd].
    unfold ClientIndex.script_onload, ClientIndex.loadEpaycoScript, Browser.with_ePayco.
    cbn [Browser.ePayco]. rewrite G.
    cbn [Browser.settle Browser.in_browser Browser.head Browser.body
         Browser.ePayco Browser.epaycoLoadPromise Browser.promises Browser.fresh
         Browser.settle_in Browser.status_of negb].
    rewrite !Nat.eqb_refl. repeat split.
    cbn [Browser.status_of]. now rewrite Nat.eqb_refl.
  - rewrite (ClientDocumented_load_untouched st H). cbn [fst snd].
    unfold ClientDocumented.script_onload, ClientDocumented.loadEpaycoScript,
      Browser.with_ePayco.
    cbn [Browser.ePayco]. rewrite G.
    cbn [Browser.settle Browser.in_browser Browser.head Browser.body
         Browser.ePayco Browser.epaycoLoadPromise Browser.promises Browser.fresh
         Browser.settle_in Browser.status_of negb].
    rewrite !Nat.eqb_refl. repeat split.
    cbn [Browser.status_of]. now rewrite Nat.eqb_refl.
Qed.

Lemma loadEpaycoScript_success_is_kept_witness :
  Browser.status_of 0
    (Browser.promises
       (ClientIndex.script_onload 0
          (Browser.with_ePayco (Browser.checkout (Some Browser.good_configure))
             (snd (ClientIndex.loadEpaycoScript Browser.blank)))))
  = Some Browser.fulfilled.
Proof.
  assert (U : Browser.untouched Browser.blank) by (repeat split).
  destruct (loadEpaycoScript_success_is_kept Browser.blank
              (Browser.checkout (Some Browser.good_configure)) Browser.no_ePayco U)
    as [A _].
  destruct (A eq_refl) as (H & _).
  exact H.
Defined.

Section OpenCheckout.
Import Browser.

Lemma if_truthy_falsy {A : Type} (v : option string) (yes : string -> A) (no : A) :
  Js.truthy v = false -> if_truthy v yes no = no.
Proof.
  unfold Js.truthy, if_truthy. destruct v as [s|]; [|reflexivity].
  now destruct (String.eqb s "").
Qed.

Lemma if_truthy_cases {A : Type} (v : option string) (yes : string -> A) (no : A) :
  (exists s, v = Some s /\ s <> "" /\ if_truthy v yes no = yes s)
  \/ (Js.truthy v = false /\ if_truthy v yes no = no).
Proof.
  unfold Js.truthy, if_truthy. destruct v as [s|]; [|now right].
  destruct (String.eqb_spec s ""); [now right|].
  left. now exists s.
Qed.

Lemma open_catch_form (e : thrown) :
  Js.startsWith (ClientIndex.open_catch e) ClientIndex.OPEN_FAILED = true
  \/ ClientIndex.open_catch e
     = "An unknown error occurred while trying to open ePayco checkout.".
Proof.
  destruct e as [m|]; [left | now right].
  apply prefix_app.
Qed.

End OpenCheckout.

(** X28. [openEpaycoCheckout] validates before it loads anything: outside
    a browser, without [params], with a missing or empty [sessionId], or
    with an [external] that is not a boolean, it rejects with the message
    of that check (not wrapped by the [catch] clause) and leaves the page
    as it was: no script element, no kept promise. *)
Theorem openEpaycoCheckout_validation
        (params : option OpenEpaycoCheckoutParams.t) (st : Browser.page)
        (settlement : nat -> Axios.settled unit) (later : Browser.global) :
  Browser.in_browser st = false
  \/ params = None
  \/ (exists p, params = Some p
                /\ (Js.truthy (OpenEpaycoCheckoutParams.sessionId p) = false
                    \/ forall b, OpenEpaycoCheckoutParams.external p <> Js.boolean b)) ->
  exists m : string,
    ClientIndex.openEpaycoCheckout params st settlement later = (Axios.rejected m, st)
    /\ (m = "openEpaycoCheckout can only be called in a browser environment."
        \/ m = "sessionId is required to open ePayco checkout."
        \/ m = "The 'external' parameter (boolean) is required to open ePayco checkout.")
    /\ Js.startsWith m ClientIndex.OPEN_FAILED = false.
Proof.
  intros H. unfold ClientIndex.openEpaycoCheckout.
  destruct (Browser.in_browser st) eqn:B; cbn [negb].
  2:{ eexists. split; [reflexivity|]. split; [now left | reflexivity]. }
  destruct params as [p|].
  2:{ eexists. split; [reflexivity|]. split; [now right; left | reflexivity]. }
  match goal with
  | |- context [if_truthy ?v ?yes ?no] =>
      destruct (if_truthy_cases v yes no) as [(s & Es & Hs & ->)|[F ->]]
  end.
  - destruct H as [H|[H|(p' & [= <-] & [H|H])]]; try discriminate.
    + rewrite Es in H. unfold Js.truthy in H.
      destruct (String.eqb_spec s ""); [contradiction | discriminate].
    + destruct (OpenEpaycoCheckoutParams.external p) as [| |b| | | |];
        try (eexists; split; [reflexivity|]; split; [now right; right | reflexivity]).
      now contradiction (H b).
  - eexists. split; [reflexivity|]. split; [now right; left | reflexivity].
Qed.

Lemma openEpaycoCheckout_validation_witness :
  exists m : string,
    ClientIndex.openEpaycoCheckout
      (Some (OpenEpaycoCheckoutParams.mk (Some "") (Js.boolean true)))
      Browser.blank (fun _ => Axios.resolved tt) Browser.no_ePayco
    = (Axios.rejected m, Browser.blank)
    /\ (m = "openEpaycoCheckout can only be called in a browser environment."
        \/ m = "sessionId is required to open ePayco checkout."
        \/ m = "The 'external' parameter (boolean) is required to open ePayco checkout.")
    /\ Js.startsWith m ClientIndex.OPEN_FAILED = false.
Proof.
  apply (openEpaycoCheckout_validation
           (Some (OpenEpaycoCheckoutParams.mk (Some "") (Js.boolean true)))
           Browser.blank (fun _ => Axios.resolved tt) Browser.no_ePayco).
  right. right. eexists. split; [reflexivity|]. now left.
Defined.

(** X29. [openEpaycoCheckout] resolves only with the handler that
    [window.ePayco.checkout.configure] returned for exactly the given
    [sessionId] and [external], after the loader's promise was fulfilled and
    the handler's [openNew] was called and returned. *)
Theorem openEpaycoCheckout_resolved_only_opened
        (params : option OpenEpaycoCheckoutParams.t) (st : Browser.page)
        (settlement : nat -> Axios.settled unit) (later : Browser.global)
        (h : Browser.handler) :
  fst (ClientIndex.openEpaycoCheckout params st settlement later) = Axios.resolved h ->
  exists p sessionId external configure,
    params = Some p
    /\ OpenEpaycoCheckoutParams.sessionId p = Some sessionId /\ sessionId <> ""
    /\ OpenEpaycoCheckoutParams.external p = Js.boolean external
    /\ later = Browser.checkout (Some configure)
    /\ configure (Browser.Configure sessionId external) = Browser.returns h
    /\ h = Browser.a_handler (Some (Browser.returns tt))
    /\ match fst (ClientIndex.loadEpaycoScript st) with
       | Browser.rejected_now _ => False
       | Browser.resolved_now => True
       | Browser.kept q => settlement q = Axios.resolved tt
       end.
Proof.
  unfold ClientIndex.openEpaycoCheckout.
  destruct (Browser.in_browser st) eqn:B; cbn [negb]; [|discriminate].
  destruct params as [p|]; [|discriminate].
  match goal with
  | |- context [if_truthy ?v ?yes ?no] =>
      destruct (if_truthy_cases v yes no) as [(s & Es & Hs & ->)|[F ->]]
  end; [|discriminate].
  destruct (OpenEpaycoCheckoutParams.external p) as [| |ext| | | |] eqn:Ex;
    try discriminate.
  destruct (ClientIndex.loadEpaycoScript st) as [promise st'] eqn:L. cbn [fst].
  intros R.
  assert (A : match promise with
              | Browser.rejected_now m => Axios.rejected m
              | Browser.resolved_now => Axios.resolved tt
              | Browser.kept q => settlement q
              end = Axios.resolved tt).
  { destruct (match promise with
              | Browser.rejected_now m => Axios.rejected m
              | Browser.resolved_now => Axios.resolved tt
              | Browser.kept q => settlement q
              end) as [[]|m]; [reflexivity | discriminate]. }
  rewrite A in R.
  destruct later as [| |[configure|]]; try discriminate.
  destruct (configure (Browser.Configure s ext)) as [[|[[[]|e]|]]|e] eqn:C;
    try discriminate.
  injection R as <-.
  exists p, s, ext, configure. repeat split; try assumption.
  destruct promise as [m| |q]; [discriminate | exact I | exact A].
Qed.

Lemma openEpaycoCheckout_resolved_only_opened_witness :
  exists p sessionId external configure,
    Some (OpenEpaycoCheckoutParams.mk (Some "sess-1") (Js.boolean false)) = Some p
    /\ OpenEpaycoCheckoutParams.sessionId p = Some sessionId /\ sessionId <> ""
    /\ OpenEpaycoCheckoutParams.external p = Js.boolean external
    /\ Browser.checkout (Some Browser.good_configure)
       = Browser.checkout (Some configure)
    /\ configure (Browser.Configure sessionId external)
       = Browser.returns Browser.good_handler
    /\ Browser.good_handler = Browser.a_handler (Some (Browser.returns tt))
    /\ match fst (ClientIndex.loadEpaycoScript Browser.blank) with
       | Browser.rejected_now _ => False
       | Browser.resolved_now => True
       | Browser.kept q => (fun _ : nat => Axios.resolved tt) q = Axios.resolved tt
       end.
Proof.
  apply (openEpaycoCheckout_resolved_only_opened
           (Some (OpenEpaycoCheckoutParams.mk (Some "sess-1") (Js.boolean false)))
           Browser.blank (fun _ => Axios.resolved tt)
           (Browser.checkout (Some Browser.good_configure)) Browser.good_handler).
  reflexivity.
Defined.

(** X30. A rejection of [openEpaycoCheckout] carries either one of the
    three validation messages, or a message that starts with
    [Failed to open ePayco checkout: ] (a failed script load, a missing
    [configure], a bad handler, an [Error] thrown by foreign code), or, when
    foreign code threw something that is no [Error], the fixed text
    [An unknown error occurred while trying to open ePayco checkout.]. *)
Theorem openEpaycoCheckout_rejection_messages
        (params : option OpenEpaycoCheckoutParams.t) (st : Browser.page)
        (settlement : nat -> Axios.settled unit) (later : Browser.global)
        (m : string) :
  fst (ClientIndex.openEpaycoCheckout params st settlement later) = Axios.rejected m ->
  (m = "openEpaycoCheckout can only be called in a browser environment."
   \/ m = "sessionId is required to open ePayco checkout."
   \/ m = "The 'external' parameter (boolean) is required to open ePayco checkout.")
  \/ Js.startsWith m ClientIndex.OPEN_FAILED = true
  \/ m = "An unknown error occurred while trying to open ePayco checkout.".
Proof.
  unfold ClientIndex.openEpaycoCheckout.
  destruct (Browser.in_browser st) eqn:B; cbn [negb fst].
  2:{ intros [= <-]. left. now left. }
  destruct params as [p|].
  2:{ cbn [fst]. intros [= <-]. left. now right; left. }
  match goal with
  | |- context [if_truthy ?v ?yes ?no] =>
      destruct (if_truthy_cases v yes no) as [(s & Es & Hs & ->)|[F ->]]
  end.
  2:{ cbn [fst]. intros [= <-]. left. now right; left. }
  destruct (OpenEpaycoCheckoutParams.external p) as [| |ext| | | |];
    try (cbn [fst]; intros [= <-]; left; now right; right).
  destruct (ClientIndex.loadEpaycoScript st) as [promise st']. cbn [fst].
  destruct (match promise with
            | Browser.rejected_now m0 => Axios.rejected m0
            | Browser.resolved_now => Axios.resolved tt
            | Browser.kept q => settlement q
            end) as [[]|m0].
  - destruct later as [| |[configure|]];
      try (intros [= <-]; right; exact (open_catch_form (Browser.an_Error _))).
    destruct (configure (Browser.Configure s ext)) as [[|[[[]|e]|]]|e];
      try discriminate;
      intros [= <-]; right;
      first [ exact (open_catch_form (Browser.an_Error _))
            | exact (open_catch_form e) ].
  - intros [= <-]. right. exact (open_catch_form (Browser.an_Error m0)).
Qed.

Lemma openEpaycoCheckout_rejection_messages_witness :
  ("Failed to open ePayco checkout: ePayco checkout library is not available on window.ePayco.checkout.configure after script load."
   = "openEpaycoCheckout can only be called in a browser environment."
   \/ "Failed to open ePayco checkout: ePayco checkout library is not available on window.ePayco.checkout.configure after script load."
      = "sessionId is required to open ePayco checkout."
   \/ "Failed to open ePayco checkout: ePayco checkout library is not available on window.ePayco.checkout.configure after script load."
      = "The 'external' parameter (boolean) is required to open ePayco checkout.")
  \/ Js.startsWith
       "Failed to open ePayco checkout: ePayco checkout library is not available on window.ePayco.checkout.configure after script load."
       ClientIndex.OPEN_FAILED = true
  \/ "Failed to open ePayco checkout: ePayco checkout library is not available on window.ePayco.checkout.configure after script load."
     = "An unknown error occurred while trying to open ePayco checkout.".
Proof.
  apply (openEpaycoCheckout_rejection_messages
           (Some (OpenEpaycoCheckoutParams.mk (Some "sess-1") (Js.boolean false)))
           Browser.blank (fun _ => Axios.resolved tt) Browser.no_checkout).
  reflexivity.
Defined.
